(** * AOXC Supreme Notary: the scan / cursor / seal pipeline

    A shallow embedding of the two notary scripts of the repository,
    - [sentinel-ops/sentinel.py] (v8.3.5), module [V835], and
    - [INFRASTRUCTURE/40_SENTINEL/infra40_SentinelGuard.py] (v8.4.0),
      module [V840],
    together with the parts of the Python standard library their sealing
    step calls ([json.dumps(..., sort_keys=True)], [hashlib.sha256],
    [str.upper]), and the properties of the specification proved or
    refuted on them.

    Conventions.
    - Python [int] is [Z]; program text is a Rocq [string]; the strings
      inside event payloads are sequences of Unicode code points
      ([pystr]); a Python [dict] is an association list in insertion order
      whose keys are pairwise distinct ([wf_json]).
    - The world outside the process (RPC endpoints, clock, publisher) is a
      record of oracles, [World]; the files the scripts own are a [Disk].
    - Every observable effect is logged in a chronological trace of
      [Event]s next to the explicit state that is threaded through; the
      disk a crash leaves behind is the disk after a prefix of the trace
      ([disk_after]).
    - The [while] loop is a function with fuel; the entry functions give
      it [head - cursor] iterations, which is enough whenever the step is
      not negative ([loop_terminates]).

    Not modelled: the creation of the two folders, failures of the local
    file system, exceptions of [w3.eth.block_number] and of
    [to_checksum_address], floating point numbers inside events (a log
    has none), the text layout ([indent=4]) of the certificate file, whose
    content is kept as the JSON value dumped into it, the limit recent
    Python versions put on the number of digits of an integer they
    convert to or from text.  The address filter of [get_logs] is the
    fixed [TARGETS] list and is left implicit in the oracle. *)

From Stdlib Require Import ZArith NArith List String Ascii Bool Lia.
From Stdlib Require Import Permutation DecimalString DecimalZ.
Import ListNotations.

#[local] Set Warnings "-register-all".

Local Open Scope string_scope.
Local Open Scope Z_scope.

(* ------------------------------------------------------------------ *)
(** ** Text helpers *)

(** [str(n)] and the [{n}] of an f-string, for a Python [int]. *)
Definition str_of_Z (n : Z) : string := NilZero.string_of_int (Z.to_int n).

(** [sep.join(parts)]. *)
Fixpoint join (sep : string) (parts : list string) : string :=
  match parts with
  | [] => EmptyString
  | [p] => p
  | p :: rest => p ++ sep ++ join sep rest
  end.

(** [s[:n]] for [0 <= n]. *)
Definition prefix_of (n : nat) (s : string) : string := substring 0 n s.

(** [str.upper] on one character; only the ASCII letters change. *)
Definition upper_ascii (c : ascii) : ascii :=
  let n := N_of_ascii c in
  if ((97 <=? n) && (n <=? 122))%N then ascii_of_N (n - 32) else c.

Fixpoint upper (s : string) : string :=
  match s with
  | EmptyString => EmptyString
  | String c s' => String (upper_ascii c) (upper s')
  end.

(** [str.encode()] of a text made of ASCII characters: one byte each. *)
Fixpoint encode (s : string) : list Z :=
  match s with
  | EmptyString => []
  | String c s' => Z.of_N (N_of_ascii c) :: encode s'
  end.

(** One lowercase hexadecimal digit, as [format(d, 'x')] for [0 <= d < 16]. *)
Definition hex_digit (d : Z) : ascii :=
  if d <? 10 then ascii_of_N (Z.to_N (48 + d)) else ascii_of_N (Z.to_N (87 + d)).

(* ------------------------------------------------------------------ *)
(** ** SHA-256 (FIPS 180-4), as [hashlib.sha256(data).hexdigest()]

    Words are integers in [0, 2^32); every sum is reduced modulo 2^32. *)

Module SHA256.

Definition mask32 : Z := 4294967295.

Definition add32 (x y : Z) : Z := (x + y) mod 4294967296.

Definition rotr (n x : Z) : Z :=
  Z.lor (Z.shiftr x n) (Z.land (Z.shiftl x (32 - n)) mask32).

Definition Ch (x y z : Z) : Z :=
  Z.lxor (Z.land x y) (Z.land (Z.lxor x mask32) z).

Definition Maj (x y z : Z) : Z :=
  Z.lxor (Z.lxor (Z.land x y) (Z.land x z)) (Z.land y z).

Definition Sum0 (x : Z) : Z :=
  Z.lxor (Z.lxor (rotr 2 x) (rotr 13 x)) (rotr 22 x).

Definition Sum1 (x : Z) : Z :=
  Z.lxor (Z.lxor (rotr 6 x) (rotr 11 x)) (rotr 25 x).

Definition sig0 (x : Z) : Z :=
  Z.lxor (Z.lxor (rotr 7 x) (rotr 18 x)) (Z.shiftr x 3).

Definition sig1 (x : Z) : Z :=
  Z.lxor (Z.lxor (rotr 17 x) (rotr 19 x)) (Z.shiftr x 10).

(** Round constants: the first 32 bits of the fractional parts of the
    cube roots of the first 64 primes. *)
Definition K : list Z :=
  [ 1116352408; 1899447441; 3049323471; 3921009573;
    961987163;  1508970993; 2453635748; 2870763221;
    3624381080; 310598401;  607225278;  1426881987;
    1925078388; 2162078206; 2614888103; 3248222580;
    3835390401; 4022224774; 264347078;  604807628;
    770255983;  1249150122; 1555081692; 1996064986;
    2554220882; 2821834349; 2952996808; 3210313671;
    3336571891; 3584528711; 113926993;  338241895;
    666307205;  773529912;  1294757372; 1396182291;
    1695183700; 1986661051; 2177026350; 2456956037;
    2730485921; 2820302411; 3259730800; 3345764771;
    3516065817; 3600352804; 4094571909; 275423344;
    430227734;  506948616;  659060556;  883997877;
    958139571;  1322822218; 1537002063; 1747873779;
    1955562222; 2024104815; 2227730452; 2361852424;
    2428436474; 2756734187; 3204031479; 3329325298 ].

(** Initial hash value: square roots of the first 8 primes. *)
Definition H0 : list Z :=
  [ 1779033703; 3144134277; 1013904242; 2773480762;
    1359893119; 2600822924; 528734635;  1541459225 ].

(** Big-endian bytes of the low [8 * n] bits of [x]. *)
Fixpoint be_bytes (n : nat) (x : Z) : list Z :=
  match n with
  | O => []
  | S n' => Z.land (Z.shiftr x (8 * Z.of_nat n')) 255 :: be_bytes n' x
  end.

(** Padding: a 1 bit, zeros up to 56 modulo 64 bytes, then the length
    of the message in bits on 64 bits. *)
Definition pad (msg : list Z) : list Z :=
  let len := Z.of_nat (List.length msg) in
  (msg ++ 128 :: repeat 0 (Z.to_nat ((55 - len) mod 64)) ++ be_bytes 8 (8 * len))%list.

(** Big-endian 32-bit words of a byte sequence (length a multiple of 4). *)
Fixpoint words (n : nat) (bytes : list Z) : list Z :=
  match n, bytes with
  | S n', b0 :: b1 :: b2 :: b3 :: rest =>
      (((b0 * 256 + b1) * 256 + b2) * 256 + b3) :: words n' rest
  | _, _ => []
  end.

(** Message schedule: 16 words of the block, extended to 64. *)
Fixpoint extend (n : nat) (w : list Z) : list Z :=
  match n with
  | O => w
  | S n' =>
      let t := List.length w in
      let at_ (k : nat) := nth (t - k) w 0 in
      extend n' (w ++ [add32 (add32 (add32 (sig1 (at_ 2%nat)) (at_ 7%nat))
                                    (sig0 (at_ 15%nat))) (at_ 16%nat)])%list
  end.

Definition round (s : list Z) (kw : Z * Z) : list Z :=
  match s with
  | [a; b; c; d; e; f; g; h] =>
      let t1 := add32 (add32 (add32 (add32 h (Sum1 e)) (Ch e f g)) (fst kw)) (snd kw) in
      let t2 := add32 (Sum0 a) (Maj a b c) in
      [add32 t1 t2; a; b; c; add32 d t1; e; f; g]
  | _ => s
  end.

Fixpoint add_words (x y : list Z) : list Z :=
  match x, y with
  | a :: x', b :: y' => add32 a b :: add_words x' y'
  | _, _ => []
  end.

Definition compress (h : list Z) (block : list Z) : list Z :=
  let w := extend 48 (words 16 block) in
  add_words h (fold_left round (combine K w) h).

(** The blocks of 64 bytes of a padded message. *)
Fixpoint blocks (n : nat) (bytes : list Z) : list (list Z) :=
  match n with
  | O => []
  | S n' =>
      match bytes with
      | [] => []
      | _ => firstn 64 bytes :: blocks n' (skipn 64 bytes)
      end
  end.

(** The 32 bytes of the digest. *)
Definition digest (msg : list Z) : list Z :=
  let p := pad msg in
  flat_map (be_bytes 4) (fold_left compress (blocks (List.length p) p) H0).

Fixpoint hex_of_bytes (bytes : list Z) : string :=
  match bytes with
  | [] => EmptyString
  | b :: rest =>
      String (hex_digit (Z.shiftr b 4))
             (String (hex_digit (Z.land b 15)) (hex_of_bytes rest))
  end.

(** [hashlib.sha256(msg).hexdigest()]: 64 lowercase hexadecimal digits. *)
Definition hexdigest (msg : list Z) : string := hex_of_bytes (digest msg).

End SHA256.

(* ------------------------------------------------------------------ *)
(** ** JSON values

    What [json.loads(Web3.to_json(log))] yields for a log: the event as
    nested Python values.  A [dict] keeps its members in insertion order;
    its keys are strings, pairwise distinct ([wf_json]).  Numbers are
    integers: a log carries no floating point field. *)

(** A Python [str]: its code points. *)
Definition pystr : Type := list N.

(** A literal of the program text as a Python [str]. *)
Definition py (s : string) : pystr := map N_of_ascii (list_ascii_of_string s).

Inductive json : Type :=
| JNull
| JBool (b : bool)
| JInt (n : Z)
| JStr (s : pystr)
| JList (items : list json)
| JDict (members : list (pystr * json)).

(** Keys of every [dict] pairwise distinct, at every depth. *)
Fixpoint wf_json (j : json) : Prop :=
  match j with
  | JList items => fold_right (fun x acc => wf_json x /\ acc) True items
  | JDict members =>
      NoDup (map fst members)
      /\ fold_right (fun kv acc => wf_json (snd kv) /\ acc) True members
  | _ => True
  end.

(** Induction over [json] that reaches the values nested in lists. *)
Section JsonInduction.
Variable P : json -> Prop.
Hypothesis Hnull : P JNull.
Hypothesis Hbool : forall b, P (JBool b).
Hypothesis Hint : forall n, P (JInt n).
Hypothesis Hstr : forall s, P (JStr s).
Hypothesis Hlist : forall items, Forall P items -> P (JList items).
Hypothesis Hdict :
  forall members, Forall (fun kv => P (snd kv)) members -> P (JDict members).

Fixpoint json_nested_ind (j : json) : P j :=
  match j with
  | JNull => Hnull
  | JBool b => Hbool b
  | JInt n => Hint n
  | JStr s => Hstr s
  | JList items =>
      Hlist items
        ((fix go (l : list json) : Forall P l :=
            match l with
            | [] => Forall_nil P
            | x :: r => Forall_cons x (json_nested_ind x) (go r)
            end) items)
  | JDict members =>
      Hdict members
        ((fix go (l : list (pystr * json)) : Forall (fun kv => P (snd kv)) l :=
            match l with
            | [] => Forall_nil _
            | kv :: r =>
                @Forall_cons _ (fun kv => P (snd kv)) kv r
                  (json_nested_ind (snd kv)) (go r)
            end) members)
  end.
End JsonInduction.

(** Two values that differ at most in the order in which their [dict]s
    list their members; list items keep their positions. *)
Inductive same_fields : json -> json -> Prop :=
| sf_null : same_fields JNull JNull
| sf_bool b : same_fields (JBool b) (JBool b)
| sf_int n : same_fields (JInt n) (JInt n)
| sf_str s : same_fields (JStr s) (JStr s)
| sf_list l l' :
    Forall2 same_fields l l' -> same_fields (JList l) (JList l')
| sf_dict m p m' :
    Permutation m p ->
    Forall2 (fun a b => fst a = fst b /\ same_fields (snd a) (snd b)) p m' ->
    same_fields (JDict m) (JDict m').

(* ------------------------------------------------------------------ *)
(** ** [json.dumps(obj, sort_keys=True)]

    The defaults of [json.dumps] apply: [ensure_ascii=True], item
    separator [", "], key separator [": "], no indentation. *)

Definition dquote : string := String (ascii_of_N 34) EmptyString.

(** ['{0:04x}'.format(n)] for [0 <= n < 0x10000]. *)
Definition hex4 (n : Z) : string :=
  String (hex_digit (Z.land (Z.shiftr n 12) 15))
    (String (hex_digit (Z.land (Z.shiftr n 8) 15))
       (String (hex_digit (Z.land (Z.shiftr n 4) 15))
          (String (hex_digit (Z.land n 15)) EmptyString))).

(** The replacement of one code point in [json.encoder.encode_basestring_ascii]:
    the short escapes, then every code point outside [' '..'~'] as
    [\uXXXX], with a surrogate pair above the basic plane. *)
Definition escape_char (c : N) : string :=
  let n := Z.of_N c in
  if n =? 92 then "\\"
  else if n =? 34 then "\" ++ dquote
  else if n =? 8 then "\b"
  else if n =? 12 then "\f"
  else if n =? 10 then "\n"
  else if n =? 13 then "\r"
  else if n =? 9 then "\t"
  else if (32 <=? n) && (n <=? 126) then String (ascii_of_N c) EmptyString
  else if n <? 65536 then "\u" ++ hex4 n
  else
    let m := n - 65536 in
    "\u" ++ hex4 (Z.lor 55296 (Z.land (Z.shiftr m 10) 1023))
    ++ "\u" ++ hex4 (Z.lor 56320 (Z.land m 1023)).

Definition encode_basestring_ascii (s : pystr) : string :=
  dquote ++ concat EmptyString (map escape_char s) ++ dquote.

(** Order of Python [str]: lexicographic on code points. *)
Fixpoint pystr_compare (a b : pystr) : comparison :=
  match a, b with
  | [], [] => Eq
  | [], _ :: _ => Lt
  | _ :: _, [] => Gt
  | x :: a', y :: b' =>
      match N.compare x y with
      | Eq => pystr_compare a' b'
      | c => c
      end
  end.

Definition pystr_leb (a b : pystr) : bool :=
  match pystr_compare a b with Gt => false | _ => true end.

(** [sorted(dct.items())]: the members by ascending key.  With distinct
    keys the comparison of two members is decided by their keys. *)
Section SortItems.
Context {A : Type}.

Fixpoint insert_item (x : pystr * A) (l : list (pystr * A)) : list (pystr * A) :=
  match l with
  | [] => [x]
  | y :: l' =>
      if pystr_leb (fst x) (fst y) then x :: l else y :: insert_item x l'
  end.

Definition sort_items (l : list (pystr * A)) : list (pystr * A) :=
  fold_right insert_item [] l.
End SortItems.

Definition render_member (kv : pystr * string) : string :=
  encode_basestring_ascii (fst kv) ++ ": " ++ snd kv.

(** The text of a value.  A [dict] renders its members in key order;
    each member's value is rendered by the same function, so the members
    are rendered first and ordered by key afterwards. *)
Fixpoint dumps_sorted (j : json) : string :=
  match j with
  | JNull => "null"
  | JBool true => "true"
  | JBool false => "false"
  | JInt n => str_of_Z n
  | JStr s => encode_basestring_ascii s
  | JList items => "[" ++ join ", " (map dumps_sorted items) ++ "]"
  | JDict members =>
      "{" ++ join ", "
               (map render_member
                  (sort_items
                     (map (fun kv => (fst kv, dumps_sorted (snd kv))) members)))
          ++ "}"
  end.

(** [hashlib.sha256(json.dumps(payload, sort_keys=True).encode()).hexdigest().upper()],
    the expression both scripts seal a batch with. *)
Definition sha256_upper_of_sorted_dump (payload : list json) : string :=
  upper (SHA256.hexdigest (encode (dumps_sorted (JList payload)))).

(* ------------------------------------------------------------------ *)
(** ** The world outside the process, the files, the trace *)

(** What [w3.eth.get_logs(...)] does: it returns the logs of the range,
    each already as [json.loads(Web3.to_json(log))], or raises. *)
Inductive RpcResult : Type :=
| Logs (logs : list json)
| RpcError (msg : string).

(** What building a [Web3] on an endpoint and calling [is_connected()] does. *)
Inductive Probe : Type :=
| Connected
| NotConnected
| ProbeError.

(** What [subprocess.run(['ipfs', 'add', '-Q', path], ...)] does: the
    process ran ([cid] is [stdout.strip()]), or it could not be started. *)
Inductive PublishResult : Type :=
| Completed (returncode : Z) (cid : string) (stderr : string)
| SpawnError (msg : string).

Record World : Type := {
  base_dir : string;                          (* os.path.dirname(os.path.abspath(__file__)) *)
  is_connected : string -> Probe;             (* per endpoint URL *)
  block_number : string -> Z;                 (* w3.eth.block_number on that endpoint *)
  get_logs : string -> Z -> Z -> RpcResult;   (* fromBlock, toBlock; the address list is the fixed TARGETS *)
  time_time : nat -> Z;                       (* int(time.time()) at its n-th reading *)
  utcnow_isoformat : string;                  (* datetime.utcnow().isoformat() *)
  ipfs_add : string -> PublishResult
}.

(** The files the scripts own: the cursor file (absent, or a decimal
    integer) and the snapshot directory (file path and the certificate
    dumped into it). *)
Record Disk : Type := {
  cursor_file : option Z;
  snapshot_dir : list (string * json)
}.

Definition write_cursor (v : Z) (d : Disk) : Disk :=
  {| cursor_file := Some v; snapshot_dir := snapshot_dir d |}.

(** [open(path, 'w')] then [json.dump]: the file is created or replaced. *)
Definition write_snapshot (path : string) (cert : json) (d : Disk) : Disk :=
  {| cursor_file := cursor_file d;
     snapshot_dir :=
       (path, cert)
         :: filter (fun f => negb (String.eqb path (fst f))) (snapshot_dir d) |}.

Inductive Event : Type :=
| EvProbe (url : string)
| EvReadCursor (value : Z)
| EvGetLogs (fromBlock toBlock : Z)
| EvWriteCursor (value : Z)
| EvSleep
| EvPrint (text : string)
| EvWriteCert (path : string) (certificate : json)
| EvPublish (path : string).

(** How the process ends: the entry function returns, [sys.exit(msg)]
    ends it, or an exception leaves it uncaught. *)
Inductive Outcome : Type :=
| Returned
| Exited (msg : string)
| Uncaught (msg : string).

Record Run : Type := {
  outcome : Outcome;
  final_disk : Disk;
  trace : list Event
}.

(** The durable effect of one event, and of a trace prefix: what is on
    the disk if the process is killed right after it. *)
Definition apply_event (d : Disk) (e : Event) : Disk :=
  match e with
  | EvWriteCursor v => write_cursor v d
  | EvWriteCert path cert => write_snapshot path cert d
  | _ => d
  end.

Definition disk_after (d : Disk) (events : list Event) : Disk :=
  fold_left apply_event events d.

(** Projections of a trace. *)
Definition requested_ranges (t : list Event) : list (Z * Z) :=
  flat_map (fun e => match e with EvGetLogs a b => [(a, b)] | _ => [] end) t.

Definition cursor_writes (t : list Event) : list Z :=
  flat_map (fun e => match e with EvWriteCursor v => [v] | _ => [] end) t.

Definition certificates_written (t : list Event) : list (string * json) :=
  flat_map (fun e => match e with EvWriteCert p c => [(p, c)] | _ => [] end) t.

Definition publishes (t : list Event) : list string :=
  flat_map (fun e => match e with EvPublish p => [p] | _ => [] end) t.

Definition probes (t : list Event) : list string :=
  flat_map (fun e => match e with EvProbe u => [u] | _ => [] end) t.

Definition prints (t : list Event) : list string :=
  flat_map (fun e => match e with EvPrint s => [s] | _ => [] end) t.

(* ------------------------------------------------------------------ *)
(** ** Pieces both scripts share *)

Definition nl : string := String (ascii_of_N 10) EmptyString.

(** [c * n] for a one-character string. *)
Fixpoint repeat_str (c : string) (n : nat) : string :=
  match n with
  | O => EmptyString
  | S n' => c ++ repeat_str c n'
  end.

Fixpoint ends_with_slash (s : string) : bool :=
  match s with
  | EmptyString => false
  | String c EmptyString => Ascii.eqb c "/"
  | String _ s' => ends_with_slash s'
  end.

(** [os.path.join(a, b)] (POSIX). *)
Definition path_join (a b : string) : string :=
  if String.prefix "/" b then b
  else if (String.eqb a EmptyString) || ends_with_slash a then a ++ b
  else a ++ "/" ++ b.

(** The [for url in RPC_NODES: try: ... if w3.is_connected(): return w3
    except: continue] of both connectors: the endpoints probed, in
    order, and the first that answered. *)
Fixpoint first_live_endpoint (probe : string -> Probe) (urls : list string)
  : list Event * option string :=
  match urls with
  | [] => ([], None)
  | url :: rest =>
      match probe url with
      | Connected => ([EvProbe url], Some url)
      | NotConnected | ProbeError =>
          let (t, r) := first_live_endpoint probe rest in
          (EvProbe url :: t, r)
      end
  end.

(** How the [while] loop of a run ends. *)
Inductive ScanEnd : Type :=
| LoopExit (pointer : Z) (vault : list json)
| Raised (msg : string).

(** The [while pointer < current_head] loop, the same in both scripts up
    to the names and the progress line.  [fuel] bounds the number of
    iterations; [None] means it ran out. *)
Section ScanLoop.
Variable step : Z.                                  (* BLOCK_STEP *)
Variable head : Z.                                  (* current_block / current_head *)
Variable rpc_get_logs : Z -> Z -> RpcResult.        (* w3.eth.get_logs *)
Variable progress_line : Z -> Z -> nat -> string.

Fixpoint scan_loop (fuel : nat) (pointer : Z) (vault : list json) (d : Disk)
  : option (list Event * Disk * ScanEnd) :=
  if pointer <? head then
    match fuel with
    | O => None
    | S fuel' =>
        let limit := Z.min (pointer + step) head in
        match rpc_get_logs pointer limit with
        | RpcError msg => Some ([EvGetLogs pointer limit], d, Raised msg)
        | Logs logs =>
            let vault' := (vault ++ logs)%list in
            let pointer' := limit + 1 in
            match scan_loop fuel' pointer' vault' (write_cursor pointer' d) with
            | None => None
            | Some (t, d', e) =>
                Some (EvGetLogs pointer limit
                        :: EvPrint (progress_line pointer limit (List.length vault'))
                        :: EvWriteCursor pointer'
                        :: EvSleep
                        :: t, d', e)
            end
        end
    end
  else Some ([], d, LoopExit pointer vault).
End ScanLoop.

(** Iterations the loop can need from [pointer] when [0 <= step]. *)
Definition scan_fuel (pointer head : Z) : nat := Z.to_nat (head - pointer).

(* ------------------------------------------------------------------ *)
(** ** sentinel-ops/sentinel.py, v8.3.5 *)

Module V835.

Definition IDENTITY_TAG : string := "AOXC-V2-AKDENIZ-SUPREME-NOTARY".
Definition OFFICIAL_X : string := "https://x.com/AOXC_AKDENIZ".
Definition RPC_NODES : list string :=
  ["https://xlayer.drpc.org"; "https://rpc.xlayer.okx.com"].
Definition BLOCK_STEP : Z := 85.
Definition GENESIS_BLOCK : Z := 52084000.

Definition SNAPSHOT_DIR (w : World) : string := path_join (base_dir w) "snapshots".

(** [initialize_system]: the cursor file is created with the genesis
    block when it does not exist (the two folders are not modelled). *)
Definition initialize_system (d : Disk) : list Event * Disk :=
  match cursor_file d with
  | Some _ => ([], d)
  | None => ([EvWriteCursor GENESIS_BLOCK], write_cursor GENESIS_BLOCK d)
  end.

(** [setup_ghost_rpc]: the endpoint connected to, or the message of
    [sys.exit]. *)
Definition setup_ghost_rpc (nodes : list string) (w : World)
  : list Event * (string + string) :=
  match first_live_endpoint (is_connected w) nodes with
  | (t, Some url) => (t, inl url)
  | (t, None) => (t, inr (nl ++ "[!] FATAL: Tüm RPC kapıları kapalı."))
  end.

Definition banner (last_block current_block : Z) : list Event :=
  [ EvPrint (nl ++ repeat_str "=" 70);
    EvPrint "[SYSTEM] AOXC-V2-AKDENIZ SUPREME NOTARY V8.3.5 ACTIVATED";
    EvPrint ("[MEMORY] Resuming from block: " ++ str_of_Z last_block);
    EvPrint ("[TARGET] Scanning until: " ++ str_of_Z current_block);
    EvPrint (repeat_str "=" 70 ++ nl) ].

Definition progress_line (pointer end_ : Z) (proofs : nat) : string :=
  "[>] Syncing: " ++ str_of_Z pointer ++ " -> " ++ str_of_Z end_
  ++ " | Proofs: " ++ str_of_Z (Z.of_nat proofs).

(** Lines 99-100: [raw_manifest] and [atomic_hash]. *)
Definition atomic_hash (raw_vault : list json) : string :=
  let raw_manifest := dumps_sorted (JList raw_vault) in
  upper (SHA256.hexdigest (encode raw_manifest)).

Definition final_bundle (fingerprint : string) (last_block current_block unix_ts : Z)
           (raw_vault : list json) : json :=
  JDict
    [ (py "attestation",
       JDict
         [ (py "fingerprint_sha256", JStr (py fingerprint));
           (py "notary_seal", JStr (py IDENTITY_TAG));
           (py "author", JStr (py OFFICIAL_X));
           (py "range",
            JStr (py (str_of_Z last_block ++ "-" ++ str_of_Z current_block)));
           (py "unix_ts", JInt unix_ts);
           (py "motto", JStr (py "In Code We Trust - AOXC Akdeniz")) ]);
      (py "raw_payload", JList raw_vault) ].

Definition f_name (now : Z) : string := "Supreme_Sealed_" ++ str_of_Z now ++ ".json".

Definition critical (msg : string) : Event :=
  EvPrint (nl ++ "[CRITICAL] Error: " ++ msg).

(** What follows the loop when the vault is not empty: seal, write the
    certificate, publish it to IPFS. *)
Definition seal_and_publish (w : World) (last_block current_block : Z)
           (raw_vault : list json) (d : Disk) : list Event * Disk :=
  let fingerprint := atomic_hash raw_vault in
  let bundle :=
    final_bundle fingerprint last_block current_block (time_time w 0) raw_vault in
  let f_path := path_join (SNAPSHOT_DIR w) (f_name (time_time w 1)) in
  let report :=
    match ipfs_add w f_path with
    | Completed returncode cid stderr =>
        if returncode =? 0 then
          [ EvPrint (nl ++ "[+] MÜHÜR TAMAMLANDI: " ++ fingerprint);
            EvPrint ("[+] IPFS SERTİFİKA CID: " ++ cid ++ nl) ]
        else [ EvPrint (nl ++ "[!] IPFS Hatası: " ++ stderr) ]
    | SpawnError msg => [ critical msg ]
    end in
  (EvPrint (nl ++ "[*] MÜHÜRLEME BAŞLADI (Atomic Sealing)...")
     :: EvWriteCert f_path bundle
     :: EvPublish f_path
     :: report,
   write_snapshot f_path bundle d).

(** What the body of the [try] does once the loop is over (lines
    92-131), and the [except Exception] handler (lines 132-133). *)
Definition after_loop (w : World) (last_block current_block : Z)
           (e : ScanEnd) (d : Disk) : list Event * Disk :=
  match e with
  | Raised msg => ([critical msg], d)
  | LoopExit _ [] =>
      ([EvPrint (nl ++ "[*] Yeni veri bulunamadı. Beklemede: "
                 ++ str_of_Z current_block)], d)
  | LoopExit _ raw_vault =>
      seal_and_publish w last_block current_block raw_vault d
  end.

(** [run_supreme_notary], with the endpoint list and the step as
    arguments.  [None]: the loop does not terminate. *)
Definition run_supreme_notary (nodes : list string) (step : Z) (w : World) (d : Disk)
  : option Run :=
  let (t_init, d1) := initialize_system d in
  match setup_ghost_rpc nodes w with
  | (t_conn, inr msg) =>
      Some {| outcome := Exited msg; final_disk := d1; trace := t_init ++ t_conn |}
  | (t_conn, inl url) =>
      match cursor_file d1 with
      | None =>
          Some {| outcome := Uncaught "FileNotFoundError"; final_disk := d1;
                  trace := t_init ++ t_conn |}
      | Some last_block =>
          let current_block := block_number w url in
          match scan_loop step current_block (get_logs w url) progress_line
                          (scan_fuel last_block current_block) last_block [] d1 with
          | None => None
          | Some (t_scan, d2, e) =>
              let (t_end, d3) := after_loop w last_block current_block e d2 in
              Some {| outcome := Returned; final_disk := d3;
                      trace := t_init ++ t_conn
                               ++ EvReadCursor last_block
                               :: banner last_block current_block
                               ++ t_scan ++ t_end |}
          end
      end
  end.

(** The script as shipped. *)
Definition main : World -> Disk -> option Run :=
  run_supreme_notary RPC_NODES BLOCK_STEP.

End V835.

(* ------------------------------------------------------------------ *)
(** ** INFRASTRUCTURE/40_SENTINEL/infra40_SentinelGuard.py, v8.4.0 *)

Module V840.

Definition IDENTITY_TAG : string := "AOXC-V2-AKDENIZ-SUPREME-NOTARY".
Definition IDENTITY_ORG : string := "AOXC DAO".
Definition IDENTITY_CONTACT : string := "aoxcdao@gmail.com".
Definition IDENTITY_GITHUB : string := "https://github.com/aoxc/AOXCDAO".
Definition IDENTITY_X : string := "https://x.com/AOXC_AKDENIZ".

Definition RPC_NODES : list string :=
  ["https://xlayer.drpc.org"; "https://rpc.xlayer.okx.com"].
Definition GENESIS_BLOCK : Z := 52084000.
Definition BLOCK_STEP : Z := 70.
Definition TARGETS : list string :=
  [ "0xeb9580c3946bb47d73aae1d4f7a94148b554b2f4";
    "0x97Bdd1fD1CAF756e00eFD42eBa9406821465B365";
    "0x20c0DD8B6559912acfAC2ce061B8d5b19Db8CA84" ].

Definition SNAPSHOTS (w : World) : string := path_join (base_dir w) "snapshots".

(** [initialize_industrial_structure]. *)
Definition initialize_industrial_structure (d : Disk) : list Event * Disk :=
  match cursor_file d with
  | Some _ => ([], d)
  | None => ([EvWriteCursor GENESIS_BLOCK], write_cursor GENESIS_BLOCK d)
  end.

(** [get_supreme_provider]. *)
Definition get_supreme_provider (nodes : list string) (w : World)
  : list Event * (string + string) :=
  match first_live_endpoint (is_connected w) nodes with
  | (t, Some url) => (t, inl url)
  | (t, None) =>
      (t, inr (nl ++ "[!] CRITICAL: All gateway nodes are unreachable for "
               ++ IDENTITY_ORG ++ "."))
  end.

(** [seal_artifact(payload, start_block, end_block)]; the reading of
    [datetime.utcnow().isoformat()] is an argument. *)
Definition seal_artifact (payload : list json) (start_block end_block : Z)
           (now_iso : string) : json * string :=
  let manifest_str := dumps_sorted (JList payload) in
  let atomic_hash := upper (SHA256.hexdigest (encode manifest_str)) in
  let certificate :=
    JDict
      [ (py "attestation",
         JDict
           [ (py "fingerprint", JStr (py atomic_hash));
             (py "notary_seal", JStr (py IDENTITY_TAG));
             (py "authority", JStr (py IDENTITY_ORG));
             (py "repository", JStr (py IDENTITY_GITHUB));
             (py "contact", JStr (py IDENTITY_CONTACT));
             (py "timestamp", JStr (py now_iso));
             (py "range",
              JStr (py (str_of_Z start_block ++ "-" ++ str_of_Z end_block))) ]);
        (py "payload", JList payload) ] in
  (certificate, atomic_hash).

Definition banner (url : string) (cursor current_head : Z) : list Event :=
  [ EvPrint (nl ++ repeat_str "#" 80);
    EvPrint " AOXC SUPREME NOTARY | ACTIVE SESSION";
    EvPrint (" NODE ADDRESS   : " ++ url);
    EvPrint (" TARGET SCOPE   : " ++ str_of_Z (Z.of_nat (List.length TARGETS))
             ++ " Contracts");
    EvPrint (" SYNC RANGE     : " ++ str_of_Z cursor ++ " -> " ++ str_of_Z current_head);
    EvPrint (repeat_str "#" 80 ++ nl) ].

Definition progress_line (pointer limit : Z) (secured : nat) : string :=
  "[PROGRESS] " ++ str_of_Z pointer ++ " -> " ++ str_of_Z limit
  ++ " | Artifacts Secured: " ++ str_of_Z (Z.of_nat secured).

Definition file_name (now : Z) (final_hash : string) : string :=
  "AOXC_CERT_" ++ str_of_Z now ++ "_" ++ prefix_of 8 final_hash ++ ".json".

Definition breach (msg : string) : Event :=
  EvPrint (nl ++ "[ERROR] System Integrity Breach: " ++ msg).

(** What follows the loop when the vault is not empty. *)
Definition seal_and_save (w : World) (cursor current_head : Z)
           (vault : list json) (d : Disk) : list Event * Disk :=
  let (certificate, final_hash) :=
    seal_artifact vault cursor current_head (utcnow_isoformat w) in
  let name := file_name (time_time w 0) final_hash in
  let full_path := path_join (SNAPSHOTS w) name in
  ([ EvWriteCert full_path certificate;
     EvPrint (nl ++ "[+] SEALING COMPLETE: " ++ final_hash);
     EvPrint ("[+] ARTIFACT SAVED : " ++ name) ],
   write_snapshot full_path certificate d).

(** What the body of the [try] does once the loop is over (lines
    155-170), and the [except Exception] handler (lines 172-173). *)
Definition after_loop (w : World) (cursor current_head : Z)
           (e : ScanEnd) (d : Disk) : list Event * Disk :=
  match e with
  | Raised msg => ([breach msg], d)
  | LoopExit _ [] =>
      ([EvPrint "[*] No new data identified. Standing by for next block cycle."], d)
  | LoopExit _ vault => seal_and_save w cursor current_head vault d
  end.

(** [run_notary_cycle], with the endpoint list and the step as
    arguments.  [None]: the loop does not terminate. *)
Definition run_notary_cycle (nodes : list string) (step : Z) (w : World) (d : Disk)
  : option Run :=
  let (t_init, d1) := initialize_industrial_structure d in
  match get_supreme_provider nodes w with
  | (t_conn, inr msg) =>
      Some {| outcome := Exited msg; final_disk := d1; trace := t_init ++ t_conn |}
  | (t_conn, inl url) =>
      match cursor_file d1 with
      | None =>
          Some {| outcome := Uncaught "FileNotFoundError"; final_disk := d1;
                  trace := t_init ++ t_conn |}
      | Some cursor =>
          let current_head := block_number w url in
          match scan_loop step current_head (get_logs w url) progress_line
                          (scan_fuel cursor current_head) cursor [] d1 with
          | None => None
          | Some (t_scan, d2, e) =>
              let (t_end, d3) := after_loop w cursor current_head e d2 in
              Some {| outcome := Returned; final_disk := d3;
                      trace := t_init ++ t_conn
                               ++ EvReadCursor cursor
                               :: banner url cursor current_head
                               ++ t_scan ++ t_end |}
          end
      end
  end.

(** The script as shipped. *)
Definition main : World -> Disk -> option Run :=
  run_notary_cycle RPC_NODES BLOCK_STEP.

End V840.

(* ------------------------------------------------------------------ *)
(** ** Reading a trace *)

(** Ranges as the loop requests them one after the other from [p]: each
    starts where the pointer stands, below the head, and ends [step]
    blocks further or at the head. *)
Fixpoint tiles (step head p : Z) (rs : list (Z * Z)) : Prop :=
  match rs with
  | [] => True
  | (a, b) :: rest =>
      a = p /\ p < head /\ b = Z.min (p + step) head /\ tiles step head (b + 1) rest
  end.

(** Where the pointer stands after the ranges [rs], starting from [p]. *)
Definition pointer_after (p : Z) (rs : list (Z * Z)) : Z :=
  last (map (fun ab => snd ab + 1) rs) p.

(** The calls and cursor writes of the iterations that completed [rs]. *)
Definition completed_io (rs : list (Z * Z)) : list Event :=
  flat_map (fun ab => [EvGetLogs (fst ab) (snd ab); EvWriteCursor (snd ab + 1)]) rs.

(** The [get_logs] calls and the cursor writes of a trace, in order. *)
Definition calls_and_writes (t : list Event) : list Event :=
  filter (fun e => match e with
                   | EvGetLogs _ _ | EvWriteCursor _ => true
                   | _ => false
                   end) t.

(** Events that touch neither the RPC log endpoint nor the disk nor the
    publisher. *)
Definition quiet (e : Event) : bool :=
  match e with
  | EvProbe _ | EvReadCursor _ | EvSleep | EvPrint _ => true
  | _ => false
  end.

Definition is_print (e : Event) : bool :=
  match e with EvPrint _ => true | _ => false end.

(** Strictly increasing values, all above [lo]. *)
Fixpoint increasing_from (lo : Z) (l : list Z) : Prop :=
  match l with
  | [] => True
  | x :: rest => lo < x /\ increasing_from x rest
  end.

(** Each value at least the one the file holds when it is written. *)
Fixpoint never_decreases (cur : option Z) (l : list Z) : Prop :=
  match l with
  | [] => True
  | x :: rest =>
      match cur with Some c => c <= x | None => True end
      /\ never_decreases (Some x) rest
  end.

(** The tiling in the words of the specification. *)
Fixpoint contiguous_from (p : Z) (rs : list (Z * Z)) : Prop :=
  match rs with
  | [] => True
  | (a, b) :: rest => a = p /\ contiguous_from (b + 1) rest
  end.

(* ------------------------------------------------------------------ *)
(** ** The shape of a run

    Both entry functions do the same things in the same order; they
    differ in the genesis constant, the texts they print and what follows
    the loop.  [run_shape] is what a run that got a connection looks
    like, with those differences as parameters. *)

(** The cursor a run starts from: the one in the file, or the genesis
    block that the bootstrap writes when there is no file. *)
Definition start_cursor (genesis : Z) (d : Disk) : Z :=
  match cursor_file d with Some c => c | None => genesis end.

Definition bootstrap (genesis : Z) (d : Disk) : list Event * Disk :=
  match cursor_file d with
  | Some _ => ([], d)
  | None => ([EvWriteCursor genesis], write_cursor genesis d)
  end.

(** What follows the loop requests no range and does not touch the
    cursor; unless there is a vault to seal it writes nothing at all. *)
Definition after_ok (after : Z -> Z -> ScanEnd -> Disk -> list Event * Disk) : Prop :=
  forall c h e d,
    requested_ranges (fst (after c h e d)) = []
    /\ cursor_writes (fst (after c h e d)) = []
    /\ calls_and_writes (fst (after c h e d)) = []
    /\ snd (after c h e d) = disk_after d (fst (after c h e d))
    /\ match e with
       | LoopExit _ (_ :: _) => True
       | _ => forallb quiet (fst (after c h e d)) = true
       end.

Section RunShape.
Variables genesis step : Z.
Variable line : Z -> Z -> nat -> string.
Variable after : Z -> Z -> ScanEnd -> Disk -> list Event * Disk.
Variable w : World.
Variable d : Disk.

Inductive run_shape (url : string) (r : Run) : Prop :=
| RunShape (t_conn banner t_scan : list Event) (d2 : Disk) (e : ScanEnd) :
    forallb quiet t_conn = true ->
    forallb is_print banner = true ->
    scan_loop step (block_number w url) (get_logs w url) line
              (scan_fuel (start_cursor genesis d) (block_number w url))
              (start_cursor genesis d) [] (snd (bootstrap genesis d))
    = Some (t_scan, d2, e) ->
    final_disk r
    = snd (after (start_cursor genesis d) (block_number w url) e d2) ->
    trace r
    = (fst (bootstrap genesis d) ++ t_conn
         ++ EvReadCursor (start_cursor genesis d) :: banner
         ++ t_scan
         ++ fst (after (start_cursor genesis d) (block_number w url) e d2))%list ->
    outcome r = Returned ->
    run_shape url r.
End RunShape.

(* ------------------------------------------------------------------ *)
(** ** Reading a certificate *)

Definition pystr_eqb (a b : pystr) : bool :=
  match pystr_compare a b with Eq => true | _ => false end.

(** [obj[key]] on a [dict]. *)
Definition json_get (key : string) (j : json) : option json :=
  match j with
  | JDict members =>
      option_map snd (find (fun kv => pystr_eqb (py key) (fst kv)) members)
  | _ => None
  end.

(** [cert["attestation"][field]]. *)
Definition attestation_field (field : string) (cert : json) : option json :=
  match json_get "attestation" cert with
  | Some a => json_get field a
  | None => None
  end.

(** The keys of a [dict], in insertion order. *)
Definition json_keys (j : json) : list pystr :=
  match j with
  | JDict members => map fst members
  | _ => []
  end.

(* ------------------------------------------------------------------ *)
(** ** The vocabulary of the specification *)

(** What C5 says of one run that started from the cursor [c0]. *)
Definition cursor_moves_forward (d : Disk) (c0 : Z) (r : Run) : Prop :=
  exists before after_read done tail,
    (* the cursor is read once, before any range is requested *)
    trace r = (before ++ EvReadCursor c0 :: after_read)%list
    /\ requested_ranges before = []
    (* every value written afterwards exceeds the value read and every
       value written before it *)
    /\ (forall earlier v later,
           cursor_writes after_read = (earlier ++ v :: later)%list ->
           c0 < v /\ Forall (fun u => u < v) earlier)
    (* the file never goes back, the bootstrap write included *)
    /\ never_decreases (cursor_file d) (cursor_writes (trace r))
    (* each answered call is followed by the write of the next pointer
       before the next call; at most one call, the last, is not *)
    /\ calls_and_writes after_read = (completed_io done ++ tail)%list
    /\ (tail = [] \/ exists a b, tail = [EvGetLogs a b]).

(** What C7 says of a run in which the call for [a, b] raised [msg]:
    [a, b] is the last range requested, the ranges before it were all
    answered, the cursor file holds one past the upper bound of the last
    of them (the start cursor when there is none), no certificate is
    written and nothing is published, so the events fetched so far are
    gone with the process, and the last action is the report. *)
Definition scan_aborted (d : Disk) (w : World) (url : string) (c0 : Z) (r : Run)
           (a b : Z) (report : Event) : Prop :=
  exists done t,
    requested_ranges (trace r) = (done ++ [(a, b)])%list
    /\ Forall (fun ab => exists logs, get_logs w url (fst ab) (snd ab) = Logs logs) done
    /\ a = pointer_after c0 done
    /\ cursor_file (final_disk r) = Some (pointer_after c0 done)
    /\ certificates_written (trace r) = []
    /\ publishes (trace r) = []
    /\ snapshot_dir (final_disk r) = snapshot_dir d
    /\ trace r = (t ++ [report])%list
    /\ outcome r = Returned.

(** What C1 says of a run [r] of the entry function [run] started on the
    disk [d] with the cursor [c0]: the trace splits right after the last
    cursor write, which comes before any certificate is written; ranges
    were fetched by then; on the disk at that point the cursor [x] is
    above the start cursor and above every fetched range while the
    snapshot directory is the one of the start, so nothing fetched is
    sealed; and a run resumed from that disk, against any world,
    requests no block below [x], hence none of the fetched ranges. *)
Definition crash_loses_fetched (run : World -> Disk -> option Run)
           (d : Disk) (c0 : Z) (r : Run) : Prop :=
  exists pre post x,
    trace r = (pre ++ post)%list
    /\ (exists pre', pre = (pre' ++ [EvWriteCursor x])%list)
    /\ cursor_writes post = []
    /\ certificates_written pre = []
    /\ requested_ranges pre <> []
    /\ cursor_file (disk_after d pre) = Some x
    /\ snapshot_dir (disk_after d pre) = snapshot_dir d
    /\ c0 < x
    /\ Forall (fun ab => c0 <= fst ab /\ snd ab < x) (requested_ranges pre)
    /\ forall w' r',
         run w' (disk_after d pre) = Some r' ->
         Forall (fun ab => x <= fst ab) (requested_ranges (trace r')).

(** The file name pattern of the specification,
    [<prefix>_<unixtime>_<fingerprint-prefix-or-full>.json]: some prefix,
    the time in decimal, and the first [k >= 1] characters of the
    fingerprint (all of it when [k] exceeds its length). *)
Definition follows_name_pattern (name : string) (unixtime : Z) (fingerprint : string)
  : Prop :=
  exists prefix k,
    (1 <= k)%nat
    /\ name = prefix ++ "_" ++ str_of_Z unixtime ++ "_"
                     ++ prefix_of k fingerprint ++ ".json".

(** [sub in s]. *)
Fixpoint occurs (sub s : string) : bool :=
  String.prefix sub s
  || match s with
     | EmptyString => false
     | String _ s' => occurs sub s'
     end.

(* ------------------------------------------------------------------ *)
(** The directory [after] is the directory [before] with the file
    [path] created or replaced and holding [cert]; every file under
    another name is as it was. *)
Definition directory_gains (before after : list (string * json))
           (path : string) (cert : json) : Prop :=
  In (path, cert) after
  /\ (forall c, In (path, c) after -> c = cert)
  /\ (forall p c, p <> path -> (In (p, c) after <-> In (p, c) before)).

(** A printed line mentions integrity, in whatever letter case. *)
Definition mentions_integrity (line : string) : bool :=
  occurs "INTEGRITY" (upper line).

(** ** Sample events, worlds and disks *)

(** An event and the same event with its fields listed in another order,
    also inside the nested object. *)
Definition sample_event : json :=
  JDict [ (py "address", JStr (py "0xeb9580c3946bb47d73aae1d4f7a94148b554b2f4"));
          (py "blockNumber", JInt 52084010);
          (py "topics", JList [JStr (py "0xddf2"); JStr (py "0x0000")]);
          (py "extra", JDict [(py "removed", JBool false); (py "logIndex", JInt 3)]) ].

Definition sample_event_reordered : json :=
  JDict [ (py "topics", JList [JStr (py "0xddf2"); JStr (py "0x0000")]);
          (py "extra", JDict [(py "logIndex", JInt 3); (py "removed", JBool false)]);
          (py "blockNumber", JInt 52084010);
          (py "address", JStr (py "0xeb9580c3946bb47d73aae1d4f7a94148b554b2f4")) ].

(** A world in which no endpoint answers: the first refuses, the second
    times out. *)
Definition world_offline : World :=
  {| base_dir := "/opt/aoxc/sentinel";
     is_connected := fun u =>
       if String.eqb u "https://xlayer.drpc.org" then NotConnected else ProbeError;
     block_number := fun _ => 0;
     get_logs := fun _ _ _ => Logs [];
     time_time := fun _ => 1700000000;
     utcnow_isoformat := "2023-11-14T22:13:20";
     ipfs_add := fun _ => SpawnError "ipfs" |}.

Definition disk_fresh : Disk := {| cursor_file := None; snapshot_dir := [] |}.

(** A world with one live endpoint, a fixed head and a given answer to
    each range. *)
Definition world_with (head : Z) (answer : Z -> Z -> RpcResult) : World :=
  {| base_dir := "/opt/aoxc/sentinel";
     is_connected := fun _ => Connected;
     block_number := fun _ => head;
     get_logs := fun _ => answer;
     time_time := fun n => 1700000000 + Z.of_nat n;
     utcnow_isoformat := "2023-11-14T22:13:20";
     ipfs_add := fun _ => Completed 0 "QmCertificate" EmptyString |}.

Definition three_events : list json :=
  [ JDict [(py "blockNumber", JInt 1001); (py "logIndex", JInt 0)];
    JDict [(py "blockNumber", JInt 1001); (py "logIndex", JInt 1)];
    JDict [(py "blockNumber", JInt 1077); (py "logIndex", JInt 0)] ].

(** The world of the end-to-end example. *)
Definition world_example : World :=
  world_with 1205 (fun a _ => Logs (if a =? 1000 then three_events else [])).

Definition disk_example : Disk := {| cursor_file := Some 1000; snapshot_dir := [] |}.

(** An endless stream of events: every range holds one. *)
Definition world_busy (head : Z) : World :=
  world_with head (fun _ _ => Logs [sample_event]).

(** A chain on which nothing happens at the watched addresses. *)
Definition world_silent (head : Z) : World :=
  world_with head (fun _ _ => Logs []).

(** The endpoint times out on the second range of the v8.4.0 stride. *)
Definition world_flaky (head : Z) : World :=
  world_with head (fun a _ => if a =? 52084071 then RpcError "timeout"
                              else Logs [sample_event]).

(* ------------------------------------------------------------------ *)
(** ** More vocabulary: answers, iterations, character classes *)

(** The events an endpoint answers a range with; none when it raises. *)
Definition answer (rpc : Z -> Z -> RpcResult) (ab : Z * Z) : list json :=
  match rpc (fst ab) (snd ab) with
  | Logs logs => logs
  | RpcError _ => []
  end.

(** The endpoint answers the range. *)
Definition answered (rpc : Z -> Z -> RpcResult) (ab : Z * Z) : Prop :=
  exists logs, rpc (fst ab) (snd ab) = Logs logs.

(** What the iterations that completed the ranges [rs] do, one after the
    other, when the vault holds [count] events before the first: call,
    progress line with the running count, cursor write, sleep. *)
Fixpoint iteration_trace (line : Z -> Z -> nat -> string)
         (rpc : Z -> Z -> RpcResult) (count : nat) (rs : list (Z * Z)) : list Event :=
  match rs with
  | [] => []
  | ab :: rest =>
      let count' := (count + List.length (answer rpc ab))%nat in
      EvGetLogs (fst ab) (snd ab)
        :: EvPrint (line (fst ab) (snd ab) count')
        :: EvWriteCursor (snd ab + 1)
        :: EvSleep
        :: iteration_trace line rpc count' rest
  end.

(** The snapshot directory after the certificates [certs] are written
    into it, in order. *)
Definition snapshots_after (dir : list (string * json)) (certs : list (string * json))
  : list (string * json) :=
  fold_left
    (fun files pc =>
       (fst pc, snd pc) :: filter (fun f => negb (String.eqb (fst pc) (fst f))) files)
    certs dir.

(** Every character is ASCII. *)
Fixpoint ascii_only (s : string) : bool :=
  match s with
  | EmptyString => true
  | String c s' => (N_of_ascii c <? 128)%N && ascii_only s'
  end.

(** Every character is one of [0-9A-F]. *)
Fixpoint upper_hex_only (s : string) : bool :=
  match s with
  | EmptyString => true
  | String c s' =>
      let n := N_of_ascii c in
      (((48 <=? n) && (n <=? 57)) || ((65 <=? n) && (n <=? 70)))%N
      && upper_hex_only s'
  end.

(** The requested ranges as a scan from [c0] towards [head] lays them:
    one after the other without gap or overlap, inside [c0, head], no
    wider than the step, and all of full width except possibly the last. *)
Definition ranges_well_tiled (step head c0 : Z) (rs : list (Z * Z)) : Prop :=
  contiguous_from c0 rs
  /\ Forall (fun ab => c0 <= fst ab /\ fst ab <= snd ab /\ snd ab <= head
                       /\ snd ab - fst ab <= step) rs
  /\ forall front last,
       rs = (front ++ [last])%list ->
       Forall (fun ab => snd ab - fst ab = step) front.

(** The number of calls of a scan from [c0] towards [head]: one stride
    less than the calls made fits strictly inside the distance, and when
    every call was answered the calls made cover the distance. *)
Definition call_count_bounded (rpc : Z -> Z -> RpcResult) (step head c0 : Z)
           (rs : list (Z * Z)) : Prop :=
  let n := Z.of_nat (List.length rs) in
  (rs <> [] -> (n - 1) * (step + 1) < head - c0)
  /\ (Forall (answered rpc) rs -> head - c0 <= n * (step + 1)).

(** Where a scan that was answered throughout leaves the cursor: one
    past its last range, which ends at the head, or one block before the
    head exactly when the distance is a multiple of the stride. *)
Definition complete_scan_cursor (step head c0 : Z) (rs : list (Z * Z))
           (final : option Z) : Prop :=
  exists front a b,
    rs = (front ++ [(a, b)])%list
    /\ final = Some (b + 1)
    /\ (b = head \/ b = head - 1)
    /\ (b = head - 1 <-> (head - c0) mod (step + 1) = 0).

(** A run that finds no block to scan: it requests nothing, leaves the
    disk as the bootstrap left it and ends on its "nothing new" line. *)
Definition idle_run (genesis : Z) (d : Disk) (r : Run) (last_line : Event) : Prop :=
  requested_ranges (trace r) = []
  /\ cursor_writes (trace r) = cursor_writes (fst (bootstrap genesis d))
  /\ certificates_written (trace r) = []
  /\ publishes (trace r) = []
  /\ final_disk r = snd (bootstrap genesis d)
  /\ outcome r = Returned
  /\ exists t, trace r = (t ++ [last_line])%list.

(** The events a run fetched, in the order of its requests. *)
Definition fetched_events (w : World) (url : string) (r : Run) : list json :=
  flat_map (answer (get_logs w url)) (requested_ranges (trace r)).

(** The run sealed: every request was answered and some event came back. *)
Definition sealable (w : World) (url : string) (r : Run) : Prop :=
  Forall (answered (get_logs w url)) (requested_ranges (trace r))
  /\ fetched_events w url r <> [].

(** What v8.3.5 prints once the publisher has been run on the
    certificate whose fingerprint is [fingerprint] (lines 125-130, and
    the handler of line 133 when the process cannot be started). *)
Definition publish_report (result : PublishResult) (fingerprint : string) : list Event :=
  match result with
  | Completed returncode cid stderr =>
      if returncode =? 0 then
        [ EvPrint (nl ++ "[+] MÜHÜR TAMAMLANDI: " ++ fingerprint);
          EvPrint ("[+] IPFS SERTİFİKA CID: " ++ cid ++ nl) ]
      else [ EvPrint (nl ++ "[!] IPFS Hatası: " ++ stderr) ]
  | SpawnError msg => [ V835.critical msg ]
  end.

(* ------------------------------------------------------------------ *)
(** ** Further vocabulary and samples *)

(** The endpoint times out on the second range of v8.3.5 from the
    genesis block. *)
Definition world_flaky_835 (head : Z) : World :=
  world_with head (fun a _ => if a =? 52084086 then RpcError "timeout"
                              else Logs [sample_event]).

(** The publisher is installed but fails on every file. *)
Definition world_publisher_down : World :=
  {| base_dir := "/opt/aoxc/sentinel";
     is_connected := fun _ => Connected;
     block_number := fun _ => 52084050;
     get_logs := fun _ _ _ => Logs [sample_event];
     time_time := fun n => 1700000000 + Z.of_nat n;
     utcnow_isoformat := "2023-11-14T22:13:20";
     ipfs_add := fun _ => Completed 1 EmptyString "Error: lock is held" |}.

(** A disk with an older certificate already in the snapshot directory. *)
Definition disk_with_history : Disk :=
  {| cursor_file := Some 52084000;
     snapshot_dir := [("/opt/aoxc/sentinel/snapshots/AOXC_CERT_1690000000_0A1B2C3D.json",
                       JDict [(py "payload", JList [])])] |}.

(** The result of a run that is known to end. *)
Definition run_or_idle (o : option Run) : Run :=
  match o with
  | Some r => r
  | None => {| outcome := Returned; final_disk := disk_fresh; trace := [] |}
  end.

(** Two sealing runs of v8.3.5 within the same second, one after the other. *)
Definition first_run : Run :=
  run_or_idle (V835.main (world_busy 52084050) disk_fresh).

Definition second_run : Run :=
  run_or_idle (V835.main (world_busy 52084090) (final_disk first_run)).

Definition only_certificate (r : Run) : json :=
  match certificates_written (trace r) with
  | (_, c) :: _ => c
  | [] => JNull
  end.

(** Two runs, the second started on the disk the first left, resume
    where the first stopped: the completed ranges of the first and the
    ranges the second requests follow one another without gap or overlap
    from the cursor the first found; a range whose call raised in the
    first is where the second starts. *)
Definition resumes_where_it_stopped (rpc : Z -> Z -> RpcResult) (c0 : Z)
           (r1 r2 : Run) : Prop :=
  exists done tail,
    requested_ranges (trace r1) = (done ++ tail)%list
    /\ Forall (answered rpc) done
    /\ (tail = [] \/ exists a b msg, tail = [(a, b)] /\ rpc a b = RpcError msg)
    /\ contiguous_from c0 (done ++ requested_ranges (trace r2))
    /\ forall a b a2 b2 rest,
         tail = [(a, b)] ->
         requested_ranges (trace r2) = (a2, b2) :: rest ->
         a2 = a.

(** A connector result [(t, res)] on the list [nodes] is the first live
    endpoint after one probe of each endpoint before it, or a failure
    after one probe of each. *)
Definition connector_sound (w : World) (nodes : list string)
           (result : list Event * (string + string)) : Prop :=
  match snd result with
  | inl url =>
      exists before rest,
        nodes = (before ++ url :: rest)%list
        /\ Forall (fun u => is_connected w u <> Connected) before
        /\ is_connected w url = Connected
        /\ fst result = map EvProbe (before ++ [url])
  | inr _ =>
      Forall (fun u => is_connected w u <> Connected) nodes
      /\ fst result = map EvProbe nodes
  end.

(** What follows the loop neither probes, nor calls, nor sleeps. *)
Definition no_scan_event (e : Event) : bool :=
  match e with
  | EvProbe _ | EvGetLogs _ _ | EvSleep | EvWriteCursor _ | EvReadCursor _ => false
  | _ => true
  end.

(** The layout of the trace of a run on the endpoint list [nodes] that
    connected to [url] and found the cursor [c0]: first the
    bootstrap and the probes, which are a front part of the list ending
    with [url]; then the cursor is read; then come the iterations, one
    after the other and each made of a call, a progress line with the
    running number of events, the write of the next pointer and a sleep;
    then the call that raised, if one did; then the ending, in which
    there is no probe, no call, no sleep and no cursor access. *)
Definition run_trace_laid_out (line : Z -> Z -> nat -> string) (w : World)
           (nodes : list string) (url : string) (c0 : Z) (r : Run) : Prop :=
  exists boot attempts banner done tail ending,
    trace r = (boot ++ map EvProbe attempts
                 ++ EvReadCursor c0 :: banner
                 ++ iteration_trace line (get_logs w url) 0 done
                 ++ tail ++ ending)%list
    /\ (boot = [] \/ boot = [EvWriteCursor c0])
    /\ (exists dead rest, nodes = (dead ++ url :: rest)%list
                          /\ attempts = (dead ++ [url])%list)
    /\ forallb is_print banner = true
    /\ (tail = [] \/ exists a b msg, tail = [EvGetLogs a b]
                                     /\ get_logs w url a b = RpcError msg)
    /\ forallb no_scan_event ending = true.

(** ** The cursor file as text

    The disk above keeps the cursor as the integer it stands for.  These
    are the two conversions the scripts apply when they write and read
    the file. *)

(** [c.isspace()] for an ASCII character: tab to carriage return, the
    four separators 28 to 31 and the space. *)
Definition is_space (c : ascii) : bool :=
  let n := N_of_ascii c in
  (((9 <=? n) && (n <=? 13)) || ((28 <=? n) && (n <=? 32)))%N.

(** [s.lstrip()] and [s.rstrip()] on ASCII text. *)
Fixpoint lstrip (s : string) : string :=
  match s with
  | EmptyString => EmptyString
  | String c s' => if is_space c then lstrip s' else s
  end.

Fixpoint rstrip (s : string) : string :=
  match s with
  | EmptyString => EmptyString
  | String c s' =>
      match rstrip s' with
      | EmptyString => if is_space c then EmptyString else String c EmptyString
      | r => String c r
      end
  end.

(** [s.strip()] on ASCII text. *)
Definition strip (s : string) : string := rstrip (lstrip s).

(** [c] is one of the ASCII digits. *)
Definition is_decimal_digit (c : ascii) : bool :=
  let n := N_of_ascii c in ((48 <=? n) && (n <=? 57))%N.

(** The digits of the digit part of a decimal literal: one digit or
    more, with single underscores allowed between two digits and taken
    out.  [None] when another character occurs, when an underscore is
    misplaced or when there is no digit.  [after_digit] tells whether the
    character just read was a digit. *)
Fixpoint drop_underscores (after_digit : bool) (s : string) : option string :=
  match s with
  | EmptyString => if after_digit then Some EmptyString else None
  | String c s' =>
      if is_decimal_digit c
      then option_map (String c) (drop_underscores true s')
      else if Ascii.eqb c "_" && after_digit then drop_underscores false s'
      else None
  end.

Definition digit_part (s : string) : option Decimal.uint :=
  match drop_underscores false s with
  | Some digits => NilEmpty.uint_of_string digits
  | None => None
  end.

(** [int(s)] on ASCII text without blanks around it: an optional sign,
    then the digit part; [None] is [ValueError].  Leading zeros are
    accepted, as [int] accepts them.  The decimal digits outside ASCII
    that [int] also accepts cannot occur in the texts of this model. *)
Definition int_of_text (s : string) : option Z :=
  match s with
  | EmptyString => None
  | String c body =>
      if Ascii.eqb c "-" then option_map (fun u => - Z.of_uint u) (digit_part body)
      else if Ascii.eqb c "+" then option_map Z.of_uint (digit_part body)
      else option_map Z.of_uint (digit_part s)
  end.

(** [int(f.read().strip())] on the content of the cursor file (lines
    56-57 of v8.3.5, 118-119 of v8.4.0). *)
Definition read_cursor_text (content : string) : option Z :=
  int_of_text (strip content).

(** [f.write(str(pointer))] (lines 38-39 and 87-88 of v8.3.5, 66-67 and
    149-150 of v8.4.0): the content the file has afterwards. *)
Definition cursor_text (pointer : Z) : string := str_of_Z pointer.

(** No character of [s] is blank. *)
Fixpoint no_space (s : string) : bool :=
  match s with
  | EmptyString => true
  | String c s' => negb (is_space c) && no_space s'
  end.

(** ** Two runs in a row *)

(** The run [r2] that follows [r1] does nothing to the chain or the
    disk. *)
Definition quiet_rerun (r1 r2 : Run) : Prop :=
  requested_ranges (trace r2) = []
  /\ cursor_writes (trace r2) = []
  /\ certificates_written (trace r2) = []
  /\ publishes (trace r2) = []
  /\ final_disk r2 = final_disk r1
  /\ outcome r2 = Returned.

(** * Properties *)

(** ** The library functions on test vectors *)

Example sha256_abc :
  upper (SHA256.hexdigest (encode "abc"))
  = "BA7816BF8F01CFEA414140DE5DAE2223B00361A396177A9CB410FF61F20015AD".
Proof. vm_compute. reflexivity. Qed.

Example sha256_empty :
  upper (SHA256.hexdigest (encode EmptyString))
  = "E3B0C44298FC1C149AFBF4C8996FB92427AE41E4649B934CA495991B7852B855".
Proof. vm_compute. reflexivity. Qed.

Example sha256_two_blocks :
  upper (SHA256.hexdigest (repeat 97 70))
  = "6BD5E5034855A11241F0DEE8FC72850FFD9955B28347A86428B5FA19119F6AD0".
Proof. vm_compute. reflexivity. Qed.

Example str_of_Z_examples :
  str_of_Z 0 = "0" /\ str_of_Z 1206 = "1206" /\ str_of_Z (-5) = "-5".
Proof. repeat split. Qed.

Example dumps_sorted_example :
  dumps_sorted
    (JList [JDict [(py "b", JInt 1);
                   (py "a", JList [JBool true; JNull;
                                   JStr [120; 34; 233; 10; 127; 128512]%N]);
                   ([], JInt (-5))]])
  = "[{" ++ dquote ++ dquote ++ ": -5, " ++ dquote ++ "a" ++ dquote
    ++ ": [true, null, " ++ dquote ++ "x\" ++ dquote
    ++ "\u00e9\n\u007f\ud83d\ude00" ++ dquote ++ "], "
    ++ dquote ++ "b" ++ dquote ++ ": 1}]".
Proof. vm_compute. reflexivity. Qed.

Example fingerprint_example :
  sha256_upper_of_sorted_dump
    [JDict [(py "b", JInt 1);
            (py "a", JList [JBool true; JNull;
                            JStr [120; 34; 233; 10; 127; 128512]%N]);
            ([], JInt (-5))]]
  = "5EB5C13467C297F70C32176CEA66C6295421CA49D3D5387176CCE8FB1B34CF62".
Proof. vm_compute. reflexivity. Qed.

(** The sample event and its reordering, sealed by either script, give
    the fingerprint CPython computes for them. *)
Example sample_event_fingerprint :
  V835.atomic_hash [sample_event]
  = "4986A1C557FF287A95B48586E9FE89C4A422518A09CC392032D54AB219600F6A"
  /\ snd (V840.seal_artifact [sample_event_reordered] 52084000 52084070
                             "2026-01-01T00:00:00")
     = "4986A1C557FF287A95B48586E9FE89C4A422518A09CC392032D54AB219600F6A"
  /\ sha256_upper_of_sorted_dump three_events
     = "568C4C588B7FE2B192601887DEAE1C65E401836E3E83C78B4AE30AE5EEEEF8D7".
Proof. repeat split; vm_compute; reflexivity. Qed.

(** ** The key order and the sorting of members *)

Lemma pystr_compare_eq (a b : pystr) : pystr_compare a b = Eq -> a = b.
Proof.
  revert b; induction a as [|x a IH]; intros [|y b]; simpl; try discriminate; auto.
  destruct (N.compare_spec x y) as [->|?|?]; try discriminate.
  intros H; f_equal; auto.
Qed.

Lemma pystr_compare_antisym (a b : pystr) :
  pystr_compare b a = CompOpp (pystr_compare a b).
Proof.
  revert b; induction a as [|x a IH]; intros [|y b]; simpl; auto.
  rewrite (N.compare_antisym x y).
  destruct (N.compare x y); simpl; auto.
Qed.

Lemma pystr_leb_total (a b : pystr) : pystr_leb a b = false -> pystr_leb b a = true.
Proof.
  unfold pystr_leb; rewrite (pystr_compare_antisym a b).
  destruct (pystr_compare a b); simpl; auto; discriminate.
Qed.

Lemma pystr_leb_antisym (a b : pystr) :
  pystr_leb a b = true -> pystr_leb b a = true -> a = b.
Proof.
  unfold pystr_leb; rewrite (pystr_compare_antisym a b).
  destruct (pystr_compare a b) eqn:E; simpl; try discriminate.
  intros _ _; apply pystr_compare_eq; exact E.
Qed.

Lemma pystr_leb_trans (a b c : pystr) :
  pystr_leb a b = true -> pystr_leb b c = true -> pystr_leb a c = true.
Proof.
  unfold pystr_leb.
  revert b c; induction a as [|x a IH]; intros [|y b] [|z c]; simpl; auto;
    try discriminate.
  destruct (N.compare_spec x y) as [->|Hxy|Hxy]; try discriminate.
  - destruct (N.compare_spec y z) as [->|Hyz|Hyz]; auto.
    apply IH.
  - intros _.
    destruct (N.compare_spec y z) as [->|Hyz|Hyz]; try discriminate; intros _.
    + rewrite (proj2 (N.compare_lt_iff x z) Hxy); reflexivity.
    + rewrite (proj2 (N.compare_lt_iff x z) (N.lt_trans _ _ _ Hxy Hyz)); reflexivity.
Qed.

Section SortFacts.
Context {A : Type}.
Implicit Types (x y : pystr * A) (l : list (pystr * A)).

Lemma insert_item_perm x l : Permutation (x :: l) (insert_item x l).
Proof.
  induction l as [|y l IH]; simpl; auto.
  destruct (pystr_leb (fst x) (fst y)); auto.
  rewrite perm_swap; constructor; exact IH.
Qed.

Lemma sort_items_perm l : Permutation l (sort_items l).
Proof.
  induction l as [|x l IH]; simpl; auto.
  rewrite <- insert_item_perm; constructor; exact IH.
Qed.

(** Two members with different keys can be inserted in either order. *)
Lemma insert_item_comm x y l :
  fst x <> fst y ->
  insert_item x (insert_item y l) = insert_item y (insert_item x l).
Proof.
  intros Hne.
  assert (Hxy : pystr_leb (fst x) (fst y) = negb (pystr_leb (fst y) (fst x))).
  { destruct (pystr_leb (fst x) (fst y)) eqn:E1, (pystr_leb (fst y) (fst x)) eqn:E2;
      simpl; auto.
    - elim Hne; apply pystr_leb_antisym; assumption.
    - apply pystr_leb_total in E1; congruence. }
  induction l as [|z l IH]; simpl.
  - rewrite Hxy; destruct (pystr_leb (fst y) (fst x)); reflexivity.
  - destruct (pystr_leb (fst x) (fst z)) eqn:Exz,
             (pystr_leb (fst y) (fst z)) eqn:Eyz; simpl.
    + rewrite Hxy, Exz, Eyz.
      destruct (pystr_leb (fst y) (fst x)); reflexivity.
    + rewrite Exz, Eyz.
      assert (Eyx : pystr_leb (fst y) (fst x) = false).
      { destruct (pystr_leb (fst y) (fst x)) eqn:E; auto.
        rewrite (pystr_leb_trans _ _ _ E Exz) in Eyz; discriminate. }
      rewrite Eyx; reflexivity.
    + rewrite Exz, Eyz.
      assert (Exy : pystr_leb (fst x) (fst y) = false).
      { destruct (pystr_leb (fst x) (fst y)) eqn:E; auto.
        rewrite (pystr_leb_trans _ _ _ E Eyz) in Exz; discriminate. }
      rewrite Exy; reflexivity.
    + rewrite Exz, Eyz, IH; reflexivity.
Qed.

(** With distinct keys the sorted members do not depend on the order
    in which the [dict] lists them. *)
Lemma sort_items_permutation l l' :
  Permutation l l' -> NoDup (map fst l) -> sort_items l = sort_items l'.
Proof.
  induction 1 as [|x l l' Hp IH|x y l|l l' l'' Hp1 IH1 Hp2 IH2]; intros Hnd; simpl.
  - reflexivity.
  - inversion Hnd; subst; rewrite IH; auto.
  - apply insert_item_comm.
    inversion Hnd as [|? ? Hin _]; subst.
    intros E; apply Hin; simpl; left; auto.
  - rewrite IH1, IH2; auto.
    eapply Permutation_NoDup; [apply Permutation_map; exact Hp1 | exact Hnd].
Qed.
End SortFacts.

Lemma wf_items_Forall (items : list json) :
  fold_right (fun x acc => wf_json x /\ acc) True items <-> Forall wf_json items.
Proof.
  induction items as [|x l IH]; simpl.
  - split; auto.
  - rewrite IH; split.
    + intros [? ?]; constructor; auto.
    + intros H; inversion H; auto.
Qed.

Lemma wf_members_Forall (members : list (pystr * json)) :
  fold_right (fun kv acc => wf_json (snd kv) /\ acc) True members
  <-> Forall (fun kv => wf_json (snd kv)) members.
Proof.
  induction members as [|x l IH]; simpl.
  - split; auto.
  - rewrite IH; split.
    + intros [? ?]; constructor; auto.
    + intros H; inversion H; auto.
Qed.

(** The canonical text of a value does not depend on the order in which
    its [dict]s list their members. *)
Lemma dumps_sorted_same_fields (a : json) :
  forall b, same_fields a b -> wf_json a -> dumps_sorted a = dumps_sorted b.
Proof.
  induction a as [|b0|n0|s0|items IH|members IH] using json_nested_ind;
    intros b Hsf Hwf; inversion Hsf; subst; try reflexivity.
  - (* lists: item by item *)
    assert (Hmap : map dumps_sorted items = map dumps_sorted l').
    { apply wf_items_Forall in Hwf.
      match goal with H : Forall2 same_fields _ _ |- _ => rename H into H2 end.
      clear Hsf.
      induction H2 as [|x y l l' Hxy H2 IHl]; simpl; auto.
      inversion IH; inversion Hwf; subst.
      f_equal; auto. }
    simpl; rewrite Hmap; reflexivity.
  - (* dicts: members permuted, then related one by one *)
    destruct Hwf as [Hnd Hwf]. apply wf_members_Forall in Hwf.
    match goal with H : Permutation _ _ |- _ => rename H into Hp end.
    match goal with H : Forall2 _ _ _ |- _ => rename H into H2 end.
    set (g := fun kv : pystr * json => (fst kv, dumps_sorted (snd kv))).
    assert (Hmap : map g p = map g m').
    { pose proof (Permutation_Forall Hp IH) as IHp.
      pose proof (Permutation_Forall Hp Hwf) as Hwfp.
      clear Hp Hsf Hnd IH Hwf.
      induction H2 as [|x y l l' [Hk Hv] H2 IHl]; simpl; auto.
      inversion IHp; inversion Hwfp; subst.
      f_equal; auto.
      unfold g; rewrite Hk; f_equal; auto. }
    assert (Hsort : sort_items (map g members) = sort_items (map g m')).
    { rewrite <- Hmap.
      apply sort_items_permutation.
      - apply Permutation_map; exact Hp.
      - rewrite map_map; simpl; exact Hnd. }
    simpl; fold g; rewrite Hsort; reflexivity.
Qed.

(* ------------------------------------------------------------------ *)
(** ** The scan loop *)

Lemma last_cons_default {A : Type} (l : list A) :
  forall x d d', last (x :: l) d = last (x :: l) d'.
Proof.
  induction l as [|y l IH]; intros x d d'; auto.
  change (last (y :: l) d = last (y :: l) d'); apply IH.
Qed.

Lemma pointer_after_cons (p a b : Z) (rs : list (Z * Z)) :
  pointer_after p ((a, b) :: rs) = pointer_after (b + 1) rs.
Proof.
  unfold pointer_after; simpl.
  generalize (b + 1); generalize (map (fun ab : Z * Z => snd ab + 1) rs).
  intros l z; destruct l as [|x l]; auto.
  apply last_cons_default.
Qed.

Section ScanFacts.
Variable step head : Z.
Variable rpc : Z -> Z -> RpcResult.
Variable line : Z -> Z -> nat -> string.
Hypothesis step_nonneg : 0 <= step.

Local Abbreviation loop := (scan_loop step head rpc line).

(** One unfolding of the loop, as three rewriting rules. *)
Lemma loop_exit fuel p v d :
  head <= p -> loop fuel p v d = Some ([], d, LoopExit p v).
Proof.
  intros H; destruct fuel; simpl;
    rewrite (proj2 (Z.ltb_ge p head) H); reflexivity.
Qed.

Lemma loop_raise fuel p v d msg :
  p < head -> rpc p (Z.min (p + step) head) = RpcError msg ->
  loop (S fuel) p v d = Some ([EvGetLogs p (Z.min (p + step) head)], d, Raised msg).
Proof.
  intros H E; simpl; rewrite (proj2 (Z.ltb_lt p head) H), E; reflexivity.
Qed.

Lemma loop_step fuel p v d logs :
  p < head -> rpc p (Z.min (p + step) head) = Logs logs ->
  loop (S fuel) p v d =
  match loop fuel (Z.min (p + step) head + 1) (v ++ logs)
             (write_cursor (Z.min (p + step) head + 1) d) with
  | None => None
  | Some (t, d', e) =>
      Some (EvGetLogs p (Z.min (p + step) head)
              :: EvPrint (line p (Z.min (p + step) head) (List.length (v ++ logs)))
              :: EvWriteCursor (Z.min (p + step) head + 1)
              :: EvSleep :: t, d', e)
  end.
Proof.
  intros H E; simpl; rewrite (proj2 (Z.ltb_lt p head) H), E; reflexivity.
Qed.

(** The loop terminates: [head - p] iterations are enough. *)
Lemma loop_terminates fuel :
  forall p v d, head - p <= Z.of_nat fuel -> exists r, loop fuel p v d = Some r.
Proof.
  induction fuel as [|fuel IH]; intros p v d Hfuel.
  - rewrite loop_exit by lia; eauto.
  - destruct (Z_lt_le_dec p head) as [Hlt|Hge].
    + destruct (rpc p (Z.min (p + step) head)) as [logs|msg] eqn:E.
      * rewrite (loop_step _ _ _ _ logs Hlt E).
        destruct (IH (Z.min (p + step) head + 1) (v ++ logs)%list
                     (write_cursor (Z.min (p + step) head + 1) d)) as [[[t d'] e] ->];
          [lia | eauto].
      * rewrite (loop_raise _ _ _ _ msg Hlt E); eauto.
    + rewrite loop_exit by lia; eauto.
Qed.

(** Induction over the iterations of a run of the loop. *)
Lemma loop_ind (P : Z -> list json -> Disk -> list Event -> Disk -> ScanEnd -> Prop) :
  (forall p v d, head <= p -> P p v d [] d (LoopExit p v)) ->
  (forall p v d msg,
      p < head -> rpc p (Z.min (p + step) head) = RpcError msg ->
      P p v d [EvGetLogs p (Z.min (p + step) head)] d (Raised msg)) ->
  (forall p v d logs t d' e,
      p < head -> rpc p (Z.min (p + step) head) = Logs logs ->
      P (Z.min (p + step) head + 1) (v ++ logs)%list
        (write_cursor (Z.min (p + step) head + 1) d) t d' e ->
      P p v d
        (EvGetLogs p (Z.min (p + step) head)
           :: EvPrint (line p (Z.min (p + step) head) (List.length (v ++ logs)))
           :: EvWriteCursor (Z.min (p + step) head + 1)
           :: EvSleep :: t) d' e) ->
  forall fuel p v d t d' e, loop fuel p v d = Some (t, d', e) -> P p v d t d' e.
Proof.
  intros Hexit Hraise Hstep.
  induction fuel as [|fuel IH]; intros p v d t d' e Hrun.
  - simpl in Hrun. destruct (p <? head) eqn:Hlt; [discriminate|].
    injection Hrun as <- <- <-. apply Hexit, Z.ltb_ge, Hlt.
  - destruct (Z_lt_le_dec p head) as [Hlt|Hge].
    + destruct (rpc p (Z.min (p + step) head)) as [logs|msg] eqn:E.
      * rewrite (loop_step _ _ _ _ logs Hlt E) in Hrun.
        destruct (loop fuel _ _ _) as [[[t0 d0] e0]|] eqn:Hrec; [|discriminate].
        injection Hrun as <- <- <-.
        apply Hstep; auto.
      * rewrite (loop_raise _ _ _ _ msg Hlt E) in Hrun.
        injection Hrun as <- <- <-. apply Hraise; auto.
    + rewrite loop_exit in Hrun by lia.
      injection Hrun as <- <- <-. apply Hexit; lia.
Qed.

(** The requested ranges follow one another from the starting pointer. *)
Lemma loop_tiles fuel p v d t d' e :
  loop fuel p v d = Some (t, d', e) -> tiles step head p (requested_ranges t).
Proof.
  revert fuel p v d t d' e.
  apply (loop_ind (fun p _ _ t _ _ => tiles step head p (requested_ranges t)));
    simpl; intuition.
Qed.

(** The loop writes no certificate, publishes nothing, probes nothing;
    what it leaves on the disk is what its trace wrote. *)
Lemma loop_disk fuel p v d t d' e :
  loop fuel p v d = Some (t, d', e) ->
  d' = disk_after d t /\ snapshot_dir d' = snapshot_dir d
  /\ certificates_written t = [] /\ publishes t = [] /\ probes t = [].
Proof.
  revert fuel p v d t d' e.
  apply (loop_ind (fun _ _ d t d' _ =>
           d' = disk_after d t /\ snapshot_dir d' = snapshot_dir d
           /\ certificates_written t = [] /\ publishes t = [] /\ probes t = []));
    simpl; intuition.
Qed.

(** How the loop ends.  On a normal exit every requested range was
    answered, each answer was followed by the write of the next pointer,
    the pointer reached the head and the vault grew by the answers in
    order.  On a raise the last requested range is the one that raised,
    and the ranges before it are the completed ones. *)
Lemma loop_end fuel p v d t d' e :
  loop fuel p v d = Some (t, d', e) ->
  match e with
  | LoopExit p' v' =>
      head <= p'
      /\ p' = pointer_after p (requested_ranges t)
      /\ calls_and_writes t = completed_io (requested_ranges t)
      /\ v' = (v ++ flat_map (fun ab => match rpc (fst ab) (snd ab) with
                                        | Logs logs => logs
                                        | RpcError _ => []
                                        end) (requested_ranges t))%list
      /\ Forall (fun ab => exists logs, rpc (fst ab) (snd ab) = Logs logs)
                (requested_ranges t)
  | Raised msg =>
      exists done a b,
        requested_ranges t = (done ++ [(a, b)])%list
        /\ rpc a b = RpcError msg
        /\ a = pointer_after p done
        /\ calls_and_writes t = (completed_io done ++ [EvGetLogs a b])%list
        /\ Forall (fun ab => exists logs, rpc (fst ab) (snd ab) = Logs logs) done
  end.
Proof.
  revert fuel p v d t d' e.
  apply (loop_ind (fun p v _ t _ e =>
    match e with
    | LoopExit p' v' =>
        head <= p'
        /\ p' = pointer_after p (requested_ranges t)
        /\ calls_and_writes t = completed_io (requested_ranges t)
        /\ v' = (v ++ flat_map (fun ab => match rpc (fst ab) (snd ab) with
                                          | Logs logs => logs
                                          | RpcError _ => []
                                          end) (requested_ranges t))%list
        /\ Forall (fun ab => exists logs, rpc (fst ab) (snd ab) = Logs logs)
                  (requested_ranges t)
    | Raised msg =>
        exists done a b,
          requested_ranges t = (done ++ [(a, b)])%list
          /\ rpc a b = RpcError msg
          /\ a = pointer_after p done
          /\ calls_and_writes t = (completed_io done ++ [EvGetLogs a b])%list
          /\ Forall (fun ab => exists logs, rpc (fst ab) (snd ab) = Logs logs) done
    end)).
  - intros p v d Hge; simpl. rewrite app_nil_r. auto.
  - intros p v d msg Hlt E. exists [], p, (Z.min (p + step) head). simpl. auto.
  - intros p v d logs t d' e Hlt E IH.
    destruct e as [p' v'|msg].
    + destruct IH as (Hge & Hp & Hio & Hv & Hall). simpl.
      repeat split; auto.
      * rewrite pointer_after_cons; exact Hp.
      * f_equal. f_equal. exact Hio.
      * rewrite Hv, E, <- app_assoc. reflexivity.
      * constructor; eauto.
    + destruct IH as (done & a & b & Hr & Hb & Ha & Hio & Hall).
      exists ((p, Z.min (p + step) head) :: done), a, b. simpl.
      repeat split; auto.
      * rewrite Hr; reflexivity.
      * rewrite pointer_after_cons; exact Ha.
      * f_equal. f_equal. exact Hio.
      * constructor; eauto.
Qed.
End ScanFacts.

(* ------------------------------------------------------------------ *)
(** ** Traces *)

Lemma is_print_quiet (l : list Event) : forallb is_print l = true -> forallb quiet l = true.
Proof.
  induction l as [|e l IH]; simpl; auto.
  destruct e; simpl; try discriminate; auto.
Qed.

Lemma quiet_projections (l : list Event) :
  forallb quiet l = true ->
  requested_ranges l = [] /\ cursor_writes l = [] /\ certificates_written l = []
  /\ publishes l = [] /\ calls_and_writes l = [] /\ forall d, disk_after d l = d.
Proof.
  induction l as [|e l IH]; simpl; auto.
  - intros _; repeat split; auto.
  - destruct e; simpl; try discriminate; auto.
Qed.

Lemma requested_ranges_app (a b : list Event) :
  requested_ranges (a ++ b) = (requested_ranges a ++ requested_ranges b)%list.
Proof. apply flat_map_app. Qed.

Lemma cursor_writes_app (a b : list Event) :
  cursor_writes (a ++ b) = (cursor_writes a ++ cursor_writes b)%list.
Proof. apply flat_map_app. Qed.

Lemma certificates_written_app (a b : list Event) :
  certificates_written (a ++ b) = (certificates_written a ++ certificates_written b)%list.
Proof. apply flat_map_app. Qed.

Lemma publishes_app (a b : list Event) :
  publishes (a ++ b) = (publishes a ++ publishes b)%list.
Proof. apply flat_map_app. Qed.

Lemma probes_app (a b : list Event) :
  probes (a ++ b) = (probes a ++ probes b)%list.
Proof. apply flat_map_app. Qed.

Lemma calls_and_writes_app (a b : list Event) :
  calls_and_writes (a ++ b) = (calls_and_writes a ++ calls_and_writes b)%list.
Proof. apply filter_app. Qed.

Lemma disk_after_app (d : Disk) (a b : list Event) :
  disk_after d (a ++ b) = disk_after (disk_after d a) b.
Proof. apply fold_left_app. Qed.

(** The cursor writes of the completed iterations, and what they leave
    in the cursor file. *)
Lemma cursor_writes_calls_and_writes (t : list Event) :
  cursor_writes (calls_and_writes t) = cursor_writes t.
Proof.
  induction t as [|e t IH]; simpl; auto.
  destruct e; simpl; auto. f_equal; exact IH.
Qed.

Lemma cursor_writes_completed_io (rs : list (Z * Z)) :
  cursor_writes (completed_io rs) = map (fun ab => snd ab + 1) rs.
Proof. induction rs as [|[a b] rs IH]; simpl; auto. f_equal; exact IH. Qed.

Lemma cursor_file_disk_after (t : list Event) :
  forall d, cursor_file (disk_after d t)
            = last (map Some (cursor_writes t)) (cursor_file d).
Proof.
  induction t as [|e t IH]; intros d; simpl; auto.
  destruct e; simpl; try apply IH.
  - rewrite IH; simpl.
    destruct (map Some (cursor_writes t)) eqn:E; auto.
    apply last_cons_default.
  - rewrite IH; reflexivity.
Qed.

Lemma increasing_from_weaken (lo lo' : Z) (l : list Z) :
  lo' <= lo -> increasing_from lo l -> increasing_from lo' l.
Proof. destruct l; simpl; auto. intros H [? ?]; split; auto; lia. Qed.

(** In an increasing sequence a value exceeds [lo] and all that precede it. *)
Lemma increasing_from_split (l1 : list Z) :
  forall lo x l2, increasing_from lo (l1 ++ x :: l2) ->
                  lo < x /\ Forall (fun y => y < x) l1.
Proof.
  induction l1 as [|y l1 IH]; intros lo x l2; simpl.
  - intros [H _]; auto.
  - intros [H1 H2]. destruct (IH _ _ _ H2) as [H3 H4].
    split; [lia|]. constructor; auto.
Qed.

Lemma increasing_never_decreases (l : list Z) :
  forall lo, increasing_from lo l -> never_decreases (Some lo) l.
Proof.
  induction l as [|x l IH]; simpl; auto.
  intros lo [H1 H2]; split; [lia | auto].
Qed.

Lemma tiles_facts (step head : Z) (rs : list (Z * Z)) :
  0 <= step ->
  forall p, tiles step head p rs ->
    contiguous_from p rs
    /\ Forall (fun ab => p <= fst ab /\ fst ab <= snd ab /\ snd ab <= head
                         /\ snd ab - fst ab <= step) rs
    /\ increasing_from p (map (fun ab => snd ab + 1) rs)
    /\ p <= pointer_after p rs <= Z.max p (head + 1).
Proof.
  intros Hs; induction rs as [|[a b] rs IH]; intros p; simpl.
  - intros _; repeat split; auto; unfold pointer_after; simpl; lia.
  - intros (-> & Hlt & -> & Ht).
    destruct (IH _ Ht) as (Hc & Hall & Hinc & Hpa).
    repeat split; auto; try lia.
    + constructor; simpl; [lia|].
      eapply Forall_impl; [|exact Hall]. simpl; intros; lia.
    + rewrite pointer_after_cons; lia.
    + rewrite pointer_after_cons; lia.
Qed.

(* ------------------------------------------------------------------ *)
(** ** The connectors *)

Lemma first_live_endpoint_quiet (probe : string -> Probe) (urls : list string) :
  forallb quiet (fst (first_live_endpoint probe urls)) = true.
Proof.
  induction urls as [|u urls IH]; simpl; auto.
  destruct (probe u); simpl; auto;
    destruct (first_live_endpoint probe urls); simpl in *; auto.
Qed.

(** The single pass over the endpoint list: the endpoints in front that
    do not answer are probed once each, in order; the first that answers
    ends the pass; none left means no connection. *)
Lemma first_live_endpoint_pass (probe : string -> Probe)
      (failing rest : list string) :
  Forall (fun u => probe u <> Connected) failing ->
  match rest with [] => True | u :: _ => probe u = Connected end ->
  first_live_endpoint probe (failing ++ rest)
  = (map EvProbe (failing ++ firstn 1 rest), hd_error rest).
Proof.
  intros Hf Hr; induction Hf as [|u failing Hu Hf IH]; simpl.
  - destruct rest as [|u rest]; simpl; auto.
    rewrite Hr; reflexivity.
  - rewrite IH.
    destruct (probe u); auto. elim Hu; reflexivity.
Qed.

(* ------------------------------------------------------------------ *)
(** ** Runs have the shape *)

Lemma bootstrap_cursor (genesis : Z) (d : Disk) :
  cursor_file (snd (bootstrap genesis d)) = Some (start_cursor genesis d)
  /\ snapshot_dir (snd (bootstrap genesis d)) = snapshot_dir d
  /\ snd (bootstrap genesis d) = disk_after d (fst (bootstrap genesis d))
  /\ requested_ranges (fst (bootstrap genesis d)) = []
  /\ certificates_written (fst (bootstrap genesis d)) = []
  /\ publishes (fst (bootstrap genesis d)) = []
  /\ never_decreases (cursor_file d) (cursor_writes (fst (bootstrap genesis d)))
  /\ last (map Some (cursor_writes (fst (bootstrap genesis d)))) (cursor_file d)
     = Some (start_cursor genesis d).
Proof.
  unfold bootstrap, start_cursor.
  destruct (cursor_file d) eqn:E; simpl; rewrite ?E; repeat split; auto.
Qed.

(** A run always ends when the step is not negative; it either got no
    connection and exited, or has the shape above. *)
Lemma run_supreme_notary_cases (nodes : list string) (step : Z) (w : World) (d : Disk) :
  0 <= step ->
  exists r, V835.run_supreme_notary nodes step w d = Some r
    /\ match first_live_endpoint (is_connected w) nodes with
       | (t_conn, Some url) =>
           run_shape V835.GENESIS_BLOCK step V835.progress_line
                     (V835.after_loop w) w d url r
       | (t_conn, None) =>
           (exists msg, outcome r = Exited msg)
           /\ trace r = (fst (bootstrap V835.GENESIS_BLOCK d) ++ t_conn)%list
           /\ final_disk r = snd (bootstrap V835.GENESIS_BLOCK d)
       end.
Proof.
  intros Hs. unfold V835.run_supreme_notary, V835.setup_ghost_rpc.
  change (V835.initialize_system d) with (bootstrap V835.GENESIS_BLOCK d).
  pose proof (first_live_endpoint_quiet (is_connected w) nodes) as Hq.
  destruct (bootstrap_cursor V835.GENESIS_BLOCK d) as (Hc & _).
  destruct (bootstrap V835.GENESIS_BLOCK d) as [t_init d1] eqn:Hb.
  destruct (first_live_endpoint (is_connected w) nodes) as [t_conn [url|]];
    simpl in Hq, Hc |- *.
  - rewrite Hc.
    destruct (loop_terminates step (block_number w url) (get_logs w url)
                V835.progress_line Hs
                (scan_fuel (start_cursor V835.GENESIS_BLOCK d) (block_number w url))
                (start_cursor V835.GENESIS_BLOCK d) [] d1) as [[[t_scan d2] e] Hrun].
    { unfold scan_fuel; lia. }
    rewrite Hrun.
    destruct (V835.after_loop w _ _ e d2) as [t_end d3] eqn:Ha.
    eexists; split; [reflexivity|].
    apply (RunShape _ _ _ _ _ _ _ _ t_conn
                    (V835.banner (start_cursor V835.GENESIS_BLOCK d) (block_number w url))
                    t_scan d2 e); simpl; rewrite ?Hb, ?Ha; auto.
  - eexists; split; [reflexivity|]. simpl; eauto.
Qed.

Lemma run_notary_cycle_cases (nodes : list string) (step : Z) (w : World) (d : Disk) :
  0 <= step ->
  exists r, V840.run_notary_cycle nodes step w d = Some r
    /\ match first_live_endpoint (is_connected w) nodes with
       | (t_conn, Some url) =>
           run_shape V840.GENESIS_BLOCK step V840.progress_line
                     (V840.after_loop w) w d url r
       | (t_conn, None) =>
           (exists msg, outcome r = Exited msg)
           /\ trace r = (fst (bootstrap V840.GENESIS_BLOCK d) ++ t_conn)%list
           /\ final_disk r = snd (bootstrap V840.GENESIS_BLOCK d)
       end.
Proof.
  intros Hs. unfold V840.run_notary_cycle, V840.get_supreme_provider.
  change (V840.initialize_industrial_structure d) with (bootstrap V840.GENESIS_BLOCK d).
  pose proof (first_live_endpoint_quiet (is_connected w) nodes) as Hq.
  destruct (bootstrap_cursor V840.GENESIS_BLOCK d) as (Hc & _).
  destruct (bootstrap V840.GENESIS_BLOCK d) as [t_init d1] eqn:Hb.
  destruct (first_live_endpoint (is_connected w) nodes) as [t_conn [url|]];
    simpl in Hq, Hc |- *.
  - rewrite Hc.
    destruct (loop_terminates step (block_number w url) (get_logs w url)
                V840.progress_line Hs
                (scan_fuel (start_cursor V840.GENESIS_BLOCK d) (block_number w url))
                (start_cursor V840.GENESIS_BLOCK d) [] d1) as [[[t_scan d2] e] Hrun].
    { unfold scan_fuel; lia. }
    rewrite Hrun.
    destruct (V840.after_loop w _ _ e d2) as [t_end d3] eqn:Ha.
    eexists; split; [reflexivity|].
    apply (RunShape _ _ _ _ _ _ _ _ t_conn
                    (V840.banner url (start_cursor V840.GENESIS_BLOCK d) (block_number w url))
                    t_scan d2 e); simpl; rewrite ?Hb, ?Ha; auto.
  - eexists; split; [reflexivity|]. simpl; eauto.
Qed.

Lemma after_loop_835_ok (w : World) : after_ok (V835.after_loop w).
Proof.
  intros c h [p [|x v]|msg] d; simpl; auto 10.
  unfold V835.seal_and_publish; simpl.
  destruct (ipfs_add w _) as [rc cid err|msg]; [destruct (rc =? 0)|]; simpl; auto 10.
Qed.

Lemma after_loop_840_ok (w : World) : after_ok (V840.after_loop w).
Proof.
  intros c h [p [|x v]|msg] d; simpl; auto 10.
Qed.

Lemma last_map_Some (l : list Z) (x : Z) :
  last (map Some l) (Some x) = Some (last l x).
Proof.
  revert x; induction l as [|y l IH]; intros x; auto.
  destruct l as [|z l]; auto.
  change (last (map Some (z :: l)) (Some x) = Some (last (z :: l) x)).
  apply IH.
Qed.

Lemma tiles_app_l (step head : Z) (rs rs' : list (Z * Z)) :
  forall p, tiles step head p (rs ++ rs') -> tiles step head p rs.
Proof.
  induction rs as [|[a b] rs IH]; intros p; simpl; auto.
  intros (? & ? & ? & ?); repeat split; auto.
Qed.

Section ShapeFacts.
Variables genesis step : Z.
Variable line : Z -> Z -> nat -> string.
Variable after : Z -> Z -> ScanEnd -> Disk -> list Event * Disk.
Variable w : World.
Variable d : Disk.
Variable url : string.
Variable r : Run.
Hypothesis step_nonneg : 0 <= step.
Hypothesis after_fine : after_ok after.
Hypothesis shape : run_shape genesis step line after w d url r.

Let c0 := start_cursor genesis d.
Let head := block_number w url.

(** The pieces of the trace and what each contributes. *)
Lemma shape_projections :
  exists before banner t_scan d2 e,
    scan_loop step head (get_logs w url) line (scan_fuel c0 head) c0 []
              (snd (bootstrap genesis d)) = Some (t_scan, d2, e)
    /\ trace r = (before ++ EvReadCursor c0 :: banner ++ t_scan
                    ++ fst (after c0 head e d2))%list
    /\ forallb is_print banner = true
    /\ requested_ranges before = []
    /\ cursor_writes before = cursor_writes (fst (bootstrap genesis d))
    /\ certificates_written before = []
    /\ disk_after d before = snd (bootstrap genesis d)
    /\ requested_ranges (trace r) = requested_ranges t_scan
    /\ cursor_writes (trace r)
       = (cursor_writes (fst (bootstrap genesis d)) ++ cursor_writes t_scan)%list
    /\ certificates_written (trace r)
       = certificates_written (fst (after c0 head e d2))
    /\ publishes (trace r) = publishes (fst (after c0 head e d2))
    /\ final_disk r = disk_after d (trace r)
    /\ final_disk r = snd (after c0 head e d2)
    /\ outcome r = Returned.
Proof.
  destruct shape as [t_conn banner t_scan d2 e Hq Hb Hrun Hfin Htr Hout].
  fold c0 head in Hrun, Hfin, Htr.
  destruct (bootstrap_cursor genesis d) as (_ & _ & Hd1 & Hr1 & Hc1 & Hp1 & _).
  destruct (quiet_projections _ Hq) as (Hr2 & Hw2 & Hc2 & Hp2 & _ & Hd2).
  destruct (quiet_projections _ (is_print_quiet _ Hb)) as (Hr3 & Hw3 & Hc3 & Hp3 & _ & Hd3).
  destruct (loop_disk _ _ _ _ _ _ _ _ _ _ _ Hrun) as (Hd4 & _ & Hc4 & Hp4 & _).
  destruct (after_fine c0 head e d2) as (Hr5 & Hw5 & _ & Hd5 & _).
  exists (fst (bootstrap genesis d) ++ t_conn)%list, banner, t_scan, d2, e.
  assert (Htr' : trace r
                 = ((fst (bootstrap genesis d) ++ t_conn)
                      ++ EvReadCursor c0 :: banner ++ t_scan
                      ++ fst (after c0 head e d2))%list)
    by (rewrite Htr, <- app_assoc; reflexivity).
  repeat split; auto.
  - rewrite requested_ranges_app, Hr1, Hr2; reflexivity.
  - rewrite cursor_writes_app, Hw2, app_nil_r; reflexivity.
  - rewrite certificates_written_app, Hc1, Hc2; reflexivity.
  - rewrite disk_after_app, Hd2; auto.
  - rewrite Htr. rewrite !requested_ranges_app. simpl.
    rewrite !requested_ranges_app, Hr1, Hr2, Hr3, Hr5, app_nil_r. reflexivity.
  - rewrite Htr. rewrite !cursor_writes_app. simpl.
    rewrite !cursor_writes_app, Hw2, Hw3, Hw5, app_nil_r. reflexivity.
  - rewrite Htr. rewrite !certificates_written_app. simpl.
    rewrite !certificates_written_app, Hc1, Hc2, Hc3, Hc4. reflexivity.
  - rewrite Htr. rewrite !publishes_app. simpl.
    rewrite !publishes_app, Hp1, Hp2, Hp3, Hp4. reflexivity.
  - rewrite Htr, Hfin, Hd5, Hd4, Hd1.
    rewrite !disk_after_app, Hd2. simpl.
    rewrite !disk_after_app, Hd3. reflexivity.
Qed.

(** The ranges a run requests follow one another from its start cursor. *)
Lemma shape_tiles : tiles step head c0 (requested_ranges (trace r)).
Proof.
  destruct shape_projections
    as (before & banner & t_scan & d2 & e & Hrun & _ & _ & _ & _ & _ & _ & Hr & _).
  rewrite Hr. eapply loop_tiles; eauto.
Qed.
End ShapeFacts.

(* ------------------------------------------------------------------ *)
(** * The specification, property by property *)

(** ** Sealing *)

Lemma seal_artifact_fingerprint (B : list json) (s e : Z) (now : string) :
  snd (V840.seal_artifact B s e now) = sha256_upper_of_sorted_dump B.
Proof. reflexivity. Qed.

Lemma atomic_hash_fingerprint (B : list json) :
  V835.atomic_hash B = sha256_upper_of_sorted_dump B.
Proof. reflexivity. Qed.

(** C3. Sealing is deterministic and blind to the order in which the
    events of the batch list their fields: two invocations on the same
    batch give the same fingerprint whatever the clock says, and a batch
    whose events have their fields (at any depth) listed in another
    order, the events themselves in the same order, gets the same
    fingerprint; the fingerprint is the uppercase hexadecimal SHA-256
    digest of the key-sorted serialization of the batch.  The keys of
    each [dict] are pairwise distinct, as in every Python [dict]. *)
Theorem C3_seal_fingerprint_deterministic
        (B B' : list json) (rangeStart rangeEnd : Z) (now now' : string) :
  Forall wf_json B ->
  Forall2 same_fields B B' ->
  snd (V840.seal_artifact B rangeStart rangeEnd now)
  = snd (V840.seal_artifact B rangeStart rangeEnd now')
  /\ snd (V840.seal_artifact B rangeStart rangeEnd now)
     = snd (V840.seal_artifact B' rangeStart rangeEnd now')
  /\ V835.atomic_hash B = V835.atomic_hash B'
  /\ snd (V840.seal_artifact B rangeStart rangeEnd now)
     = sha256_upper_of_sorted_dump B
  /\ V835.atomic_hash B = sha256_upper_of_sorted_dump B.
Proof.
  intros Hwf Hsf.
  assert (Hd : dumps_sorted (JList B) = dumps_sorted (JList B')).
  { apply dumps_sorted_same_fields.
    - constructor; exact Hsf.
    - apply wf_items_Forall; exact Hwf. }
  assert (Hf : sha256_upper_of_sorted_dump B = sha256_upper_of_sorted_dump B')
    by (unfold sha256_upper_of_sorted_dump; rewrite Hd; reflexivity).
  repeat split; try reflexivity; exact Hf.
Qed.

Lemma sample_event_wf : wf_json sample_event.
Proof.
  simpl; repeat split; auto;
    repeat (constructor; [simpl; intuition discriminate|]); constructor.
Qed.

Lemma sample_event_same_fields : same_fields sample_event sample_event_reordered.
Proof.
  unfold sample_event, sample_event_reordered.
  apply sf_dict with
    (p := [ (py "topics", JList [JStr (py "0xddf2"); JStr (py "0x0000")]);
            (py "extra", JDict [(py "removed", JBool false); (py "logIndex", JInt 3)]);
            (py "blockNumber", JInt 52084010);
            (py "address", JStr (py "0xeb9580c3946bb47d73aae1d4f7a94148b554b2f4")) ]).
  - eapply perm_trans; [apply Permutation_cons_append|]. simpl.
    eapply perm_trans; [apply Permutation_cons_append|]. simpl.
    do 2 apply perm_skip. apply perm_swap.
  - constructor; [split; [reflexivity|]|].
    { apply sf_list. repeat constructor. }
    constructor; [split; [reflexivity|]|].
    { apply sf_dict with (p := [(py "logIndex", JInt 3); (py "removed", JBool false)]).
      - apply perm_swap.
      - repeat constructor. }
    repeat constructor.
Qed.

Lemma C3_seal_fingerprint_deterministic_witness :
  V835.atomic_hash [sample_event] = V835.atomic_hash [sample_event_reordered]
  /\ snd (V840.seal_artifact [sample_event] 52084000 52084070 "2026-01-01T00:00:00")
     = snd (V840.seal_artifact [sample_event_reordered] 52084000 52084070
                               "2026-01-01T00:00:09.120000").
Proof.
  destruct (C3_seal_fingerprint_deterministic
              [sample_event] [sample_event_reordered] 52084000 52084070
              "2026-01-01T00:00:00" "2026-01-01T00:00:09.120000"
              (Forall_cons _ sample_event_wf (Forall_nil _))
              (Forall2_cons _ _ sample_event_same_fields (Forall2_nil _)))
    as (_ & H840 & H835 & _).
  split; assumption.
Defined.

(** C10. The two versions compute the same fingerprint for every batch,
    although the attestations they wrap it in use different keys
    ([fingerprint_sha256], [author], [unix_ts], [motto], [raw_payload] in
    v8.3.5; [fingerprint], [authority], [repository], [contact],
    [timestamp], [payload] in v8.4.0). *)
Theorem C10_fingerprint_same_in_both_versions
        (batch : list json) (start_block end_block unix_ts : Z) (now_iso : string) :
  snd (V840.seal_artifact batch start_block end_block now_iso)
  = V835.atomic_hash batch
  /\ json_keys (fst (V840.seal_artifact batch start_block end_block now_iso))
     <> json_keys (V835.final_bundle (V835.atomic_hash batch)
                                     start_block end_block unix_ts batch)
  /\ attestation_field "fingerprint"
       (fst (V840.seal_artifact batch start_block end_block now_iso))
     = Some (JStr (py (V835.atomic_hash batch)))
  /\ attestation_field "fingerprint_sha256"
       (V835.final_bundle (V835.atomic_hash batch) start_block end_block unix_ts batch)
     = Some (JStr (py (V835.atomic_hash batch))).
Proof.
  repeat split.
  intros H; simpl in H. discriminate H.
Qed.

(** ** Connecting *)

(** C9. One pass over the endpoint list, in order, without retry: the
    endpoints in front that fail the probe ([failing], by returning false
    or by raising) are each probed once; when none is left ([rest]
    empty) all N were probed, in list order, and the process is ended by
    [sys.exit]: the run requests nothing and writes no certificate; when
    the i-th endpoint is the first to pass (the head of [rest], with
    i - 1 failing ones before it) the connection to it is returned after
    exactly i probes. *)
Theorem C9_single_pass_over_endpoints
        (w : World) (d : Disk) (step : Z) (failing rest : list string) :
  Forall (fun u => is_connected w u <> Connected) failing ->
  match rest with [] => True | u :: _ => is_connected w u = Connected end ->
  let attempts := map EvProbe (failing ++ firstn 1 rest) in
  probes attempts = (failing ++ firstn 1 rest)%list
  /\ List.length attempts = (List.length failing + List.length (firstn 1 rest))%nat
  /\ fst (V835.setup_ghost_rpc (failing ++ rest) w) = attempts
  /\ fst (V840.get_supreme_provider (failing ++ rest) w) = attempts
  /\ match rest with
     | u :: _ =>
         snd (V835.setup_ghost_rpc (failing ++ rest) w) = inl u
         /\ snd (V840.get_supreme_provider (failing ++ rest) w) = inl u
     | [] =>
         (exists msg, snd (V835.setup_ghost_rpc failing w) = inr msg)
         /\ (exists msg, snd (V840.get_supreme_provider failing w) = inr msg)
         /\ (exists r msg,
                V835.run_supreme_notary failing step w d = Some r
                /\ outcome r = Exited msg
                /\ probes (trace r) = failing
                /\ requested_ranges (trace r) = []
                /\ certificates_written (trace r) = [])
         /\ (exists r msg,
                V840.run_notary_cycle failing step w d = Some r
                /\ outcome r = Exited msg
                /\ probes (trace r) = failing
                /\ requested_ranges (trace r) = []
                /\ certificates_written (trace r) = [])
     end.
Proof.
  intros Hf Hr attempts.
  pose proof (first_live_endpoint_pass (is_connected w) failing rest Hf Hr) as Hpass.
  assert (Hprobes : forall l, probes (map EvProbe l) = l).
  { induction l as [|x l IH]; simpl; auto. f_equal; exact IH. }
  assert (Hquiet : forall l, requested_ranges (map EvProbe l) = []
                             /\ certificates_written (map EvProbe l) = []).
  { induction l as [|x l IH]; simpl; auto. }
  assert (Hboot : forall g, probes (fst (bootstrap g d)) = []
                            /\ requested_ranges (fst (bootstrap g d)) = []
                            /\ certificates_written (fst (bootstrap g d)) = []).
  { intros g; unfold bootstrap; destruct (cursor_file d); simpl; auto. }
  split; [apply Hprobes|].
  split; [unfold attempts; rewrite length_map, length_app; reflexivity|].
  subst attempts.
  destruct rest as [|u rest].
  - rewrite app_nil_r in *. simpl in Hpass. rewrite app_nil_r in *.
    unfold V835.run_supreme_notary, V840.run_notary_cycle,
      V835.setup_ghost_rpc, V840.get_supreme_provider.
    change (V835.initialize_system d) with (bootstrap V835.GENESIS_BLOCK d).
    change (V840.initialize_industrial_structure d) with (bootstrap V840.GENESIS_BLOCK d).
    rewrite Hpass.
    destruct (Hboot V835.GENESIS_BLOCK) as (B1 & B2 & B3).
    destruct (Hboot V840.GENESIS_BLOCK) as (B4 & B5 & B6).
    destruct (Hquiet failing) as (Q1 & Q2).
    destruct (bootstrap V835.GENESIS_BLOCK d) as [t1 d1].
    destruct (bootstrap V840.GENESIS_BLOCK d) as [t2 d2].
    simpl in *.
    split; [reflexivity|]. split; [reflexivity|].
    split; [eexists; reflexivity|]. split; [eexists; reflexivity|].
    split; do 2 eexists; (split; [reflexivity|]); simpl;
      rewrite probes_app, requested_ranges_app, certificates_written_app,
        Hprobes, Q1, Q2; rewrite ?B1, ?B2, ?B3, ?B4, ?B5, ?B6; auto.
  - unfold V835.setup_ghost_rpc, V840.get_supreme_provider.
    rewrite Hpass. repeat split; reflexivity.
Qed.

Lemma C9_single_pass_over_endpoints_witness :
  fst (V840.get_supreme_provider V840.RPC_NODES world_offline)
  = [EvProbe "https://xlayer.drpc.org"; EvProbe "https://rpc.xlayer.okx.com"]
  /\ exists msg, snd (V840.get_supreme_provider V840.RPC_NODES world_offline) = inr msg.
Proof.
  assert (Hf : Forall (fun u => is_connected world_offline u <> Connected) V840.RPC_NODES)
    by (repeat constructor; simpl; discriminate).
  destruct (C9_single_pass_over_endpoints
              world_offline disk_fresh V840.BLOCK_STEP V840.RPC_NODES [] Hf I)
    as (_ & _ & _ & H840 & _ & Hexit & _).
  split.
  - rewrite app_nil_r in H840. exact H840.
  - exact Hexit.
Defined.

(** The second endpoint is the first to answer: two probes, then the
    connection to it. *)
Example second_endpoint_answers :
  let w := {| base_dir := "/opt/aoxc/sentinel";
              is_connected := fun u =>
                if String.eqb u "https://xlayer.drpc.org" then ProbeError else Connected;
              block_number := fun _ => 0;
              get_logs := fun _ _ _ => Logs [];
              time_time := fun _ => 1700000000;
              utcnow_isoformat := "2023-11-14T22:13:20";
              ipfs_add := fun _ => SpawnError "ipfs" |} in
  V835.setup_ghost_rpc V835.RPC_NODES w
  = ([EvProbe "https://xlayer.drpc.org"; EvProbe "https://rpc.xlayer.okx.com"],
     inl "https://rpc.xlayer.okx.com").
Proof. reflexivity. Qed.

(** ** Scanning *)

(** Where the requested ranges stop: the loop leaves with the pointer on
    the head or one past it, so the last range ends at the head or one
    block before it. *)
Lemma loop_exit_pointer (step head : Z) (rpc : Z -> Z -> RpcResult)
      (line : Z -> Z -> nat -> string) fuel p v d t d' p' v' :
  0 <= step -> p < head ->
  scan_loop step head rpc line fuel p v d = Some (t, d', LoopExit p' v') ->
  p' = pointer_after p (requested_ranges t) /\ (p' = head \/ p' = head + 1).
Proof.
  intros Hs Hlt Hrun.
  pose proof (loop_end _ _ _ _ _ _ _ _ _ _ _ Hrun) as (Hge & Hp & _).
  pose proof (loop_tiles _ _ _ _ _ _ _ _ _ _ _ Hrun) as Ht.
  destruct (tiles_facts _ _ _ Hs _ Ht) as (_ & _ & _ & Hb).
  split; auto. rewrite <- Hp in Hb. lia.
Qed.

(** Which heads are left out: the loop leaves with the pointer on the
    head, the head block not requested, exactly when the distance from
    the start to the head is a multiple of the stride [step + 1]. *)
Lemma loop_stops_on_head_iff (step head : Z) (rpc : Z -> Z -> RpcResult)
      (line : Z -> Z -> nat -> string) :
  0 <= step ->
  forall fuel p v d t d' p' v',
    scan_loop step head rpc line fuel p v d = Some (t, d', LoopExit p' v') ->
    p < head ->
    (p' = head <-> (head - p) mod (step + 1) = 0).
Proof.
  intros Hs fuel p v d t d' p' v' Hrun.
  revert fuel p v d t d' Hrun.
  enough (H : forall fuel p v d t d' e,
             scan_loop step head rpc line fuel p v d = Some (t, d', e) ->
             match e with
             | LoopExit q _ =>
                 (head <= p -> q = p)
                 /\ (p < head -> (q = head <-> (head - p) mod (step + 1) = 0))
             | Raised _ => True
             end).
  { intros fuel p v d t d' Hrun. apply (H _ _ _ _ _ _ _ Hrun). }
  apply (loop_ind step head rpc line
           (fun p _ _ _ _ e =>
              match e with
              | LoopExit q _ =>
                  (head <= p -> q = p)
                  /\ (p < head -> (q = head <-> (head - p) mod (step + 1) = 0))
              | Raised _ => True
              end)).
  - intros p v d Hge. split; [reflexivity | lia].
  - intros; exact I.
  - intros p v d logs t d' e Hlt _ IH.
    destruct e as [q vq|msg]; [|exact I].
    destruct IH as [IHge IHlt]. split; [lia|]. intros _.
    destruct (Z_lt_le_dec (p + step) head) as [Hin|Hclip].
    + rewrite Z.min_l in IHge, IHlt by lia.
      destruct (Z_lt_le_dec (p + step + 1) head) as [Hmore|Hlast].
      * rewrite (IHlt Hmore).
        replace (head - p) with ((head - (p + step + 1)) + 1 * (step + 1)) by lia.
        rewrite Z.mod_add by lia. reflexivity.
      * rewrite (IHge Hlast).
        replace (head - p) with (0 + 1 * (step + 1)) by lia.
        rewrite Z.mod_add by lia. rewrite Z.mod_0_l by lia. split; auto; lia.
    + rewrite Z.min_r in IHge by lia.
      rewrite IHge by lia.
      rewrite Z.mod_small by lia. lia.
Qed.

(** C2 (where the code departs from it). From the genesis cursor with
    the head one full stride further (head = cursor + BLOCK_STEP + 1),
    each script as shipped requests the single range
    [cursor, cursor + BLOCK_STEP], leaves the loop with the pointer on
    the head, and never requests the head block; the certificate it
    writes gives the range as ending at the head all the same. *)
Theorem C2_last_range_stops_before_head :
  (exists r path cert,
      V840.main (world_with 52084071
                   (fun a _ => Logs (if a =? 52084000 then [sample_event] else [])))
                disk_fresh = Some r
      /\ requested_ranges (trace r) = [(52084000, 52084070)]
      /\ cursor_file (final_disk r) = Some 52084071
      /\ certificates_written (trace r) = [(path, cert)]
      /\ attestation_field "range" cert = Some (JStr (py "52084000-52084071")))
  /\ (exists r path cert,
      V835.main (world_with 52084086
                   (fun a _ => Logs (if a =? 52084000 then [sample_event] else [])))
                disk_fresh = Some r
      /\ requested_ranges (trace r) = [(52084000, 52084085)]
      /\ cursor_file (final_disk r) = Some 52084086
      /\ certificates_written (trace r) = [(path, cert)]
      /\ attestation_field "range" cert = Some (JStr (py "52084000-52084086"))).
Proof.
  split.
  - eexists. eexists. eexists.
    split; [vm_compute; reflexivity|].
    repeat split; vm_compute; reflexivity.
  - eexists. eexists. eexists.
    split; [vm_compute; reflexivity|].
    repeat split; vm_compute; reflexivity.
Qed.

Lemma write_snapshot_gains (dir : list (string * json)) (d : Disk)
      (path : string) (cert : json) :
  snapshot_dir d = dir ->
  directory_gains dir (snapshot_dir (write_snapshot path cert d)) path cert.
Proof.
  intros <-. unfold directory_gains, write_snapshot. simpl.
  split; [left; reflexivity|]. split.
  - intros c [H|H]; [congruence|].
    apply filter_In in H. destruct H as [_ H]. simpl in H.
    rewrite String.eqb_refl in H. discriminate H.
  - intros p c Hne. split.
    + intros [H|H]; [congruence|]. apply filter_In in H. apply H.
    + intros H. right. apply filter_In. split; [exact H|]. simpl.
      destruct (String.eqb_spec path p); [congruence|reflexivity].
Qed.

(** C4. The end-to-end example: cursor 1000, head 1205, step 100, three
    events in the first range and none in the other two.  Each script
    requests [1000,1100], [1101,1201], [1202,1205], leaves 1206 in the
    cursor file and writes exactly one certificate, whose range is
    "1000-1205", whose payload is the three events and whose fingerprint
    is the uppercase SHA-256 of their key-sorted serialization.  At the
    end the certificate is in the snapshot directory, under a name no
    other certificate has there, and every other file of the directory
    is as the run found it. *)
Theorem C4_end_to_end_example
        (w : World) (d : Disk) (nodes : list string) (t_conn : list Event)
        (url : string) (e1 e2 e3 : json) :
  first_live_endpoint (is_connected w) nodes = (t_conn, Some url) ->
  cursor_file d = Some 1000 ->
  block_number w url = 1205 ->
  get_logs w url 1000 1100 = Logs [e1; e2; e3] ->
  get_logs w url 1101 1201 = Logs [] ->
  get_logs w url 1202 1205 = Logs [] ->
  (exists r path cert,
      V840.run_notary_cycle nodes 100 w d = Some r
      /\ outcome r = Returned
      /\ requested_ranges (trace r) = [(1000, 1100); (1101, 1201); (1202, 1205)]
      /\ cursor_file (final_disk r) = Some 1206
      /\ certificates_written (trace r) = [(path, cert)]
      /\ directory_gains (snapshot_dir d) (snapshot_dir (final_disk r)) path cert
      /\ attestation_field "range" cert = Some (JStr (py "1000-1205"))
      /\ attestation_field "fingerprint" cert
         = Some (JStr (py (sha256_upper_of_sorted_dump [e1; e2; e3])))
      /\ json_get "payload" cert = Some (JList [e1; e2; e3]))
  /\ (exists r path cert,
      V835.run_supreme_notary nodes 100 w d = Some r
      /\ outcome r = Returned
      /\ requested_ranges (trace r) = [(1000, 1100); (1101, 1201); (1202, 1205)]
      /\ cursor_file (final_disk r) = Some 1206
      /\ certificates_written (trace r) = [(path, cert)]
      /\ directory_gains (snapshot_dir d) (snapshot_dir (final_disk r)) path cert
      /\ attestation_field "range" cert = Some (JStr (py "1000-1205"))
      /\ attestation_field "fingerprint_sha256" cert
         = Some (JStr (py (sha256_upper_of_sorted_dump [e1; e2; e3])))
      /\ json_get "raw_payload" cert = Some (JList [e1; e2; e3])).
Proof.
  intros Hconn Hcur Hhead H1 H2 H3.
  assert (Hloop : forall line d1,
             scan_loop 100 1205 (get_logs w url) line (scan_fuel 1000 1205) 1000 [] d1
             = Some ([ EvGetLogs 1000 1100; EvPrint (line 1000 1100 3%nat);
                       EvWriteCursor 1101; EvSleep;
                       EvGetLogs 1101 1201; EvPrint (line 1101 1201 3%nat);
                       EvWriteCursor 1202; EvSleep;
                       EvGetLogs 1202 1205; EvPrint (line 1202 1205 3%nat);
                       EvWriteCursor 1206; EvSleep ],
                     write_cursor 1206 (write_cursor 1202 (write_cursor 1101 d1)),
                     LoopExit 1206 [e1; e2; e3])).
  { intros line d1.
    change (scan_fuel 1000 1205) with (S (S (S 202))).
    rewrite (loop_step 100 1205 _ line _ 1000 [] d1 [e1; e2; e3]); [|lia|exact H1].
    change (Z.min (1000 + 100) 1205 + 1) with 1101.
    rewrite (loop_step 100 1205 _ line _ 1101 _ _ []); [|lia|exact H2].
    change (Z.min (1101 + 100) 1205 + 1) with 1202.
    rewrite (loop_step 100 1205 _ line _ 1202 _ _ []); [|lia|exact H3].
    change (Z.min (1202 + 100) 1205 + 1) with 1206.
    rewrite loop_exit by lia. reflexivity. }
  split.
  - unfold V840.run_notary_cycle, V840.get_supreme_provider,
      V840.initialize_industrial_structure.
    rewrite Hconn, Hcur. cbv beta iota. rewrite Hcur, Hhead, Hloop.
    unfold V840.after_loop, V840.seal_and_save, V840.seal_artifact. cbv beta iota zeta.
    do 3 eexists. split; [reflexivity|]. cbn [outcome final_disk trace].
    split; [reflexivity|].
    destruct (quiet_projections _
                (eq_trans (f_equal (fun p => forallb quiet (fst p)) (eq_sym Hconn))
                          (first_live_endpoint_quiet (is_connected w) nodes)))
      as (Q1 & _ & Q3 & _).
    simpl in Q1, Q3.
    split; [rewrite app_nil_l, requested_ranges_app, Q1; reflexivity|].
    split; [reflexivity|].
    split; [rewrite app_nil_l, certificates_written_app, Q3; reflexivity|].
    split; [apply write_snapshot_gains; reflexivity|].
    repeat split; reflexivity.
  - unfold V835.run_supreme_notary, V835.setup_ghost_rpc, V835.initialize_system.
    rewrite Hconn, Hcur. cbv beta iota. rewrite Hcur, Hhead, Hloop.
    unfold V835.after_loop, V835.seal_and_publish. cbv beta iota zeta.
    destruct (quiet_projections _
                (eq_trans (f_equal (fun p => forallb quiet (fst p)) (eq_sym Hconn))
                          (first_live_endpoint_quiet (is_connected w) nodes)))
      as (Q1 & _ & Q3 & _).
    simpl in Q1, Q3.
    destruct (ipfs_add w _) as [rc cid err|msg]; [destruct (rc =? 0)|];
      (do 3 eexists; split; [reflexivity|]; cbn [outcome final_disk trace];
       split; [reflexivity|];
       split; [rewrite app_nil_l, requested_ranges_app, Q1; reflexivity|];
       split; [reflexivity|];
       split; [rewrite app_nil_l, certificates_written_app, Q3; reflexivity|];
       split; [apply write_snapshot_gains; reflexivity|];
       repeat split; reflexivity).
Qed.

Section ShapeCursor.
Variables genesis step : Z.
Variable line : Z -> Z -> nat -> string.
Variable after : Z -> Z -> ScanEnd -> Disk -> list Event * Disk.
Variable w : World.
Variable d : Disk.
Variable url : string.
Variable r : Run.
Hypothesis step_nonneg : 0 <= step.
Hypothesis after_fine : after_ok after.
Hypothesis shape : run_shape genesis step line after w d url r.

Let c0 := start_cursor genesis d.
Let head := block_number w url.

(** What comes after the cursor is read: the calls and the cursor
    writes of the scan, and nothing else that calls or writes the
    cursor. *)
Lemma shape_after_read :
  exists before after_read t_scan d2 e,
    trace r = (before ++ EvReadCursor c0 :: after_read)%list
    /\ requested_ranges before = []
    /\ cursor_writes before = cursor_writes (fst (bootstrap genesis d))
    /\ scan_loop step head (get_logs w url) line (scan_fuel c0 head) c0 []
                 (snd (bootstrap genesis d)) = Some (t_scan, d2, e)
    /\ calls_and_writes after_read = calls_and_writes t_scan
    /\ cursor_writes after_read = cursor_writes t_scan.
Proof.
  destruct (shape_projections _ _ _ _ _ _ _ _ after_fine shape)
    as (before & banner & t_scan & d2 & e & Hrun & Htr & Hb & Hr0 & Hw0 & _).
  fold c0 head in Hrun, Htr.
  destruct (quiet_projections _ (is_print_quiet _ Hb)) as (_ & Hw3 & _ & _ & Hio3 & _).
  destruct (after_fine c0 head e d2) as (_ & Hw5 & Hio5 & _).
  exists before, (banner ++ t_scan ++ fst (after c0 head e d2))%list, t_scan, d2, e.
  repeat split; auto.
  - rewrite !calls_and_writes_app, Hio3, Hio5, app_nil_r; reflexivity.
  - rewrite !cursor_writes_app, Hw3, Hw5, app_nil_r; reflexivity.
Qed.

(** The cursor only moves forward, and is saved before the next call. *)
Lemma shape_cursor_monotone :
  exists before after_read done tail,
    trace r = (before ++ EvReadCursor c0 :: after_read)%list
    /\ requested_ranges before = []
    /\ increasing_from c0 (cursor_writes after_read)
    /\ never_decreases (cursor_file d) (cursor_writes (trace r))
    /\ calls_and_writes after_read = (completed_io done ++ tail)%list
    /\ (tail = [] \/ exists a b, tail = [EvGetLogs a b]).
Proof.
  destruct shape_after_read
    as (before & after_read & t_scan & d2 & e & Htr & Hr0 & Hw0 & Hrun & Hio & Hw).
  pose proof (loop_tiles _ _ _ _ _ _ _ _ _ _ _ Hrun) as Ht.
  pose proof (loop_end _ _ _ _ _ _ _ _ _ _ _ Hrun) as Hend.
  assert (Hdone : exists done tail,
             calls_and_writes t_scan = (completed_io done ++ tail)%list
             /\ (tail = [] \/ exists a b, tail = [EvGetLogs a b])
             /\ cursor_writes tail = []
             /\ tiles step head c0 done).
  { destruct e as [p' v'|msg].
    - destruct Hend as (_ & _ & Hio' & _).
      exists (requested_ranges t_scan), []. rewrite app_nil_r. auto.
    - destruct Hend as (done & a & b & Hr & _ & _ & Hio' & _).
      exists done, [EvGetLogs a b]. repeat split; eauto.
      rewrite Hr in Ht. eapply tiles_app_l; eauto. }
  destruct Hdone as (done & tail & Hio' & Htail & Hwt & Htd).
  assert (Hinc : increasing_from c0 (cursor_writes t_scan)).
  { rewrite <- cursor_writes_calls_and_writes, Hio', cursor_writes_app, Hwt,
      app_nil_r, cursor_writes_completed_io.
    apply (tiles_facts _ _ _ step_nonneg _ Htd). }
  exists before, after_read, done, tail.
  repeat split; auto.
  - rewrite Hw; exact Hinc.
  - rewrite Htr, cursor_writes_app. simpl. rewrite Hw, Hw0.
    subst c0. unfold bootstrap, start_cursor in *.
    destruct (cursor_file d); simpl.
    + apply increasing_never_decreases; exact Hinc.
    + split; auto. apply increasing_never_decreases; exact Hinc.
  - rewrite Hio; exact Hio'.
Qed.
End ShapeCursor.

(** ** The cursor *)

(** C5. The persisted cursor never decreases during a run: every value
    the scan loop writes is greater than the value read at the start and
    than every value written before, and the write for a completed range
    comes before the next [get_logs] call. *)
Theorem C5_cursor_monotone
        (nodes : list string) (step : Z) (w : World) (d : Disk)
        (t_conn : list Event) (url : string) :
  0 <= step ->
  first_live_endpoint (is_connected w) nodes = (t_conn, Some url) ->
  (exists r, V840.run_notary_cycle nodes step w d = Some r
             /\ cursor_moves_forward d (start_cursor V840.GENESIS_BLOCK d) r)
  /\ (exists r, V835.run_supreme_notary nodes step w d = Some r
                /\ cursor_moves_forward d (start_cursor V835.GENESIS_BLOCK d) r).
Proof.
  intros Hs Hconn.
  destruct (run_notary_cycle_cases nodes step w d Hs) as (r1 & Hr1 & Hsh1).
  destruct (run_supreme_notary_cases nodes step w d Hs) as (r2 & Hr2 & Hsh2).
  rewrite Hconn in Hsh1, Hsh2.
  split; [exists r1|exists r2]; (split; [assumption|]).
  - destruct (shape_cursor_monotone _ _ _ _ _ _ _ _ Hs (after_loop_840_ok w) Hsh1)
      as (before & after_read & done & tail & H1 & H2 & H3 & H4 & H5 & H6).
    exists before, after_read, done, tail.
    split; [exact H1|]. split; [exact H2|]. split; [|auto].
    intros earlier v later E. rewrite E in H3.
    apply (increasing_from_split _ _ _ _ H3).
  - destruct (shape_cursor_monotone _ _ _ _ _ _ _ _ Hs (after_loop_835_ok w) Hsh2)
      as (before & after_read & done & tail & H1 & H2 & H3 & H4 & H5 & H6).
    exists before, after_read, done, tail.
    split; [exact H1|]. split; [exact H2|]. split; [|auto].
    intros earlier v later E. rewrite E in H3.
    apply (increasing_from_split _ _ _ _ H3).
Qed.

Section ShapeEndings.
Variables genesis step : Z.
Variable line : Z -> Z -> nat -> string.
Variable after : Z -> Z -> ScanEnd -> Disk -> list Event * Disk.
Variable w : World.
Variable d : Disk.
Variable url : string.
Variable r : Run.
Hypothesis step_nonneg : 0 <= step.
Hypothesis after_fine : after_ok after.
Hypothesis shape : run_shape genesis step line after w d url r.

Let c0 := start_cursor genesis d.
Let head := block_number w url.

(** No event in any answer: the loop leaves with an empty vault and
    what follows is the "nothing new" branch. *)
Lemma shape_empty_batch :
  Forall (fun ab => get_logs w url (fst ab) (snd ab) = Logs [])
         (requested_ranges (trace r)) ->
  exists t p d2,
    trace r = (t ++ fst (after c0 head (LoopExit p []) d2))%list
    /\ certificates_written (trace r) = []
    /\ publishes (trace r) = []
    /\ snapshot_dir (final_disk r) = snapshot_dir d
    /\ outcome r = Returned.
Proof.
  intros Hall.
  destruct (shape_projections _ _ _ _ _ _ _ _ after_fine shape)
    as (before & banner & t_scan & d2 & e & Hrun & Htr & _ & _ & _ & _ & _
        & Hr & _ & Hc & Hp & _ & Hfin & Hout).
  fold c0 head in Hrun, Htr, Hc, Hp, Hfin.
  rewrite Hr in Hall.
  pose proof (loop_end _ _ _ _ _ _ _ _ _ _ _ Hrun) as Hend.
  destruct (loop_disk _ _ _ _ _ _ _ _ _ _ _ Hrun) as (_ & Hsnap & _).
  destruct (bootstrap_cursor genesis d) as (_ & Hsnap0 & _).
  destruct e as [p' v'|msg].
  - destruct Hend as (_ & _ & _ & Hv & _).
    assert (Hv' : v' = []).
    { rewrite Hv; simpl. clear - Hall.
      induction Hall as [|[a b] l H Hall IH]; simpl; auto.
      simpl in H; rewrite H; exact IH. }
    clear Hv. subst v'.
    destruct (after_fine c0 head (LoopExit p' []) d2) as (_ & _ & _ & Hd & Hq).
    destruct (quiet_projections _ Hq) as (_ & _ & Hc' & Hp' & _ & Hd').
    exists (before ++ EvReadCursor c0 :: banner ++ t_scan)%list, p', d2.
    repeat split; auto.
    + rewrite Htr, <- !app_assoc. simpl. rewrite <- !app_assoc. reflexivity.
    + rewrite Hc; exact Hc'.
    + rewrite Hp; exact Hp'.
    + rewrite Hfin, Hd, Hd', Hsnap; exact Hsnap0.
  - destruct Hend as (done & a & b & Hrs & Herr & _).
    rewrite Hrs in Hall. apply Forall_app in Hall. destruct Hall as [_ Hall].
    inversion Hall as [|? ? Hab _]; subst. simpl in Hab. congruence.
Qed.

(** A requested range whose call raised is the last one requested; the
    cursor holds its lower bound, which the last completed iteration
    wrote, and what follows is the handler. *)
Lemma shape_raise (a b : Z) (msg : string) :
  In (a, b) (requested_ranges (trace r)) ->
  get_logs w url a b = RpcError msg ->
  exists done t d2,
    requested_ranges (trace r) = (done ++ [(a, b)])%list
    /\ Forall (fun ab => exists logs, get_logs w url (fst ab) (snd ab) = Logs logs) done
    /\ a = pointer_after c0 done
    /\ cursor_file (final_disk r) = Some (pointer_after c0 done)
    /\ trace r = (t ++ fst (after c0 head (Raised msg) d2))%list
    /\ certificates_written (trace r) = []
    /\ publishes (trace r) = []
    /\ snapshot_dir (final_disk r) = snapshot_dir d
    /\ outcome r = Returned.
Proof.
  intros Hin Herr.
  destruct (shape_projections _ _ _ _ _ _ _ _ after_fine shape)
    as (before & banner & t_scan & d2 & e & Hrun & Htr & _ & _ & _ & _ & _
        & Hr & _ & Hc & Hp & _ & Hfin & Hout).
  fold c0 head in Hrun, Htr, Hc, Hp, Hfin.
  rewrite Hr in Hin |- *.
  pose proof (loop_end _ _ _ _ _ _ _ _ _ _ _ Hrun) as Hend.
  destruct (loop_disk _ _ _ _ _ _ _ _ _ _ _ Hrun) as (Hd2 & Hsnap & _).
  destruct (bootstrap_cursor genesis d) as (Hcur0 & Hsnap0 & _).
  destruct e as [p' v'|msg'].
  - destruct Hend as (_ & _ & _ & _ & Hall).
    rewrite Forall_forall in Hall. destruct (Hall _ Hin) as [logs Hlogs].
    simpl in Hlogs. congruence.
  - destruct Hend as (done & a' & b' & Hrs & Herr' & Ha & Hio & Hall).
    assert (Hab : (a, b) = (a', b') /\ msg = msg').
    { rewrite Hrs in Hin. apply in_app_or in Hin. destruct Hin as [Hin|[Hin|[]]].
      - rewrite Forall_forall in Hall. destruct (Hall _ Hin) as [logs Hlogs].
        simpl in Hlogs. congruence.
      - injection Hin as -> ->. split; congruence. }
    destruct Hab as [Hab ->]. injection Hab as -> ->.
    destruct (after_fine c0 head (Raised msg') d2) as (_ & _ & _ & Hd & Hq).
    destruct (quiet_projections _ Hq) as (_ & _ & Hc' & Hp' & _ & Hd').
    exists done, (before ++ EvReadCursor c0 :: banner ++ t_scan)%list, d2.
    repeat split; auto.
    + rewrite Hfin, Hd, Hd', Hd2, cursor_file_disk_after, Hcur0.
      rewrite <- cursor_writes_calls_and_writes, Hio, cursor_writes_app,
        cursor_writes_completed_io. simpl. rewrite app_nil_r.
      fold c0. rewrite last_map_Some. reflexivity.
    + rewrite Htr, <- !app_assoc. simpl. rewrite <- !app_assoc. reflexivity.
    + rewrite Hc; exact Hc'.
    + rewrite Hp; exact Hp'.
    + rewrite Hfin, Hd, Hd', Hsnap; exact Hsnap0.
Qed.
End ShapeEndings.

(** ** Nothing to seal, and failures *)

(** C6. When every requested range is answered with no event, the run
    writes no certificate, publishes nothing, leaves the snapshot
    directory as it was and returns normally, its last action being the
    "nothing new" line. *)
Theorem C6_empty_batch_skips_seal
        (nodes : list string) (step : Z) (w : World) (d : Disk)
        (t_conn : list Event) (url : string) :
  0 <= step ->
  first_live_endpoint (is_connected w) nodes = (t_conn, Some url) ->
  (exists r, V840.run_notary_cycle nodes step w d = Some r
     /\ (Forall (fun ab => get_logs w url (fst ab) (snd ab) = Logs [])
                (requested_ranges (trace r)) ->
         certificates_written (trace r) = []
         /\ publishes (trace r) = []
         /\ snapshot_dir (final_disk r) = snapshot_dir d
         /\ outcome r = Returned
         /\ exists t, trace r
              = (t ++ [EvPrint "[*] No new data identified. Standing by for next block cycle."])%list))
  /\ (exists r, V835.run_supreme_notary nodes step w d = Some r
     /\ (Forall (fun ab => get_logs w url (fst ab) (snd ab) = Logs [])
                (requested_ranges (trace r)) ->
         certificates_written (trace r) = []
         /\ publishes (trace r) = []
         /\ snapshot_dir (final_disk r) = snapshot_dir d
         /\ outcome r = Returned
         /\ exists t, trace r
              = (t ++ [EvPrint (nl ++ "[*] Yeni veri bulunamadı. Beklemede: "
                                ++ str_of_Z (block_number w url))])%list)).
Proof.
  intros Hs Hconn.
  destruct (run_notary_cycle_cases nodes step w d Hs) as (r1 & Hr1 & Hsh1).
  destruct (run_supreme_notary_cases nodes step w d Hs) as (r2 & Hr2 & Hsh2).
  rewrite Hconn in Hsh1, Hsh2.
  split; [exists r1|exists r2]; (split; [assumption|]); intros Hall.
  - destruct (shape_empty_batch _ _ _ _ _ _ _ _ (after_loop_840_ok w) Hsh1 Hall)
      as (t & p & d2 & Htr & Hc & Hp & Hsnap & Hout).
    repeat split; auto. exists t. exact Htr.
  - destruct (shape_empty_batch _ _ _ _ _ _ _ _ (after_loop_835_ok w) Hsh2 Hall)
      as (t & p & d2 & Htr & Hc & Hp & Hsnap & Hout).
    repeat split; auto. exists t. exact Htr.
Qed.

(** C7. A [get_logs] call that raises ends the scan: no further range is
    requested, no certificate is written, the cursor file holds one past
    the upper bound of the last completed range, the batch is dropped,
    and the failure is printed: "[ERROR] System Integrity Breach: ..." in
    v8.4.0, "[CRITICAL] Error: ..." in v8.3.5. *)
Theorem C7_rpc_failure_aborts_scan
        (nodes : list string) (step : Z) (w : World) (d : Disk)
        (t_conn : list Event) (url : string) :
  0 <= step ->
  first_live_endpoint (is_connected w) nodes = (t_conn, Some url) ->
  (exists r, V840.run_notary_cycle nodes step w d = Some r
     /\ forall a b msg,
          In (a, b) (requested_ranges (trace r)) ->
          get_logs w url a b = RpcError msg ->
          scan_aborted d w url (start_cursor V840.GENESIS_BLOCK d) r a b
                       (EvPrint (nl ++ "[ERROR] System Integrity Breach: " ++ msg)))
  /\ (exists r, V835.run_supreme_notary nodes step w d = Some r
     /\ forall a b msg,
          In (a, b) (requested_ranges (trace r)) ->
          get_logs w url a b = RpcError msg ->
          scan_aborted d w url (start_cursor V835.GENESIS_BLOCK d) r a b
                       (EvPrint (nl ++ "[CRITICAL] Error: " ++ msg))).
Proof.
  intros Hs Hconn.
  destruct (run_notary_cycle_cases nodes step w d Hs) as (r1 & Hr1 & Hsh1).
  destruct (run_supreme_notary_cases nodes step w d Hs) as (r2 & Hr2 & Hsh2).
  rewrite Hconn in Hsh1, Hsh2.
  split; [exists r1|exists r2]; (split; [assumption|]); intros a b msg Hin Herr.
  - destruct (shape_raise _ _ _ _ _ _ _ _ (after_loop_840_ok w) Hsh1 a b msg Hin Herr)
      as (done & t & d2 & H1 & H2 & H3 & H4 & H5 & H6 & H7 & H8 & H9).
    exists done, t. repeat split; auto.
  - destruct (shape_raise _ _ _ _ _ _ _ _ (after_loop_835_ok w) Hsh2 a b msg Hin Herr)
      as (done & t & d2 & H1 & H2 & H3 & H4 & H5 & H6 & H7 & H8 & H9).
    exists done, t. repeat split; auto.
Qed.

(** C7 as stated fails on v8.3.5: the second call of this run raises,
    the scan stops there with the cursor on the range that failed and no
    certificate, and the failure is reported with the line
    "[CRITICAL] Error: timeout"; no line the run prints mentions an
    integrity breach. *)
Lemma C7_counterexample_v835_report :
  exists r,
    V835.main (world_flaky_835 52084200) disk_fresh = Some r
    /\ requested_ranges (trace r) = [(52084000, 52084085); (52084086, 52084171)]
    /\ get_logs (world_flaky_835 52084200) "https://xlayer.drpc.org" 52084086 52084171
       = RpcError "timeout"
    /\ cursor_file (final_disk r) = Some 52084086
    /\ certificates_written (trace r) = []
    /\ last (trace r) EvSleep = EvPrint (nl ++ "[CRITICAL] Error: timeout")
    /\ forallb (fun line => negb (mentions_integrity line)) (prints (trace r)) = true
    /\ mentions_integrity (nl ++ "[ERROR] System Integrity Breach: timeout") = true.
Proof.
  eexists. split; [vm_compute; reflexivity|].
  repeat split; vm_compute; reflexivity.
Qed.

(** ** The gap between the cursor and the seal *)

Lemma snapshot_dir_disk_after (t : list Event) :
  certificates_written t = [] ->
  forall d, snapshot_dir (disk_after d t) = snapshot_dir d.
Proof.
  induction t as [|e t IH]; simpl; auto.
  destruct e; simpl; try discriminate; intros H d; rewrite IH; auto.
Qed.

(** The last cursor write of the loop: everything requested before it
    ends below the value written. *)
Lemma loop_last_write (step head : Z) (rpc : Z -> Z -> RpcResult)
      (line : Z -> Z -> nat -> string) :
  0 <= step ->
  forall fuel p v d t d' e,
    scan_loop step head rpc line fuel p v d = Some (t, d', e) ->
    cursor_writes t <> [] ->
    exists s1 x s2,
      t = (s1 ++ EvWriteCursor x :: s2)%list
      /\ cursor_writes s2 = []
      /\ certificates_written s1 = []
      /\ requested_ranges s1 <> []
      /\ Forall (fun ab => snd ab < x) (requested_ranges s1)
      /\ p < x.
Proof.
  intros Hs.
  apply (loop_ind step head rpc line
           (fun p _ _ t _ _ =>
              cursor_writes t <> [] ->
              exists s1 x s2,
                t = (s1 ++ EvWriteCursor x :: s2)%list
                /\ cursor_writes s2 = []
                /\ certificates_written s1 = []
                /\ requested_ranges s1 <> []
                /\ Forall (fun ab => snd ab < x) (requested_ranges s1)
                /\ p < x)).
  - intros p v d _ H; elim H; reflexivity.
  - intros p v d msg _ _ H; elim H; reflexivity.
  - intros p v d logs t d' e Hlt E IH _.
    destruct (cursor_writes t) as [|y ys] eqn:Hw.
    + exists [EvGetLogs p (Z.min (p + step) head);
              EvPrint (line p (Z.min (p + step) head) (List.length (v ++ logs)))],
        (Z.min (p + step) head + 1), (EvSleep :: t).
      simpl. repeat split; auto; try discriminate; try lia.
      constructor; simpl; [lia|constructor].
    + destruct IH as (s1 & x & s2 & Ht & Hw2 & Hc & Hne & Hall & Hx); [discriminate|].
      exists (EvGetLogs p (Z.min (p + step) head)
                :: EvPrint (line p (Z.min (p + step) head) (List.length (v ++ logs)))
                :: EvWriteCursor (Z.min (p + step) head + 1)
                :: EvSleep :: s1), x, s2.
      simpl. rewrite Ht. repeat split; auto; try discriminate; try lia.
      constructor; simpl; [lia|exact Hall].
Qed.

(** Every range a run requests starts at or above the cursor it found. *)
Lemma run_notary_cycle_requests_from_cursor
      (nodes : list string) (step : Z) (w : World) (d : Disk) (r : Run) :
  0 <= step ->
  V840.run_notary_cycle nodes step w d = Some r ->
  Forall (fun ab => start_cursor V840.GENESIS_BLOCK d <= fst ab)
         (requested_ranges (trace r)).
Proof.
  intros Hs Hrun.
  destruct (run_notary_cycle_cases nodes step w d Hs) as (r' & Hr' & Hcase).
  rewrite Hrun in Hr'. injection Hr' as <-.
  pose proof (first_live_endpoint_quiet (is_connected w) nodes) as Hq.
  destruct (first_live_endpoint (is_connected w) nodes) as [t_conn [url|]].
  - pose proof (shape_tiles _ _ _ _ _ _ _ _ (after_loop_840_ok w) Hcase) as Ht.
    destruct (tiles_facts _ _ _ Hs _ Ht) as (_ & Hall & _).
    eapply Forall_impl; [|exact Hall]. simpl; intros; lia.
  - destruct Hcase as (_ & Htr & _). rewrite Htr, requested_ranges_app.
    destruct (bootstrap_cursor V840.GENESIS_BLOCK d) as (_ & _ & _ & -> & _).
    destruct (quiet_projections _ Hq) as (Hq' & _). simpl in Hq'.
    rewrite Hq'. constructor.
Qed.

Lemma run_supreme_notary_requests_from_cursor
      (nodes : list string) (step : Z) (w : World) (d : Disk) (r : Run) :
  0 <= step ->
  V835.run_supreme_notary nodes step w d = Some r ->
  Forall (fun ab => start_cursor V835.GENESIS_BLOCK d <= fst ab)
         (requested_ranges (trace r)).
Proof.
  intros Hs Hrun.
  destruct (run_supreme_notary_cases nodes step w d Hs) as (r' & Hr' & Hcase).
  rewrite Hrun in Hr'. injection Hr' as <-.
  pose proof (first_live_endpoint_quiet (is_connected w) nodes) as Hq.
  destruct (first_live_endpoint (is_connected w) nodes) as [t_conn [url|]].
  - pose proof (shape_tiles _ _ _ _ _ _ _ _ (after_loop_835_ok w) Hcase) as Ht.
    destruct (tiles_facts _ _ _ Hs _ Ht) as (_ & Hall & _).
    eapply Forall_impl; [|exact Hall]. simpl; intros; lia.
  - destruct Hcase as (_ & Htr & _). rewrite Htr, requested_ranges_app.
    destruct (bootstrap_cursor V835.GENESIS_BLOCK d) as (_ & _ & _ & -> & _).
    destruct (quiet_projections _ Hq) as (Hq' & _). simpl in Hq'.
    rewrite Hq'. constructor.
Qed.

Section ShapeCrash.
Variables genesis step : Z.
Variable line : Z -> Z -> nat -> string.
Variable after : Z -> Z -> ScanEnd -> Disk -> list Event * Disk.
Variable w : World.
Variable d : Disk.
Variable url : string.
Variable r : Run.
Hypothesis step_nonneg : 0 <= step.
Hypothesis after_fine : after_ok after.
Hypothesis shape : run_shape genesis step line after w d url r.

Let c0 := start_cursor genesis d.
Let head := block_number w url.

(** When the first call is answered the trace has a last cursor write;
    the disk right after it has the cursor above every range fetched
    so far and the snapshot directory of the start. *)
Lemma shape_crash_point (logs : list json) :
  c0 < head ->
  get_logs w url c0 (Z.min (c0 + step) head) = Logs logs ->
  exists pre post x,
    trace r = (pre ++ post)%list
    /\ (exists pre', pre = (pre' ++ [EvWriteCursor x])%list)
    /\ cursor_writes post = []
    /\ certificates_written pre = []
    /\ requested_ranges pre <> []
    /\ cursor_file (disk_after d pre) = Some x
    /\ snapshot_dir (disk_after d pre) = snapshot_dir d
    /\ c0 < x
    /\ Forall (fun ab => c0 <= fst ab /\ snd ab < x) (requested_ranges pre).
Proof.
  intros Hlt Hfirst.
  destruct (shape_projections _ _ _ _ _ _ _ _ after_fine shape)
    as (before & banner & t_scan & d2 & e & Hrun & Htr & Hb & Hr0 & _ & Hc0 & _
        & Hr & _).
  fold c0 head in Hrun, Htr.
  destruct (quiet_projections _ (is_print_quiet _ Hb)) as (Hr3 & Hw3 & Hc3 & _).
  destruct (after_fine c0 head e d2) as (_ & Hw5 & _).
  assert (Hne : cursor_writes t_scan <> []).
  { destruct (scan_fuel c0 head) as [|fuel] eqn:Hfuel;
      [unfold scan_fuel in Hfuel; lia|].
    rewrite (loop_step _ _ _ _ _ _ _ _ logs Hlt Hfirst) in Hrun.
    destruct (scan_loop _ _ _ _ fuel _ _ _) as [[[t0 d0] e0]|]; [|discriminate].
    injection Hrun as <- _ _. simpl. discriminate. }
  destruct (loop_last_write _ _ _ _ step_nonneg _ _ _ _ _ _ _ Hrun Hne)
    as (s1 & x & s2 & Ht & Hw2 & Hc1 & Hne1 & Hall & Hx).
  pose proof (shape_tiles _ _ _ _ _ _ _ _ after_fine shape) as Htiles.
  fold c0 head in Htiles.
  destruct (tiles_facts _ _ _ step_nonneg _ Htiles) as (_ & Hlow & _).
  set (pre' := (before ++ EvReadCursor c0 :: banner ++ s1)%list).
  exists (pre' ++ [EvWriteCursor x])%list,
    (s2 ++ fst (after c0 head e d2))%list, x.
  assert (Hrpre : requested_ranges pre' = requested_ranges s1).
  { unfold pre'. rewrite requested_ranges_app. simpl.
    rewrite requested_ranges_app, Hr0, Hr3. reflexivity. }
  assert (Hcpre : certificates_written pre' = []).
  { unfold pre'. rewrite certificates_written_app. simpl.
    rewrite certificates_written_app, Hc0, Hc3, Hc1. reflexivity. }
  assert (Htrace : trace r
                   = ((pre' ++ [EvWriteCursor x])
                        ++ s2 ++ fst (after c0 head e d2))%list).
  { rewrite Htr, Ht. unfold pre'. rewrite <- !app_assoc. simpl.
    rewrite <- !app_assoc. reflexivity. }
  split; [exact Htrace|].
  split; [exists pre'; reflexivity|].
  split; [rewrite cursor_writes_app, Hw2, Hw5; reflexivity|].
  split; [rewrite certificates_written_app, Hcpre; reflexivity|].
  split; [rewrite requested_ranges_app, Hrpre; simpl; rewrite app_nil_r; exact Hne1|].
  split; [rewrite cursor_file_disk_after, cursor_writes_app, map_app; simpl;
          apply last_last|].
  split; [apply snapshot_dir_disk_after;
          rewrite certificates_written_app, Hcpre; reflexivity|].
  split; [exact Hx|].
  rewrite requested_ranges_app, Hrpre. simpl. rewrite app_nil_r.
  assert (Hsub : Forall (fun ab => c0 <= fst ab) (requested_ranges s1)).
  { rewrite Htrace, !requested_ranges_app, Hrpre in Hlow.
    apply Forall_app in Hlow. destruct Hlow as [Hlow _].
    apply Forall_app in Hlow. destruct Hlow as [Hlow _].
    eapply Forall_impl; [|exact Hlow]. simpl; intros; lia. }
  clear - Hall Hsub.
  induction Hall as [|ab l H Hall IH]; [constructor|].
  inversion Hsub; subst. constructor; auto.
Qed.
End ShapeCrash.

(** C1. In every run that fetches at least one range there is a point
    after the last cursor write and before the seal where the persisted
    cursor is ahead of everything sealed; a crash there loses the fetched
    events: the resumed run starts from the advanced cursor and never
    requests those ranges again. *)
Theorem C1_crash_between_cursor_write_and_seal
        (nodes : list string) (step : Z) (w : World) (d : Disk)
        (t_conn : list Event) (url : string) (logs logs' : list json) :
  0 <= step ->
  first_live_endpoint (is_connected w) nodes = (t_conn, Some url) ->
  let head := block_number w url in
  let c840 := start_cursor V840.GENESIS_BLOCK d in
  let c835 := start_cursor V835.GENESIS_BLOCK d in
  c840 < head -> get_logs w url c840 (Z.min (c840 + step) head) = Logs logs ->
  c835 < head -> get_logs w url c835 (Z.min (c835 + step) head) = Logs logs' ->
  (exists r, V840.run_notary_cycle nodes step w d = Some r
             /\ crash_loses_fetched (V840.run_notary_cycle nodes step) d c840 r)
  /\ (exists r, V835.run_supreme_notary nodes step w d = Some r
                /\ crash_loses_fetched (V835.run_supreme_notary nodes step) d c835 r).
Proof.
  intros Hs Hconn head c840 c835 Hlt1 Hlogs1 Hlt2 Hlogs2.
  destruct (run_notary_cycle_cases nodes step w d Hs) as (r1 & Hr1 & Hsh1).
  destruct (run_supreme_notary_cases nodes step w d Hs) as (r2 & Hr2 & Hsh2).
  rewrite Hconn in Hsh1, Hsh2.
  split; [exists r1|exists r2]; (split; [assumption|]).
  - destruct (shape_crash_point _ _ _ _ _ _ _ _ Hs (after_loop_840_ok w) Hsh1
                                logs Hlt1 Hlogs1)
      as (pre & post & x & H1 & H2 & H3 & H4 & H5 & H6 & H7 & H8 & H9).
    exists pre, post, x. repeat (split; [assumption|]).
    intros w' r' Hrun'.
    pose proof (run_notary_cycle_requests_from_cursor _ _ _ _ _ Hs Hrun') as Hfrom.
    unfold start_cursor in Hfrom. rewrite H6 in Hfrom. exact Hfrom.
  - destruct (shape_crash_point _ _ _ _ _ _ _ _ Hs (after_loop_835_ok w) Hsh2
                                logs' Hlt2 Hlogs2)
      as (pre & post & x & H1 & H2 & H3 & H4 & H5 & H6 & H7 & H8 & H9).
    exists pre, post, x. repeat (split; [assumption|]).
    intros w' r' Hrun'.
    pose proof (run_supreme_notary_requests_from_cursor _ _ _ _ _ Hs Hrun') as Hfrom.
    unfold start_cursor in Hfrom. rewrite H6 in Hfrom. exact Hfrom.
Qed.

(** ** Naming the certificate file *)

Lemma prefix_append (a b : string) : String.prefix a (a ++ b) = true.
Proof.
  induction a as [|c a IH]; simpl.
  - destruct b; reflexivity.
  - destruct (ascii_dec c c) as [_|H]; [exact IH | elim H; reflexivity].
Qed.

Lemma occurs_prefix (sub s : string) :
  String.prefix sub s = true -> occurs sub s = true.
Proof. destruct s; simpl; intros ->; reflexivity. Qed.

Lemma occurs_append (a sub b : string) : occurs sub (a ++ sub ++ b) = true.
Proof.
  induction a as [|c a IH].
  - change (occurs sub (sub ++ b) = true). apply occurs_prefix, prefix_append.
  - simpl. rewrite IH. apply orb_true_r.
Qed.

Lemma append_assoc (a b c : string) : (a ++ b) ++ c = a ++ b ++ c.
Proof. induction a as [|x a IH]; simpl; [|rewrite IH]; reflexivity. Qed.

(** A name that follows the pattern contains the time between two
    underscores. *)
Lemma follows_name_pattern_occurs (name : string) (t : Z) (fp : string) :
  follows_name_pattern name t fp ->
  occurs ("_" ++ str_of_Z t ++ "_") name = true.
Proof.
  intros (prefix & k & _ & ->).
  replace (prefix ++ "_" ++ str_of_Z t ++ "_" ++ prefix_of k fp ++ ".json")
    with (prefix ++ ("_" ++ str_of_Z t ++ "_") ++ (prefix_of k fp ++ ".json")).
  - apply occurs_append.
  - f_equal. simpl. f_equal. rewrite append_assoc. reflexivity.
Qed.

(** The one certificate the sealing step writes, and where. *)
Lemma seal_and_save_certificate (w : World) (cursor head : Z) (vault : list json)
      (d : Disk) :
  certificates_written (fst (V840.seal_and_save w cursor head vault d))
  = [ (path_join (V840.SNAPSHOTS w)
         (V840.file_name (time_time w 0)
            (snd (V840.seal_artifact vault cursor head (utcnow_isoformat w)))),
       fst (V840.seal_artifact vault cursor head (utcnow_isoformat w))) ].
Proof. reflexivity. Qed.

Lemma seal_and_publish_certificate (w : World) (last_block current_block : Z)
      (raw_vault : list json) (d : Disk) :
  certificates_written (fst (V835.seal_and_publish w last_block current_block raw_vault d))
  = [ (path_join (V835.SNAPSHOT_DIR w) (V835.f_name (time_time w 1)),
       V835.final_bundle (V835.atomic_hash raw_vault) last_block current_block
                         (time_time w 0) raw_vault) ].
Proof.
  unfold V835.seal_and_publish; cbn [fst certificates_written flat_map app].
  destruct (ipfs_add w _) as [rc ? ?|?]; [destruct (rc =? 0)|]; reflexivity.
Qed.

(** The certificates a run writes, with the path of each. *)
Lemma run_notary_cycle_certificates
      (nodes : list string) (step : Z) (w : World) (d : Disk) :
  0 <= step ->
  exists r, V840.run_notary_cycle nodes step w d = Some r
    /\ forall path cert,
         In (path, cert) (certificates_written (trace r)) ->
         exists vault cursor head,
           cert = fst (V840.seal_artifact vault cursor head (utcnow_isoformat w))
           /\ path = path_join (V840.SNAPSHOTS w)
                       (V840.file_name (time_time w 0)
                          (snd (V840.seal_artifact vault cursor head
                                                   (utcnow_isoformat w)))).
Proof.
  intros Hs.
  destruct (run_notary_cycle_cases nodes step w d Hs) as (r & Hr & Hcase).
  exists r; split; [exact Hr|]. intros path cert Hin.
  pose proof (first_live_endpoint_quiet (is_connected w) nodes) as Hq.
  destruct (first_live_endpoint (is_connected w) nodes) as [t_conn [url|]].
  - destruct (shape_projections _ _ _ _ _ _ _ _ (after_loop_840_ok w) Hcase)
      as (_ & _ & _ & d2 & e & _ & _ & _ & _ & _ & _ & _ & _ & _ & Hc & _).
    rewrite Hc in Hin.
    destruct e as [p [|x v]|msg];
      [simpl in Hin; contradiction| |simpl in Hin; contradiction].
    change (V840.after_loop w (start_cursor V840.GENESIS_BLOCK d) (block_number w url)
              (LoopExit p (x :: v)) d2)
      with (V840.seal_and_save w (start_cursor V840.GENESIS_BLOCK d)
              (block_number w url) (x :: v) d2) in Hin.
    rewrite seal_and_save_certificate in Hin.
    destruct Hin as [Hin|[]]. injection Hin as <- <-.
    exists (x :: v), (start_cursor V840.GENESIS_BLOCK d), (block_number w url).
    split; reflexivity.
  - destruct Hcase as (_ & Htr & _).
    rewrite Htr, certificates_written_app in Hin.
    destruct (bootstrap_cursor V840.GENESIS_BLOCK d) as (_ & _ & _ & _ & Hb & _).
    destruct (quiet_projections _ Hq) as (_ & _ & Hc & _). simpl in Hc.
    rewrite Hb, Hc in Hin. contradiction.
Qed.

Lemma run_supreme_notary_certificates
      (nodes : list string) (step : Z) (w : World) (d : Disk) :
  0 <= step ->
  exists r, V835.run_supreme_notary nodes step w d = Some r
    /\ forall path cert,
         In (path, cert) (certificates_written (trace r)) ->
         exists raw_vault last_block current_block,
           cert = V835.final_bundle (V835.atomic_hash raw_vault) last_block
                                    current_block (time_time w 0) raw_vault
           /\ path = path_join (V835.SNAPSHOT_DIR w) (V835.f_name (time_time w 1)).
Proof.
  intros Hs.
  destruct (run_supreme_notary_cases nodes step w d Hs) as (r & Hr & Hcase).
  exists r; split; [exact Hr|]. intros path cert Hin.
  pose proof (first_live_endpoint_quiet (is_connected w) nodes) as Hq.
  destruct (first_live_endpoint (is_connected w) nodes) as [t_conn [url|]].
  - destruct (shape_projections _ _ _ _ _ _ _ _ (after_loop_835_ok w) Hcase)
      as (_ & _ & _ & d2 & e & _ & _ & _ & _ & _ & _ & _ & _ & _ & Hc & _).
    rewrite Hc in Hin.
    destruct e as [p [|x v]|msg];
      [simpl in Hin; contradiction| |simpl in Hin; contradiction].
    change (V835.after_loop w (start_cursor V835.GENESIS_BLOCK d) (block_number w url)
              (LoopExit p (x :: v)) d2)
      with (V835.seal_and_publish w (start_cursor V835.GENESIS_BLOCK d)
              (block_number w url) (x :: v) d2) in Hin.
    rewrite seal_and_publish_certificate in Hin.
    destruct Hin as [Hin|[]]. injection Hin as <- <-.
    exists (x :: v), (start_cursor V835.GENESIS_BLOCK d), (block_number w url).
    split; reflexivity.
  - destruct Hcase as (_ & Htr & _).
    rewrite Htr, certificates_written_app in Hin.
    destruct (bootstrap_cursor V835.GENESIS_BLOCK d) as (_ & _ & _ & _ & Hb & _).
    destruct (quiet_projections _ Hq) as (_ & _ & Hc & _). simpl in Hc.
    rewrite Hb, Hc in Hin. contradiction.
Qed.

(** C8 (amended). Every certificate a run writes goes to the snapshot
    directory.  v8.4.0 names it
    [AOXC_CERT_<unixtime>_<first 8 characters of its fingerprint>.json],
    which follows the pattern; v8.3.5 names it
    [Supreme_Sealed_<unixtime>.json], from the time of writing alone. *)
Theorem C8_certificate_file_names
        (nodes : list string) (step : Z) (w : World) (d : Disk) :
  0 <= step ->
  (exists r, V840.run_notary_cycle nodes step w d = Some r
     /\ forall path cert,
          In (path, cert) (certificates_written (trace r)) ->
          exists fingerprint name,
            attestation_field "fingerprint" cert = Some (JStr (py fingerprint))
            /\ path = path_join (V840.SNAPSHOTS w) name
            /\ name = "AOXC_CERT_" ++ str_of_Z (time_time w 0) ++ "_"
                      ++ prefix_of 8 fingerprint ++ ".json"
            /\ follows_name_pattern name (time_time w 0) fingerprint)
  /\ (exists r, V835.run_supreme_notary nodes step w d = Some r
     /\ forall path cert,
          In (path, cert) (certificates_written (trace r)) ->
          exists fingerprint name,
            attestation_field "fingerprint_sha256" cert = Some (JStr (py fingerprint))
            /\ path = path_join (V835.SNAPSHOT_DIR w) name
            /\ name = "Supreme_Sealed_" ++ str_of_Z (time_time w 1) ++ ".json").
Proof.
  intros Hs. split.
  - destruct (run_notary_cycle_certificates nodes step w d Hs) as (r & Hr & Hc).
    exists r; split; [exact Hr|]. intros path cert Hin.
    destruct (Hc _ _ Hin) as (vault & cursor & head & -> & ->).
    exists (sha256_upper_of_sorted_dump vault), 
      (V840.file_name (time_time w 0) (sha256_upper_of_sorted_dump vault)).
    repeat split.
    exists "AOXC_CERT", 8%nat. split; [lia|reflexivity].
  - destruct (run_supreme_notary_certificates nodes step w d Hs) as (r & Hr & Hc).
    exists r; split; [exact Hr|]. intros path cert Hin.
    destruct (Hc _ _ Hin) as (vault & cursor & head & -> & ->).
    exists (V835.atomic_hash vault), (V835.f_name (time_time w 1)).
    repeat split.
Qed.

(** C8 as stated fails on v8.3.5: the one certificate of this run is
    written to [snapshots/Supreme_Sealed_1700000001.json], a name that
    does not follow the pattern for its fingerprint, neither with the
    time in the attestation nor with the time in the name. *)
Lemma C8_counterexample_v835_name :
  exists r cert fingerprint,
    V835.main (world_with 52084050 (fun _ _ => Logs [sample_event])) disk_fresh = Some r
    /\ certificates_written (trace r)
       = [("/opt/aoxc/sentinel/snapshots/Supreme_Sealed_1700000001.json", cert)]
    /\ attestation_field "fingerprint_sha256" cert = Some (JStr (py fingerprint))
    /\ attestation_field "unix_ts" cert = Some (JInt 1700000000)
    /\ ~ follows_name_pattern "Supreme_Sealed_1700000001.json" 1700000000 fingerprint
    /\ ~ follows_name_pattern "Supreme_Sealed_1700000001.json" 1700000001 fingerprint.
Proof.
  eexists. eexists. exists (V835.atomic_hash [sample_event]).
  split; [vm_compute; reflexivity|].
  split; [vm_compute; reflexivity|].
  split; [vm_compute; reflexivity|].
  split; [vm_compute; reflexivity|].
  split; intros H; apply follows_name_pattern_occurs in H;
    vm_compute in H; discriminate H.
Qed.

(* ------------------------------------------------------------------ *)
(** ** Concrete runs *)

Lemma C4_end_to_end_example_witness :
  exists r path cert,
    V840.run_notary_cycle V840.RPC_NODES 100 world_example disk_example = Some r
    /\ requested_ranges (trace r) = [(1000, 1100); (1101, 1201); (1202, 1205)]
    /\ cursor_file (final_disk r) = Some 1206
    /\ certificates_written (trace r) = [(path, cert)]
    /\ directory_gains [] (snapshot_dir (final_disk r)) path cert
    /\ attestation_field "range" cert = Some (JStr (py "1000-1205"))
    /\ json_get "payload" cert = Some (JList three_events).
Proof.
  destruct (C4_end_to_end_example
              world_example disk_example V840.RPC_NODES
              [EvProbe "https://xlayer.drpc.org"] "https://xlayer.drpc.org"
              (JDict [(py "blockNumber", JInt 1001); (py "logIndex", JInt 0)])
              (JDict [(py "blockNumber", JInt 1001); (py "logIndex", JInt 1)])
              (JDict [(py "blockNumber", JInt 1077); (py "logIndex", JInt 0)])
              eq_refl eq_refl eq_refl eq_refl eq_refl eq_refl)
    as [(r & path & cert & H1 & _ & H3 & H4 & H5 & Hdir & H6 & _ & H8) _].
  exists r, path, cert.
  split; [exact H1|]. split; [exact H3|]. split; [exact H4|]. split; [exact H5|].
  split; [exact Hdir|]. split; [exact H6|exact H8].
Defined.

Lemma C1_crash_between_cursor_write_and_seal_witness :
  exists r,
    V840.main (world_busy 52084200) disk_fresh = Some r
    /\ crash_loses_fetched V840.main disk_fresh 52084000 r.
Proof.
  destruct (C1_crash_between_cursor_write_and_seal
              V840.RPC_NODES V840.BLOCK_STEP (world_busy 52084200) disk_fresh
              [EvProbe "https://xlayer.drpc.org"] "https://xlayer.drpc.org"
              [sample_event] [sample_event]
              ltac:(unfold V840.BLOCK_STEP; lia) eq_refl eq_refl eq_refl eq_refl eq_refl)
    as [H _].
  exact H.
Defined.

Lemma C5_cursor_monotone_witness :
  exists r,
    V835.main (world_busy 52084200) disk_fresh = Some r
    /\ cursor_moves_forward disk_fresh 52084000 r.
Proof.
  destruct (C5_cursor_monotone
              V835.RPC_NODES V835.BLOCK_STEP (world_busy 52084200) disk_fresh
              [EvProbe "https://xlayer.drpc.org"] "https://xlayer.drpc.org"
              ltac:(unfold V835.BLOCK_STEP; lia) eq_refl)
    as [_ H].
  exact H.
Defined.

Lemma silent_answers (head : Z) (rs : list (Z * Z)) :
  Forall (fun ab => get_logs (world_silent head) "https://xlayer.drpc.org"
                             (fst ab) (snd ab) = Logs []) rs.
Proof. induction rs; constructor; auto. Qed.

Lemma C6_empty_batch_skips_seal_witness :
  exists r,
    V840.main (world_silent 52084200) disk_fresh = Some r
    /\ certificates_written (trace r) = []
    /\ publishes (trace r) = []
    /\ outcome r = Returned.
Proof.
  destruct (C6_empty_batch_skips_seal
              V840.RPC_NODES V840.BLOCK_STEP (world_silent 52084200) disk_fresh
              [EvProbe "https://xlayer.drpc.org"] "https://xlayer.drpc.org"
              ltac:(unfold V840.BLOCK_STEP; lia) eq_refl)
    as [(r & Hr & H) _].
  exists r. split; [exact Hr|].
  destruct (H (silent_answers _ _)) as (H1 & H2 & _ & H4 & _).
  repeat split; assumption.
Defined.

Lemma C7_rpc_failure_aborts_scan_witness :
  exists r,
    V840.main (world_flaky 52084200) disk_fresh = Some r
    /\ forall a b msg,
         In (a, b) (requested_ranges (trace r)) ->
         get_logs (world_flaky 52084200) "https://xlayer.drpc.org" a b = RpcError msg ->
         scan_aborted disk_fresh (world_flaky 52084200) "https://xlayer.drpc.org"
                      52084000 r a b
                      (EvPrint (nl ++ "[ERROR] System Integrity Breach: " ++ msg)).
Proof.
  destruct (C7_rpc_failure_aborts_scan
              V840.RPC_NODES V840.BLOCK_STEP (world_flaky 52084200) disk_fresh
              [EvProbe "https://xlayer.drpc.org"] "https://xlayer.drpc.org"
              ltac:(unfold V840.BLOCK_STEP; lia) eq_refl)
    as [H _].
  exact H.
Defined.

Lemma C8_certificate_file_names_witness :
  exists r,
    V840.main (world_busy 52084050) disk_fresh = Some r
    /\ forall path cert,
         In (path, cert) (certificates_written (trace r)) ->
         exists fingerprint name,
           attestation_field "fingerprint" cert = Some (JStr (py fingerprint))
           /\ path = path_join (V840.SNAPSHOTS (world_busy 52084050)) name
           /\ name = "AOXC_CERT_" ++ str_of_Z 1700000000 ++ "_"
                     ++ prefix_of 8 fingerprint ++ ".json"
           /\ follows_name_pattern name 1700000000 fingerprint.
Proof.
  destruct (C8_certificate_file_names
              V840.RPC_NODES V840.BLOCK_STEP (world_busy 52084050) disk_fresh
              ltac:(unfold V840.BLOCK_STEP; lia))
    as [H _].
  exact H.
Defined.

(** The same kind of runs, evaluated. *)

Example rpc_failure_run :
  exists r,
    V840.main (world_flaky 52084200) disk_fresh = Some r
    /\ requested_ranges (trace r) = [(52084000, 52084070); (52084071, 52084141)]
    /\ cursor_writes (trace r) = [52084000; 52084071]
    /\ cursor_file (final_disk r) = Some 52084071
    /\ snapshot_dir (final_disk r) = []
    /\ last (trace r) EvSleep
       = EvPrint (nl ++ "[ERROR] System Integrity Breach: timeout")
    /\ outcome r = Returned.
Proof. eexists. split; [vm_compute; reflexivity|]. repeat split. Qed.

Example silent_run :
  exists r,
    V835.main (world_silent 52084200) disk_fresh = Some r
    /\ requested_ranges (trace r)
       = [(52084000, 52084085); (52084086, 52084171); (52084172, 52084200)]
    /\ cursor_file (final_disk r) = Some 52084201
    /\ snapshot_dir (final_disk r) = []
    /\ publishes (trace r) = []
    /\ outcome r = Returned.
Proof. eexists. split; [vm_compute; reflexivity|]. repeat split. Qed.

(** A crash after the last cursor write of a run that fetched two
    ranges, then a resumed run on a chain that moved on: the resumed run
    starts at 52084142, and its certificate is the only one on the disk. *)
Example crash_then_resume :
  exists r pre post r',
    V840.main (world_busy 52084141) disk_fresh = Some r
    /\ trace r = (pre ++ post)%list
    /\ last pre EvSleep = EvWriteCursor 52084142
    /\ requested_ranges pre = [(52084000, 52084070); (52084071, 52084141)]
    /\ certificates_written pre = []
    /\ disk_after disk_fresh pre = {| cursor_file := Some 52084142; snapshot_dir := [] |}
    /\ V840.main (world_busy 52084150) (disk_after disk_fresh pre) = Some r'
    /\ requested_ranges (trace r') = [(52084142, 52084150)]
    /\ map (attestation_field "range") (map snd (snapshot_dir (final_disk r')))
       = [Some (JStr (py "52084142-52084150"))].
Proof.
  eexists. exists (firstn 16 (match V840.main (world_busy 52084141) disk_fresh with
                              | Some r => trace r | None => [] end)).
  exists (skipn 16 (match V840.main (world_busy 52084141) disk_fresh with
                    | Some r => trace r | None => [] end)).
  eexists.
  split; [vm_compute; reflexivity|].
  split; [vm_compute; reflexivity|].
  split; [vm_compute; reflexivity|].
  split; [vm_compute; reflexivity|].
  split; [vm_compute; reflexivity|].
  split; [vm_compute; reflexivity|].
  split; [vm_compute; reflexivity|].
  split; vm_compute; reflexivity.
Qed.

(* ------------------------------------------------------------------ *)
(** * Further properties of the scripts *)

(** ** The ranges of a scan *)

Lemma tiles_strides (step head : Z) (rs : list (Z * Z)) :
  0 <= step ->
  forall p, tiles step head p rs ->
    (forall front last,
        rs = (front ++ [last])%list ->
        Forall (fun ab => snd ab - fst ab = step) front)
    /\ (rs <> [] -> (Z.of_nat (List.length rs) - 1) * (step + 1) < head - p)
    /\ pointer_after p rs <= p + Z.of_nat (List.length rs) * (step + 1).
Proof.
  intros Hs; induction rs as [|[a b] rest IH]; intros p Ht.
  - split; [|split].
    + intros [|x front] last E; discriminate E.
    + intros H; elim H; reflexivity.
    + unfold pointer_after; simpl; lia.
  - simpl in Ht. destruct Ht as (-> & Hlt & -> & Ht).
    destruct (IH _ Ht) as (IHf & IHc & IHp).
    assert (Hfull : rest <> [] -> Z.min (p + step) head = p + step).
    { destruct rest as [|[a' b'] rest']; [intros H; elim H; reflexivity|].
      intros _. simpl in Ht. lia. }
    split; [|split].
    + intros [|x front] last E; [constructor|].
      simpl in E. injection E as <- E.
      constructor.
      * simpl. rewrite Hfull; [lia|]. rewrite E. destruct front; discriminate.
      * apply (IHf _ _ E).
    + intros _. destruct rest as [|x rest'] eqn:Er; [simpl; lia|].
      rewrite <- Er in *.
      assert (Hne : rest <> []) by (rewrite Er; discriminate).
      specialize (IHc Hne). rewrite (Hfull Hne) in IHc.
      change (List.length ((p, Z.min (p + step) head) :: rest))
        with (S (List.length rest)).
      rewrite Nat2Z.inj_succ. nia.
    + rewrite pointer_after_cons.
      change (List.length ((p, Z.min (p + step) head) :: rest))
        with (S (List.length rest)).
      rewrite Nat2Z.inj_succ. nia.
Qed.

Section ShapeScan.
Variables genesis step : Z.
Variable line : Z -> Z -> nat -> string.
Variable after : Z -> Z -> ScanEnd -> Disk -> list Event * Disk.
Variable w : World.
Variable d : Disk.
Variable url : string.
Variable r : Run.
Hypothesis step_nonneg : 0 <= step.
Hypothesis after_fine : after_ok after.
Hypothesis shape : run_shape genesis step line after w d url r.

Let c0 := start_cursor genesis d.
Let head := block_number w url.

(** The requested ranges are the completed ones, followed by the one
    whose call raised if one did; the cursor file ends one past the last
    completed range. *)
Lemma shape_scan_summary :
  exists done tail p' e d2,
    requested_ranges (trace r) = (done ++ tail)%list
    /\ Forall (answered (get_logs w url)) done
    /\ (tail = [] /\ (exists v', e = LoopExit p' v') /\ head <= p'
        \/ exists a b msg, tail = [(a, b)] /\ get_logs w url a b = RpcError msg
                           /\ e = Raised msg)
    /\ p' = pointer_after c0 done
    /\ cursor_file (final_disk r) = Some p'
    /\ (c0 < head -> forall v', e = LoopExit p' v' ->
        (p' = head <-> (head - c0) mod (step + 1) = 0))
    /\ final_disk r = snd (after c0 head e d2)
    /\ certificates_written (trace r) = certificates_written (fst (after c0 head e d2))
    /\ publishes (trace r) = publishes (fst (after c0 head e d2))
    /\ (forall v', e = LoopExit p' v' ->
        v' = flat_map (answer (get_logs w url)) (requested_ranges (trace r))).
Proof.
  destruct (shape_projections _ _ _ _ _ _ _ _ after_fine shape)
    as (before & banner & t_scan & d2 & e & Hrun & Htr & _ & _ & _ & _ & _
        & Hr & _ & Hc & Hp & _ & Hfin & Hout).
  fold c0 head in Hrun, Htr, Hc, Hp, Hfin.
  pose proof (loop_end _ _ _ _ _ _ _ _ _ _ _ Hrun) as Hend.
  destruct (loop_disk _ _ _ _ _ _ _ _ _ _ _ Hrun) as (Hd2 & _).
  destruct (bootstrap_cursor genesis d) as (Hcur0 & _).
  destruct (after_fine c0 head e d2) as (_ & Hw5 & _ & Hd5 & _).
  assert (Hcur : forall done,
             cursor_writes t_scan = map (fun ab => snd ab + 1) done ->
             cursor_file (final_disk r) = Some (pointer_after c0 done)).
  { intros done Hw. rewrite Hfin, Hd5, cursor_file_disk_after, Hw5. simpl.
    rewrite Hd2, cursor_file_disk_after, Hcur0, Hw. fold c0.
    apply last_map_Some. }
  destruct e as [p' v'|msg].
  - destruct Hend as (Hge & Hp' & Hio & Hv & Hall).
    exists (requested_ranges t_scan), [], p', (LoopExit p' v'), d2.
    rewrite app_nil_r, Hr.
    split; [reflexivity|]. split; [exact Hall|].
    split; [left; eauto|]. split; [exact Hp'|].
    split; [rewrite Hp'; apply Hcur;
            rewrite <- cursor_writes_calls_and_writes, Hio;
            apply cursor_writes_completed_io|].
    split; [intros Hlt v0 E;
            apply (loop_stops_on_head_iff _ _ _ _ step_nonneg _ _ _ _ _ _ _ _ Hrun Hlt)|].
    split; [exact Hfin|]. split; [exact Hc|]. split; [exact Hp|].
    intros v0 E. injection E as <-. exact Hv.
  - destruct Hend as (done & a & b & Hrs & Herr & Ha & Hio & Hall).
    exists done, [(a, b)], (pointer_after c0 done), (Raised msg), d2.
    rewrite Hr.
    split; [exact Hrs|]. split; [exact Hall|].
    split; [right; eauto 6|]. split; [reflexivity|].
    split; [apply Hcur;
            rewrite <- cursor_writes_calls_and_writes, Hio, cursor_writes_app,
              cursor_writes_completed_io; simpl; apply app_nil_r|].
    split; [intros _ v0 E; discriminate E|].
    split; [exact Hfin|]. split; [exact Hc|]. split; [exact Hp|].
    intros v0 E; discriminate E.
Qed.
End ShapeScan.

(** X1. The ranges a run requests lie one after the other from the
    cursor it found, without gap or overlap, inside [cursor, head], each
    no wider than the step and all but the last of full width. *)
Theorem scan_ranges_well_tiled
        (nodes : list string) (step : Z) (w : World) (d : Disk)
        (t_conn : list Event) (url : string) :
  0 <= step ->
  first_live_endpoint (is_connected w) nodes = (t_conn, Some url) ->
  (exists r, V840.run_notary_cycle nodes step w d = Some r
     /\ ranges_well_tiled step (block_number w url)
          (start_cursor V840.GENESIS_BLOCK d) (requested_ranges (trace r)))
  /\ (exists r, V835.run_supreme_notary nodes step w d = Some r
     /\ ranges_well_tiled step (block_number w url)
          (start_cursor V835.GENESIS_BLOCK d) (requested_ranges (trace r))).
Proof.
  intros Hs Hconn.
  destruct (run_notary_cycle_cases nodes step w d Hs) as (r1 & Hr1 & Hsh1).
  destruct (run_supreme_notary_cases nodes step w d Hs) as (r2 & Hr2 & Hsh2).
  rewrite Hconn in Hsh1, Hsh2.
  split; [exists r1|exists r2]; (split; [assumption|]).
  - pose proof (shape_tiles _ _ _ _ _ _ _ _ (after_loop_840_ok w) Hsh1) as Ht.
    destruct (tiles_facts _ _ _ Hs _ Ht) as (H1 & H2 & _).
    destruct (tiles_strides _ _ _ Hs _ Ht) as (H3 & _).
    repeat split; assumption.
  - pose proof (shape_tiles _ _ _ _ _ _ _ _ (after_loop_835_ok w) Hsh2) as Ht.
    destruct (tiles_facts _ _ _ Hs _ Ht) as (H1 & H2 & _).
    destruct (tiles_strides _ _ _ Hs _ Ht) as (H3 & _).
    repeat split; assumption.
Qed.

Lemma scan_ranges_well_tiled_witness :
  exists r,
    V835.main (world_busy 52084200) disk_fresh = Some r
    /\ ranges_well_tiled 85 52084200 52084000 (requested_ranges (trace r)).
Proof.
  destruct (scan_ranges_well_tiled
              V835.RPC_NODES V835.BLOCK_STEP (world_busy 52084200) disk_fresh
              [EvProbe "https://xlayer.drpc.org"] "https://xlayer.drpc.org"
              ltac:(unfold V835.BLOCK_STEP; lia) eq_refl)
    as [_ H].
  exact H.
Defined.

Section ShapeCounts.
Variables genesis step : Z.
Variable line : Z -> Z -> nat -> string.
Variable after : Z -> Z -> ScanEnd -> Disk -> list Event * Disk.
Variable w : World.
Variable d : Disk.
Variable url : string.
Variable r : Run.
Hypothesis step_nonneg : 0 <= step.
Hypothesis after_fine : after_ok after.
Hypothesis shape : run_shape genesis step line after w d url r.

Let c0 := start_cursor genesis d.
Let head := block_number w url.

(** When every requested range was answered the loop left normally. *)
Lemma shape_all_answered :
  Forall (answered (get_logs w url)) (requested_ranges (trace r)) ->
  exists p' v' d2,
    head <= p'
    /\ p' = pointer_after c0 (requested_ranges (trace r))
    /\ cursor_file (final_disk r) = Some p'
    /\ (c0 < head -> (p' = head <-> (head - c0) mod (step + 1) = 0))
    /\ v' = flat_map (answer (get_logs w url)) (requested_ranges (trace r))
    /\ final_disk r = snd (after c0 head (LoopExit p' v') d2)
    /\ certificates_written (trace r)
       = certificates_written (fst (after c0 head (LoopExit p' v') d2))
    /\ publishes (trace r) = publishes (fst (after c0 head (LoopExit p' v') d2)).
Proof.
  intros Hall.
  destruct (shape_scan_summary _ _ _ _ _ _ _ _ step_nonneg after_fine shape)
    as (done & tail & p' & e & d2 & Hr & _ & Htail & Hp & Hcur & Hiff & Hfin & Hc
        & Hpub & Hv).
  fold c0 head in Hp, Hiff, Hfin, Hc, Hpub.
  destruct Htail as [(-> & (v' & ->) & Hge)|(a & b & msg & -> & Herr & _)].
  - rewrite app_nil_r in Hr. rewrite <- Hr in Hp.
    exists p', v', d2. repeat split; eauto.
    + intros E. apply (Hiff H v' eq_refl). exact E.
    + intros E. apply (Hiff H v' eq_refl). exact E.
  - rewrite Hr in Hall. apply Forall_app in Hall. destruct Hall as [_ Hall].
    inversion Hall as [|? ? [logs Hlogs] _]; subst. simpl in Hlogs. congruence.
Qed.

Lemma shape_call_count :
  call_count_bounded (get_logs w url) step head c0 (requested_ranges (trace r)).
Proof.
  pose proof (shape_tiles _ _ _ _ _ _ _ _ after_fine shape) as Ht.
  fold c0 head in Ht.
  destruct (tiles_strides _ _ _ step_nonneg _ Ht) as (_ & Hcount & Hupper).
  split; [exact Hcount|].
  intros Hall.
  destruct (shape_all_answered Hall) as (p' & v' & d2 & Hge & Hp & _).
  rewrite <- Hp in Hupper. lia.
Qed.

Lemma shape_complete_scan_cursor :
  c0 < head ->
  Forall (answered (get_logs w url)) (requested_ranges (trace r)) ->
  complete_scan_cursor step head c0 (requested_ranges (trace r))
                       (cursor_file (final_disk r)).
Proof.
  intros Hlt Hall.
  destruct (shape_all_answered Hall) as (p' & v' & d2 & Hge & Hp & Hcur & Hiff & _).
  pose proof (shape_tiles _ _ _ _ _ _ _ _ after_fine shape) as Ht.
  fold c0 head in Ht.
  destruct (tiles_facts _ _ _ step_nonneg _ Ht) as (_ & Hb & _ & Hpa).
  rewrite <- Hp in Hpa.
  destruct (exists_last (l := requested_ranges (trace r))) as (front & [a b] & E).
  { intros E. rewrite E in Hp. unfold pointer_after in Hp. simpl in Hp. lia. }
  assert (Hp' : p' = b + 1).
  { rewrite Hp, E. unfold pointer_after. rewrite map_app. simpl. apply last_last. }
  exists front, a, b. rewrite Hcur, Hp'.
  split; [exact E|]. split; [reflexivity|].
  split; [lia|].
  rewrite <- (Hiff Hlt). lia.
Qed.

(** No block below the head is left to scan: nothing happens. *)
Lemma shape_idle :
  head <= c0 ->
  requested_ranges (trace r) = []
  /\ cursor_writes (trace r) = cursor_writes (fst (bootstrap genesis d))
  /\ certificates_written (trace r) = []
  /\ publishes (trace r) = []
  /\ final_disk r = snd (bootstrap genesis d)
  /\ outcome r = Returned
  /\ exists t, trace r = (t ++ fst (after c0 head (LoopExit c0 [])
                                          (snd (bootstrap genesis d))))%list.
Proof.
  intros Hge.
  destruct (shape_projections _ _ _ _ _ _ _ _ after_fine shape)
    as (before & banner & t_scan & d2 & e & Hrun & Htr & _ & _ & _ & _ & _
        & Hr & Hw & Hc & Hp & _ & Hfin & Hout).
  fold c0 head in Hrun, Htr, Hc, Hp, Hfin.
  rewrite loop_exit in Hrun by exact Hge. injection Hrun as <- <- <-.
  destruct (after_fine c0 head (LoopExit c0 []) (snd (bootstrap genesis d)))
    as (_ & _ & _ & Hd & Hq).
  destruct (quiet_projections _ Hq) as (_ & _ & Hc' & Hp' & _ & Hd').
  repeat split; auto.
  - rewrite Hw. simpl. apply app_nil_r.
  - rewrite Hc; exact Hc'.
  - rewrite Hp; exact Hp'.
  - rewrite Hfin, Hd, Hd'. reflexivity.
  - exists (before ++ EvReadCursor c0 :: banner)%list.
    rewrite Htr, <- app_assoc. simpl. reflexivity.
Qed.
End ShapeCounts.

(** X2. The number of [get_logs] calls of a run: with n calls made,
    n - 1 strides of [step + 1] blocks fit strictly between the cursor and
    the head; and when every call was answered, n strides cover the
    distance, so a scan answered throughout makes exactly
    ceil((head - cursor) / (step + 1)) calls. *)
Theorem scan_call_count
        (nodes : list string) (step : Z) (w : World) (d : Disk)
        (t_conn : list Event) (url : string) :
  0 <= step ->
  first_live_endpoint (is_connected w) nodes = (t_conn, Some url) ->
  (exists r, V840.run_notary_cycle nodes step w d = Some r
     /\ call_count_bounded (get_logs w url) step (block_number w url)
          (start_cursor V840.GENESIS_BLOCK d) (requested_ranges (trace r)))
  /\ (exists r, V835.run_supreme_notary nodes step w d = Some r
     /\ call_count_bounded (get_logs w url) step (block_number w url)
          (start_cursor V835.GENESIS_BLOCK d) (requested_ranges (trace r))).
Proof.
  intros Hs Hconn.
  destruct (run_notary_cycle_cases nodes step w d Hs) as (r1 & Hr1 & Hsh1).
  destruct (run_supreme_notary_cases nodes step w d Hs) as (r2 & Hr2 & Hsh2).
  rewrite Hconn in Hsh1, Hsh2.
  split; [exists r1|exists r2]; (split; [assumption|]).
  - apply (shape_call_count _ _ _ _ _ _ _ _ Hs (after_loop_840_ok w) Hsh1).
  - apply (shape_call_count _ _ _ _ _ _ _ _ Hs (after_loop_835_ok w) Hsh2).
Qed.

Lemma scan_call_count_witness :
  exists r,
    V840.main (world_busy 52084200) disk_fresh = Some r
    /\ call_count_bounded (get_logs (world_busy 52084200) "https://xlayer.drpc.org")
         70 52084200 52084000 (requested_ranges (trace r)).
Proof.
  destruct (scan_call_count
              V840.RPC_NODES V840.BLOCK_STEP (world_busy 52084200) disk_fresh
              [EvProbe "https://xlayer.drpc.org"] "https://xlayer.drpc.org"
              ltac:(unfold V840.BLOCK_STEP; lia) eq_refl)
    as [H _].
  exact H.
Defined.

(** X3. A scan that starts below the head and is answered throughout
    leaves in the cursor file one past the upper bound of its last range;
    that range ends at the head, except when the distance from the cursor
    to the head is a multiple of [step + 1]: then it ends one block
    before the head and the cursor is left on the head. *)
Theorem complete_scan_final_cursor
        (nodes : list string) (step : Z) (w : World) (d : Disk)
        (t_conn : list Event) (url : string) :
  0 <= step ->
  first_live_endpoint (is_connected w) nodes = (t_conn, Some url) ->
  (exists r, V840.run_notary_cycle nodes step w d = Some r
     /\ (start_cursor V840.GENESIS_BLOCK d < block_number w url ->
         Forall (answered (get_logs w url)) (requested_ranges (trace r)) ->
         complete_scan_cursor step (block_number w url)
           (start_cursor V840.GENESIS_BLOCK d) (requested_ranges (trace r))
           (cursor_file (final_disk r))))
  /\ (exists r, V835.run_supreme_notary nodes step w d = Some r
     /\ (start_cursor V835.GENESIS_BLOCK d < block_number w url ->
         Forall (answered (get_logs w url)) (requested_ranges (trace r)) ->
         complete_scan_cursor step (block_number w url)
           (start_cursor V835.GENESIS_BLOCK d) (requested_ranges (trace r))
           (cursor_file (final_disk r)))).
Proof.
  intros Hs Hconn.
  destruct (run_notary_cycle_cases nodes step w d Hs) as (r1 & Hr1 & Hsh1).
  destruct (run_supreme_notary_cases nodes step w d Hs) as (r2 & Hr2 & Hsh2).
  rewrite Hconn in Hsh1, Hsh2.
  split; [exists r1|exists r2]; (split; [assumption|]).
  - apply (shape_complete_scan_cursor _ _ _ _ _ _ _ _ Hs (after_loop_840_ok w) Hsh1).
  - apply (shape_complete_scan_cursor _ _ _ _ _ _ _ _ Hs (after_loop_835_ok w) Hsh2).
Qed.

Lemma busy_answers (head : Z) (rs : list (Z * Z)) :
  Forall (answered (get_logs (world_busy head) "https://xlayer.drpc.org")) rs.
Proof. induction rs; constructor; auto. exists [sample_event]. reflexivity. Qed.

Lemma complete_scan_final_cursor_witness :
  exists r,
    V840.main (world_busy 52084142) disk_fresh = Some r
    /\ complete_scan_cursor 70 52084142 52084000 (requested_ranges (trace r))
                            (cursor_file (final_disk r)).
Proof.
  destruct (complete_scan_final_cursor
              V840.RPC_NODES V840.BLOCK_STEP (world_busy 52084142) disk_fresh
              [EvProbe "https://xlayer.drpc.org"] "https://xlayer.drpc.org"
              ltac:(unfold V840.BLOCK_STEP; lia) eq_refl)
    as [(r & Hr & H) _].
  exists r. split; [exact Hr|].
  apply H; [reflexivity | apply busy_answers].
Defined.

(** X4. When the head is not above the cursor the run requests nothing,
    writes neither the cursor nor a certificate, publishes nothing, and
    returns after its "nothing new" line; the block at the head itself
    stays unscanned when the cursor stands on it. *)
Theorem no_new_block_idle_run
        (nodes : list string) (step : Z) (w : World) (d : Disk)
        (t_conn : list Event) (url : string) :
  0 <= step ->
  first_live_endpoint (is_connected w) nodes = (t_conn, Some url) ->
  (block_number w url <= start_cursor V840.GENESIS_BLOCK d ->
   exists r, V840.run_notary_cycle nodes step w d = Some r
     /\ idle_run V840.GENESIS_BLOCK d r
          (EvPrint "[*] No new data identified. Standing by for next block cycle."))
  /\ (block_number w url <= start_cursor V835.GENESIS_BLOCK d ->
      exists r, V835.run_supreme_notary nodes step w d = Some r
        /\ idle_run V835.GENESIS_BLOCK d r
             (EvPrint (nl ++ "[*] Yeni veri bulunamadı. Beklemede: "
                       ++ str_of_Z (block_number w url)))).
Proof.
  intros Hs Hconn.
  destruct (run_notary_cycle_cases nodes step w d Hs) as (r1 & Hr1 & Hsh1).
  destruct (run_supreme_notary_cases nodes step w d Hs) as (r2 & Hr2 & Hsh2).
  rewrite Hconn in Hsh1, Hsh2.
  split; intros Hge; [exists r1|exists r2]; (split; [assumption|]).
  - apply (shape_idle _ _ _ _ _ _ _ _ (after_loop_840_ok w) Hsh1 Hge).
  - apply (shape_idle _ _ _ _ _ _ _ _ (after_loop_835_ok w) Hsh2 Hge).
Qed.

Lemma no_new_block_idle_run_witness :
  exists r,
    V840.main (world_busy 52084000) disk_fresh = Some r
    /\ idle_run V840.GENESIS_BLOCK disk_fresh r
         (EvPrint "[*] No new data identified. Standing by for next block cycle.").
Proof.
  destruct (no_new_block_idle_run
              V840.RPC_NODES V840.BLOCK_STEP (world_busy 52084000) disk_fresh
              [EvProbe "https://xlayer.drpc.org"] "https://xlayer.drpc.org"
              ltac:(unfold V840.BLOCK_STEP; lia) eq_refl)
    as [H _].
  apply H. unfold start_cursor. simpl. unfold V840.GENESIS_BLOCK. lia.
Defined.

(** ** What gets sealed, and when *)

Lemma seal_and_publish_publishes (w : World) (last_block current_block : Z)
      (raw_vault : list json) (d : Disk) :
  publishes (fst (V835.seal_and_publish w last_block current_block raw_vault d))
  = [path_join (V835.SNAPSHOT_DIR w) (V835.f_name (time_time w 1))].
Proof.
  unfold V835.seal_and_publish; cbn [fst publishes flat_map app].
  destruct (ipfs_add w _) as [rc ? ?|?]; [destruct (rc =? 0)|]; reflexivity.
Qed.

(** A run of v8.4.0 either seals everything it fetched into one
    certificate, or writes none; it never publishes. *)
Lemma run_notary_cycle_seal_cases
      (nodes : list string) (step : Z) (w : World) (d : Disk)
      (t_conn : list Event) (url : string) :
  0 <= step ->
  first_live_endpoint (is_connected w) nodes = (t_conn, Some url) ->
  exists r, V840.run_notary_cycle nodes step w d = Some r
    /\ publishes (trace r) = []
    /\ outcome r = Returned
    /\ (sealable w url r
        /\ certificates_written (trace r)
           = [ (path_join (V840.SNAPSHOTS w)
                  (V840.file_name (time_time w 0)
                     (sha256_upper_of_sorted_dump (fetched_events w url r))),
                fst (V840.seal_artifact (fetched_events w url r)
                       (start_cursor V840.GENESIS_BLOCK d) (block_number w url)
                       (utcnow_isoformat w))) ]
        \/ ~ sealable w url r /\ certificates_written (trace r) = []).
Proof.
  intros Hs Hconn.
  destruct (run_notary_cycle_cases nodes step w d Hs) as (r & Hr & Hsh).
  rewrite Hconn in Hsh.
  exists r. split; [exact Hr|].
  destruct (shape_scan_summary _ _ _ _ _ _ _ _ Hs (after_loop_840_ok w) Hsh)
    as (done & tail & p' & e & d2 & Hrs & Hdone & Htail & _ & _ & _ & _ & Hc & Hp & Hv).
  destruct (shape_projections _ _ _ _ _ _ _ _ (after_loop_840_ok w) Hsh)
    as (_ & _ & _ & _ & _ & _ & _ & _ & _ & _ & _ & _ & _ & _ & _ & _ & _ & _ & Hout).
  split; [rewrite Hp; destruct e as [? [|? ?]|?]; reflexivity|].
  split; [exact Hout|].
  destruct Htail as [(-> & (v' & ->) & _)|(a & b & msg & -> & Herr & ->)].
  - rewrite app_nil_r in Hrs. specialize (Hv v' eq_refl).
    fold (fetched_events w url r) in Hv.
    destruct v' as [|x v].
    + right. split; [|rewrite Hc; reflexivity].
      intros [_ Hne]. apply Hne. symmetry; exact Hv.
    + left. split; [split|].
      * rewrite Hrs; exact Hdone.
      * rewrite <- Hv; discriminate.
      * rewrite Hc, <- Hv.
        change (V840.after_loop w (start_cursor V840.GENESIS_BLOCK d)
                  (block_number w url) (LoopExit p' (x :: v)) d2)
          with (V840.seal_and_save w (start_cursor V840.GENESIS_BLOCK d)
                  (block_number w url) (x :: v) d2).
        apply seal_and_save_certificate.
  - right. split; [|rewrite Hc; reflexivity].
    intros [Hall _]. rewrite Hrs in Hall.
    apply Forall_app in Hall. destruct Hall as [_ Hall].
    inversion Hall as [|? ? [logs Hlogs] _]; subst. simpl in Hlogs. congruence.
Qed.

(** A run of v8.3.5 either seals everything it fetched into one
    certificate and hands that file to the publisher, or writes and
    publishes nothing. *)
Lemma run_supreme_notary_seal_cases
      (nodes : list string) (step : Z) (w : World) (d : Disk)
      (t_conn : list Event) (url : string) :
  0 <= step ->
  first_live_endpoint (is_connected w) nodes = (t_conn, Some url) ->
  exists r, V835.run_supreme_notary nodes step w d = Some r
    /\ outcome r = Returned
    /\ (sealable w url r
        /\ certificates_written (trace r)
           = [ (path_join (V835.SNAPSHOT_DIR w) (V835.f_name (time_time w 1)),
                V835.final_bundle
                  (sha256_upper_of_sorted_dump (fetched_events w url r))
                  (start_cursor V835.GENESIS_BLOCK d) (block_number w url)
                  (time_time w 0) (fetched_events w url r)) ]
        /\ publishes (trace r)
           = [path_join (V835.SNAPSHOT_DIR w) (V835.f_name (time_time w 1))]
        \/ ~ sealable w url r
           /\ certificates_written (trace r) = [] /\ publishes (trace r) = []).
Proof.
  intros Hs Hconn.
  destruct (run_supreme_notary_cases nodes step w d Hs) as (r & Hr & Hsh).
  rewrite Hconn in Hsh.
  exists r. split; [exact Hr|].
  destruct (shape_scan_summary _ _ _ _ _ _ _ _ Hs (after_loop_835_ok w) Hsh)
    as (done & tail & p' & e & d2 & Hrs & Hdone & Htail & _ & _ & _ & _ & Hc & Hp & Hv).
  destruct (shape_projections _ _ _ _ _ _ _ _ (after_loop_835_ok w) Hsh)
    as (_ & _ & _ & _ & _ & _ & _ & _ & _ & _ & _ & _ & _ & _ & _ & _ & _ & _ & Hout).
  split; [exact Hout|].
  destruct Htail as [(-> & (v' & ->) & _)|(a & b & msg & -> & Herr & ->)].
  - rewrite app_nil_r in Hrs. specialize (Hv v' eq_refl).
    fold (fetched_events w url r) in Hv.
    destruct v' as [|x v].
    + right. split; [|split; [rewrite Hc|rewrite Hp]; reflexivity].
      intros [_ Hne]. apply Hne. symmetry; exact Hv.
    + left. split; [split|split].
      * rewrite Hrs; exact Hdone.
      * rewrite <- Hv; discriminate.
      * rewrite Hc, <- Hv.
        change (V835.after_loop w (start_cursor V835.GENESIS_BLOCK d)
                  (block_number w url) (LoopExit p' (x :: v)) d2)
          with (V835.seal_and_publish w (start_cursor V835.GENESIS_BLOCK d)
                  (block_number w url) (x :: v) d2).
        apply seal_and_publish_certificate.
      * rewrite Hp.
        change (V835.after_loop w (start_cursor V835.GENESIS_BLOCK d)
                  (block_number w url) (LoopExit p' (x :: v)) d2)
          with (V835.seal_and_publish w (start_cursor V835.GENESIS_BLOCK d)
                  (block_number w url) (x :: v) d2).
        apply seal_and_publish_publishes.
  - right. split; [|split; [rewrite Hc|rewrite Hp]; reflexivity].
    intros [Hall _]. rewrite Hrs in Hall.
    apply Forall_app in Hall. destruct Hall as [_ Hall].
    inversion Hall as [|? ? [logs Hlogs] _]; subst. simpl in Hlogs. congruence.
Qed.

(** X5. A certificate a run writes seals exactly what the run fetched:
    every request of the run was answered, the payload is the events of
    all answers in the order of the requests, the range field is
    "<cursor found>-<head>", and the fingerprint field is the uppercase
    SHA-256 of the key-sorted serialization of that payload, so that the
    certificate can be checked against itself. *)
Theorem certificate_seals_fetched_events
        (nodes : list string) (step : Z) (w : World) (d : Disk)
        (t_conn : list Event) (url : string) :
  0 <= step ->
  first_live_endpoint (is_connected w) nodes = (t_conn, Some url) ->
  (exists r, V840.run_notary_cycle nodes step w d = Some r
     /\ forall path cert,
          In (path, cert) (certificates_written (trace r)) ->
          sealable w url r
          /\ json_get "payload" cert = Some (JList (fetched_events w url r))
          /\ attestation_field "range" cert
             = Some (JStr (py (str_of_Z (start_cursor V840.GENESIS_BLOCK d) ++ "-"
                               ++ str_of_Z (block_number w url))))
          /\ attestation_field "fingerprint" cert
             = Some (JStr (py (sha256_upper_of_sorted_dump (fetched_events w url r)))))
  /\ (exists r, V835.run_supreme_notary nodes step w d = Some r
     /\ forall path cert,
          In (path, cert) (certificates_written (trace r)) ->
          sealable w url r
          /\ json_get "raw_payload" cert = Some (JList (fetched_events w url r))
          /\ attestation_field "range" cert
             = Some (JStr (py (str_of_Z (start_cursor V835.GENESIS_BLOCK d) ++ "-"
                               ++ str_of_Z (block_number w url))))
          /\ attestation_field "fingerprint_sha256" cert
             = Some (JStr (py (sha256_upper_of_sorted_dump (fetched_events w url r))))).
Proof.
  intros Hs Hconn. split.
  - destruct (run_notary_cycle_seal_cases nodes step w d t_conn url Hs Hconn)
      as (r & Hr & _ & _ & [(Hseal & Hc)|(_ & Hc)]);
      exists r; (split; [exact Hr|]); intros path cert Hin; rewrite Hc in Hin.
    + destruct Hin as [Hin|[]]. injection Hin as <- <-.
      split; [exact Hseal|]. repeat split.
    + contradiction.
  - destruct (run_supreme_notary_seal_cases nodes step w d t_conn url Hs Hconn)
      as (r & Hr & _ & [(Hseal & Hc & _)|(_ & Hc & _)]);
      exists r; (split; [exact Hr|]); intros path cert Hin; rewrite Hc in Hin.
    + destruct Hin as [Hin|[]]. injection Hin as <- <-.
      split; [exact Hseal|]. repeat split.
    + contradiction.
Qed.

Lemma certificate_seals_fetched_events_witness :
  exists r,
    V840.main (world_busy 52084200) disk_fresh = Some r
    /\ forall path cert,
         In (path, cert) (certificates_written (trace r)) ->
         json_get "payload" cert
         = Some (JList (fetched_events (world_busy 52084200)
                                       "https://xlayer.drpc.org" r)).
Proof.
  destruct (certificate_seals_fetched_events
              V840.RPC_NODES V840.BLOCK_STEP (world_busy 52084200) disk_fresh
              [EvProbe "https://xlayer.drpc.org"] "https://xlayer.drpc.org"
              ltac:(unfold V840.BLOCK_STEP; lia) eq_refl)
    as [(r & Hr & H) _].
  exists r. split; [exact Hr|].
  intros path cert Hin. destruct (H path cert Hin) as (_ & Hp & _). exact Hp.
Defined.

(** X6. At most one certificate per run, and one is written exactly
    when every request was answered and at least one event came back: a
    raise anywhere in the scan, or answers that are all empty, leave no
    certificate. *)
Theorem one_certificate_iff_sealable
        (nodes : list string) (step : Z) (w : World) (d : Disk)
        (t_conn : list Event) (url : string) :
  0 <= step ->
  first_live_endpoint (is_connected w) nodes = (t_conn, Some url) ->
  (exists r, V840.run_notary_cycle nodes step w d = Some r
     /\ (List.length (certificates_written (trace r)) <= 1)%nat
     /\ (List.length (certificates_written (trace r)) = 1%nat <-> sealable w url r))
  /\ (exists r, V835.run_supreme_notary nodes step w d = Some r
     /\ (List.length (certificates_written (trace r)) <= 1)%nat
     /\ (List.length (certificates_written (trace r)) = 1%nat <-> sealable w url r)).
Proof.
  intros Hs Hconn. split.
  - destruct (run_notary_cycle_seal_cases nodes step w d t_conn url Hs Hconn)
      as (r & Hr & _ & _ & [(Hseal & Hc)|(Hno & Hc)]);
      exists r; (split; [exact Hr|]); rewrite Hc; simpl.
    + split; [lia|]. split; auto.
    + split; [lia|]. split; [discriminate|]. intros H; elim (Hno H).
  - destruct (run_supreme_notary_seal_cases nodes step w d t_conn url Hs Hconn)
      as (r & Hr & _ & [(Hseal & Hc & _)|(Hno & Hc & _)]);
      exists r; (split; [exact Hr|]); rewrite Hc; simpl.
    + split; [lia|]. split; auto.
    + split; [lia|]. split; [discriminate|]. intros H; elim (Hno H).
Qed.

Lemma one_certificate_iff_sealable_witness :
  exists r,
    V835.main (world_flaky 52084200) disk_fresh = Some r
    /\ (List.length (certificates_written (trace r)) <= 1)%nat.
Proof.
  destruct (one_certificate_iff_sealable
              V835.RPC_NODES V835.BLOCK_STEP (world_flaky 52084200) disk_fresh
              [EvProbe "https://xlayer.drpc.org"] "https://xlayer.drpc.org"
              ltac:(unfold V835.BLOCK_STEP; lia) eq_refl)
    as [_ (r & Hr & H & _)].
  exists r. split; assumption.
Defined.

(** ** Publishing and the snapshot directory *)

Lemma snapshot_dir_disk_after_certs (t : list Event) :
  forall d, snapshot_dir (disk_after d t)
            = snapshots_after (snapshot_dir d) (certificates_written t).
Proof.
  induction t as [|e t IH]; intros d; [reflexivity|].
  destruct e; simpl; try apply IH.
  rewrite IH. reflexivity.
Qed.

(** Files under other names survive the writing of certificates, and
    nothing appears that was neither there nor written. *)
Lemma snapshots_after_other_names (certs : list (string * json)) :
  forall dir p c,
    In (p, c) dir -> ~ In p (map fst certs) -> In (p, c) (snapshots_after dir certs).
Proof.
  induction certs as [|[p' c'] certs IH]; intros dir p c Hin Hno; [exact Hin|].
  simpl. apply IH.
  - right. apply filter_In. split; [exact Hin|]. simpl.
    destruct (String.eqb_spec p' p) as [->|_]; [|reflexivity].
    elim Hno. left; reflexivity.
  - intros H; apply Hno; right; exact H.
Qed.

Lemma snapshots_after_origin (certs : list (string * json)) :
  forall dir p c,
    In (p, c) (snapshots_after dir certs) -> In (p, c) dir \/ In (p, c) certs.
Proof.
  induction certs as [|[p' c'] certs IH]; intros dir p c Hin; [left; exact Hin|].
  simpl in Hin. destruct (IH _ _ _ Hin) as [[H|H]|H].
  - right; left; exact H.
  - left. apply filter_In in H. apply H.
  - right; right; exact H.
Qed.

(** What a run leaves on the disk is what its trace wrote. *)
Lemma run_notary_cycle_final_disk
      (nodes : list string) (step : Z) (w : World) (d : Disk) :
  0 <= step ->
  exists r, V840.run_notary_cycle nodes step w d = Some r
    /\ final_disk r = disk_after d (trace r)
    /\ publishes (trace r) = []
    /\ (certificates_written (trace r) = []
        \/ exists p c, certificates_written (trace r) = [(p, c)])
    /\ exists c, cursor_file (final_disk r) = Some c
                 /\ start_cursor V840.GENESIS_BLOCK d <= c.
Proof.
  intros Hs.
  destruct (run_notary_cycle_cases nodes step w d Hs) as (r & Hr & Hcase).
  exists r; split; [exact Hr|].
  pose proof (first_live_endpoint_quiet (is_connected w) nodes) as Hq.
  destruct (bootstrap_cursor V840.GENESIS_BLOCK d)
    as (Hcur & _ & Hd1 & _ & Hc1 & Hp1 & _).
  destruct (first_live_endpoint (is_connected w) nodes) as [t_conn [url|]].
  - destruct (shape_projections _ _ _ _ _ _ _ _ (after_loop_840_ok w) Hcase)
      as (_ & _ & _ & d2 & e & _ & _ & _ & _ & _ & _ & _ & _ & _ & Hc & Hp & Hfin & _).
    destruct (shape_scan_summary _ _ _ _ _ _ _ _ Hs (after_loop_840_ok w) Hcase)
      as (done & tail & p' & _ & _ & Hrs & _ & _ & Hp' & Hcf & _).
    pose proof (shape_tiles _ _ _ _ _ _ _ _ (after_loop_840_ok w) Hcase) as Ht.
    rewrite Hrs in Ht. apply tiles_app_l in Ht.
    destruct (tiles_facts _ _ _ Hs _ Ht) as (_ & _ & _ & Hge).
    split; [exact Hfin|].
    split; [rewrite Hp; destruct e as [? [|? ?]|?]; reflexivity|].
    split; [rewrite Hc; destruct e as [? [|? ?]|?]; simpl; eauto|].
    exists p'. split; [exact Hcf|]. rewrite Hp'. lia.
  - destruct Hcase as (_ & Htr & Hfin).
    destruct (quiet_projections _ Hq) as (_ & _ & Hc2 & Hp2 & _ & Hd2).
    simpl in Hc2, Hp2, Hd2.
    split; [rewrite Htr, Hfin, disk_after_app, Hd2; exact Hd1|].
    split; [rewrite Htr, publishes_app, Hp1, Hp2; reflexivity|].
    split; [left; rewrite Htr, certificates_written_app, Hc1, Hc2; reflexivity|].
    exists (start_cursor V840.GENESIS_BLOCK d). rewrite Hfin. split; [exact Hcur|lia].
Qed.

Lemma run_supreme_notary_final_disk
      (nodes : list string) (step : Z) (w : World) (d : Disk) :
  0 <= step ->
  exists r, V835.run_supreme_notary nodes step w d = Some r
    /\ final_disk r = disk_after d (trace r)
    /\ publishes (trace r) = map fst (certificates_written (trace r))
    /\ (certificates_written (trace r) = []
        \/ exists p c, certificates_written (trace r) = [(p, c)])
    /\ exists c, cursor_file (final_disk r) = Some c
                 /\ start_cursor V835.GENESIS_BLOCK d <= c.
Proof.
  intros Hs.
  destruct (run_supreme_notary_cases nodes step w d Hs) as (r & Hr & Hcase).
  exists r; split; [exact Hr|].
  pose proof (first_live_endpoint_quiet (is_connected w) nodes) as Hq.
  destruct (bootstrap_cursor V835.GENESIS_BLOCK d)
    as (Hcur & _ & Hd1 & _ & Hc1 & Hp1 & _).
  destruct (first_live_endpoint (is_connected w) nodes) as [t_conn [url|]].
  - destruct (shape_projections _ _ _ _ _ _ _ _ (after_loop_835_ok w) Hcase)
      as (_ & _ & _ & d2 & e & _ & _ & _ & _ & _ & _ & _ & _ & _ & Hc & Hp & Hfin & _).
    destruct (shape_scan_summary _ _ _ _ _ _ _ _ Hs (after_loop_835_ok w) Hcase)
      as (done & tail & p' & _ & _ & Hrs & _ & _ & Hp' & Hcf & _).
    pose proof (shape_tiles _ _ _ _ _ _ _ _ (after_loop_835_ok w) Hcase) as Ht.
    rewrite Hrs in Ht. apply tiles_app_l in Ht.
    destruct (tiles_facts _ _ _ Hs _ Ht) as (_ & _ & _ & Hge).
    split; [exact Hfin|].
    assert (Hcp : publishes (fst (V835.after_loop w (start_cursor V835.GENESIS_BLOCK d)
                                    (block_number w url) e d2))
                  = map fst (certificates_written
                               (fst (V835.after_loop w (start_cursor V835.GENESIS_BLOCK d)
                                       (block_number w url) e d2)))
                  /\ (certificates_written
                        (fst (V835.after_loop w (start_cursor V835.GENESIS_BLOCK d)
                                (block_number w url) e d2)) = []
                      \/ exists p c,
                          certificates_written
                            (fst (V835.after_loop w (start_cursor V835.GENESIS_BLOCK d)
                                    (block_number w url) e d2)) = [(p, c)])).
    { destruct e as [q [|x v]|msg]; [simpl; auto| |simpl; auto].
      change (V835.after_loop w (start_cursor V835.GENESIS_BLOCK d)
                (block_number w url) (LoopExit q (x :: v)) d2)
        with (V835.seal_and_publish w (start_cursor V835.GENESIS_BLOCK d)
                (block_number w url) (x :: v) d2).
      rewrite seal_and_publish_publishes, seal_and_publish_certificate.
      split; [reflexivity|]. right; eauto. }
    destruct Hcp as [Hcp1 Hcp2].
    split; [rewrite Hp, Hc; exact Hcp1|].
    split; [rewrite Hc; exact Hcp2|].
    exists p'. split; [exact Hcf|]. rewrite Hp'. lia.
  - destruct Hcase as (_ & Htr & Hfin).
    destruct (quiet_projections _ Hq) as (_ & _ & Hc2 & Hp2 & _ & Hd2).
    simpl in Hc2, Hp2, Hd2.
    split; [rewrite Htr, Hfin, disk_after_app, Hd2; exact Hd1|].
    split; [rewrite Htr, publishes_app, certificates_written_app, Hp1, Hp2, Hc1, Hc2;
            reflexivity|].
    split; [left; rewrite Htr, certificates_written_app, Hc1, Hc2; reflexivity|].
    exists (start_cursor V835.GENESIS_BLOCK d). rewrite Hfin. split; [exact Hcur|lia].
Qed.

(** The trace of the sealing step of v8.3.5: the announcement, the
    write, the publication, then the report on the publication. *)
Lemma seal_and_publish_trace (w : World) (last_block current_block : Z)
      (raw_vault : list json) (d : Disk) :
  let f_path := path_join (V835.SNAPSHOT_DIR w) (V835.f_name (time_time w 1)) in
  let bundle := V835.final_bundle (V835.atomic_hash raw_vault) last_block
                                  current_block (time_time w 0) raw_vault in
  V835.seal_and_publish w last_block current_block raw_vault d
  = (EvPrint (nl ++ "[*] MÜHÜRLEME BAŞLADI (Atomic Sealing)...")
       :: EvWriteCert f_path bundle
       :: EvPublish f_path
       :: publish_report (ipfs_add w f_path) (V835.atomic_hash raw_vault),
     write_snapshot f_path bundle d).
Proof. reflexivity. Qed.

(** X7. Publication is best effort in v8.3.5 and absent from v8.4.0.
    v8.3.5 hands to the publisher exactly the certificate files it wrote,
    each once, right after writing it; whatever the publisher does (exit
    code zero or not, or no process at all) the certificate is in the
    snapshot directory at the end, the run returns normally, and its last
    lines are the report that fits the publisher's result.  v8.4.0 never
    runs the publisher. *)
Theorem publication_is_best_effort
        (nodes : list string) (step : Z) (w : World) (d : Disk) :
  0 <= step ->
  (exists r, V835.run_supreme_notary nodes step w d = Some r
     /\ publishes (trace r) = map fst (certificates_written (trace r))
     /\ forall path cert,
          In (path, cert) (certificates_written (trace r)) ->
          In (path, cert) (snapshot_dir (final_disk r))
          /\ outcome r = Returned
          /\ exists t fingerprint,
               attestation_field "fingerprint_sha256" cert
               = Some (JStr (py fingerprint))
               /\ trace r = (t ++ EvWriteCert path cert :: EvPublish path
                               :: publish_report (ipfs_add w path) fingerprint)%list)
  /\ (exists r, V840.run_notary_cycle nodes step w d = Some r
                /\ publishes (trace r) = []).
Proof.
  intros Hs. split.
  - destruct (run_supreme_notary_final_disk nodes step w d Hs)
      as (r & Hr & _ & Hpub & _).
    destruct (run_supreme_notary_cases nodes step w d Hs) as (r' & Hr' & Hcase).
    rewrite Hr in Hr'. injection Hr' as <-.
    exists r. split; [exact Hr|]. split; [exact Hpub|].
    intros path cert Hin.
    pose proof (first_live_endpoint_quiet (is_connected w) nodes) as Hq.
    destruct (first_live_endpoint (is_connected w) nodes) as [t_conn [url|]].
    + destruct (shape_projections _ _ _ _ _ _ _ _ (after_loop_835_ok w) Hcase)
        as (before & banner & t_scan & d2 & e & _ & Htr & _ & _ & _ & _ & _ & _ & _
            & Hc & _ & _ & Hfin & Hout).
      rewrite Hc in Hin.
      destruct e as [q [|x v]|msg];
        [simpl in Hin; contradiction| |simpl in Hin; contradiction].
      change (V835.after_loop w (start_cursor V835.GENESIS_BLOCK d) (block_number w url)
                (LoopExit q (x :: v)) d2)
        with (V835.seal_and_publish w (start_cursor V835.GENESIS_BLOCK d)
                (block_number w url) (x :: v) d2) in Hin, Htr, Hfin.
      rewrite seal_and_publish_certificate in Hin.
      rewrite seal_and_publish_trace in Htr, Hfin.
      destruct Hin as [Hin|[]]. injection Hin as <- <-.
      split; [rewrite Hfin; left; reflexivity|].
      split; [exact Hout|].
      exists (before ++ EvReadCursor (start_cursor V835.GENESIS_BLOCK d) :: banner
                ++ t_scan
                ++ [EvPrint (nl ++ "[*] MÜHÜRLEME BAŞLADI (Atomic Sealing)...")])%list,
        (V835.atomic_hash (x :: v)).
      split; [reflexivity|].
      rewrite Htr. cbn [fst]. rewrite <- !app_assoc. simpl.
      rewrite <- !app_assoc. reflexivity.
    + destruct Hcase as (_ & Htr & _).
      destruct (bootstrap_cursor V835.GENESIS_BLOCK d) as (_ & _ & _ & _ & Hc1 & _).
      destruct (quiet_projections _ Hq) as (_ & _ & Hc2 & _). simpl in Hc2.
      rewrite Htr, certificates_written_app, Hc1, Hc2 in Hin. contradiction.
  - destruct (run_notary_cycle_final_disk nodes step w d Hs) as (r & Hr & _ & Hpub & _).
    exists r. split; assumption.
Qed.

Lemma publication_is_best_effort_witness :
  exists r,
    V835.main world_publisher_down disk_fresh = Some r
    /\ publishes (trace r) = map fst (certificates_written (trace r)).
Proof.
  destruct (publication_is_best_effort
              V835.RPC_NODES V835.BLOCK_STEP world_publisher_down disk_fresh
              ltac:(unfold V835.BLOCK_STEP; lia))
    as [(r & Hr & H & _) _].
  exists r. split; assumption.
Defined.

Example publisher_down_run :
  exists r cert,
    V835.main world_publisher_down disk_fresh = Some r
    /\ snapshot_dir (final_disk r)
       = [("/opt/aoxc/sentinel/snapshots/Supreme_Sealed_1700000001.json", cert)]
    /\ publishes (trace r)
       = ["/opt/aoxc/sentinel/snapshots/Supreme_Sealed_1700000001.json"]
    /\ last (trace r) EvSleep = EvPrint (nl ++ "[!] IPFS Hatası: Error: lock is held")
    /\ outcome r = Returned.
Proof.
  eexists. eexists. split; [vm_compute; reflexivity|].
  repeat split; vm_compute; reflexivity.
Qed.

(** X8. The only files a run touches in the snapshot directory are the
    certificates it writes: a run that writes none leaves the directory
    as it found it, files under other names are kept as they are, the
    certificate written is there at the end, and nothing is there that
    was neither there before nor written by the run. *)
Theorem snapshot_directory_only_gains_certificates
        (nodes : list string) (step : Z) (w : World) (d : Disk) :
  0 <= step ->
  (exists r, V840.run_notary_cycle nodes step w d = Some r
     /\ snapshot_dir (final_disk r)
        = snapshots_after (snapshot_dir d) (certificates_written (trace r))
     /\ (certificates_written (trace r) = [] ->
         snapshot_dir (final_disk r) = snapshot_dir d)
     /\ (forall p c, In (p, c) (snapshot_dir d) ->
                     ~ In p (map fst (certificates_written (trace r))) ->
                     In (p, c) (snapshot_dir (final_disk r)))
     /\ (forall p c, In (p, c) (certificates_written (trace r)) ->
                     In (p, c) (snapshot_dir (final_disk r)))
     /\ (forall p c, In (p, c) (snapshot_dir (final_disk r)) ->
                     In (p, c) (snapshot_dir d)
                     \/ In (p, c) (certificates_written (trace r))))
  /\ (exists r, V835.run_supreme_notary nodes step w d = Some r
     /\ snapshot_dir (final_disk r)
        = snapshots_after (snapshot_dir d) (certificates_written (trace r))
     /\ (certificates_written (trace r) = [] ->
         snapshot_dir (final_disk r) = snapshot_dir d)
     /\ (forall p c, In (p, c) (snapshot_dir d) ->
                     ~ In p (map fst (certificates_written (trace r))) ->
                     In (p, c) (snapshot_dir (final_disk r)))
     /\ (forall p c, In (p, c) (certificates_written (trace r)) ->
                     In (p, c) (snapshot_dir (final_disk r)))
     /\ (forall p c, In (p, c) (snapshot_dir (final_disk r)) ->
                     In (p, c) (snapshot_dir d)
                     \/ In (p, c) (certificates_written (trace r)))).
Proof.
  intros Hs.
  assert (Hgen : forall r : Run,
             final_disk r = disk_after d (trace r) ->
             (certificates_written (trace r) = []
              \/ exists p c, certificates_written (trace r) = [(p, c)]) ->
             snapshot_dir (final_disk r)
             = snapshots_after (snapshot_dir d) (certificates_written (trace r))
             /\ (certificates_written (trace r) = [] ->
                 snapshot_dir (final_disk r) = snapshot_dir d)
             /\ (forall p c, In (p, c) (snapshot_dir d) ->
                             ~ In p (map fst (certificates_written (trace r))) ->
                             In (p, c) (snapshot_dir (final_disk r)))
             /\ (forall p c, In (p, c) (certificates_written (trace r)) ->
                             In (p, c) (snapshot_dir (final_disk r)))
             /\ (forall p c, In (p, c) (snapshot_dir (final_disk r)) ->
                             In (p, c) (snapshot_dir d)
                             \/ In (p, c) (certificates_written (trace r)))).
  { intros r Hfin Hone.
    assert (E : snapshot_dir (final_disk r)
                = snapshots_after (snapshot_dir d) (certificates_written (trace r)))
      by (rewrite Hfin; apply snapshot_dir_disk_after_certs).
    split; [exact E|]. rewrite E.
    split; [intros ->; reflexivity|].
    split; [intros p c; apply snapshots_after_other_names|].
    split; [|intros p c; apply snapshots_after_origin].
    intros p c Hin. destruct Hone as [H0|(p1 & c1 & H1)].
    - rewrite H0 in Hin; contradiction.
    - rewrite H1 in Hin |- *. destruct Hin as [Hin|[]]. injection Hin as -> ->.
      left; reflexivity. }
  split.
  - destruct (run_notary_cycle_final_disk nodes step w d Hs)
      as (r & Hr & Hfin & _ & Hone & _).
    exists r. split; [exact Hr|]. apply Hgen; assumption.
  - destruct (run_supreme_notary_final_disk nodes step w d Hs)
      as (r & Hr & Hfin & _ & Hone & _).
    exists r. split; [exact Hr|]. apply Hgen; assumption.
Qed.

Lemma snapshot_directory_only_gains_certificates_witness :
  exists r,
    V840.main (world_busy 52084050) disk_with_history = Some r
    /\ snapshot_dir (final_disk r)
       = snapshots_after (snapshot_dir disk_with_history)
                         (certificates_written (trace r)).
Proof.
  destruct (snapshot_directory_only_gains_certificates
              V840.RPC_NODES V840.BLOCK_STEP (world_busy 52084050) disk_with_history
              ltac:(unfold V840.BLOCK_STEP; lia))
    as [(r & Hr & H & _) _].
  exists r. split; assumption.
Defined.

(** X9. The file name of v8.3.5 carries the second of writing and
    nothing else: when two runs that both seal read the same second for
    the name, the second run writes over the file of the first, and the
    only certificate left under that name is the second one. *)
Theorem v835_same_second_overwrites
        (nodes : list string) (step : Z) (w1 w2 : World) (d : Disk)
        (r1 r2 : Run) (p1 p2 : string) (c1 c2 : json) :
  0 <= step ->
  V835.run_supreme_notary nodes step w1 d = Some r1 ->
  V835.run_supreme_notary nodes step w2 (final_disk r1) = Some r2 ->
  certificates_written (trace r1) = [(p1, c1)] ->
  certificates_written (trace r2) = [(p2, c2)] ->
  base_dir w1 = base_dir w2 ->
  time_time w1 1 = time_time w2 1 ->
  p1 = p2
  /\ In (p1, c1) (snapshot_dir (final_disk r1))
  /\ forall c, In (p1, c) (snapshot_dir (final_disk r2)) -> c = c2.
Proof.
  intros Hs Hr1 Hr2 Hc1 Hc2 Hbase Htime.
  destruct (run_supreme_notary_certificates nodes step w1 d Hs) as (r & Hr & Hcert1).
  rewrite Hr1 in Hr. injection Hr as <-.
  destruct (run_supreme_notary_certificates nodes step w2 (final_disk r1) Hs)
    as (r & Hr & Hcert2).
  rewrite Hr2 in Hr. injection Hr as <-.
  destruct (Hcert1 p1 c1) as (_ & _ & _ & _ & Hp1); [rewrite Hc1; left; reflexivity|].
  destruct (Hcert2 p2 c2) as (_ & _ & _ & _ & Hp2); [rewrite Hc2; left; reflexivity|].
  assert (Hp : p1 = p2).
  { rewrite Hp1, Hp2. unfold V835.SNAPSHOT_DIR. rewrite Hbase, Htime. reflexivity. }
  destruct (run_supreme_notary_final_disk nodes step w1 d Hs) as (r & Hr & Hf1 & _).
  rewrite Hr1 in Hr. injection Hr as <-.
  destruct (run_supreme_notary_final_disk nodes step w2 (final_disk r1) Hs)
    as (r & Hr & Hf2 & _).
  rewrite Hr2 in Hr. injection Hr as <-.
  split; [exact Hp|]. split.
  - rewrite Hf1, snapshot_dir_disk_after_certs, Hc1. left; reflexivity.
  - intros c Hin.
    rewrite Hf2, snapshot_dir_disk_after_certs, Hc2 in Hin. simpl in Hin.
    destruct Hin as [Hin|Hin]; [congruence|].
    apply filter_In in Hin. destruct Hin as [_ Hneq]. simpl in Hneq.
    rewrite Hp, String.eqb_refl in Hneq. discriminate Hneq.
Qed.

Example two_sealing_runs_one_file :
  exists r1 r2 c1 c2,
    V835.main (world_busy 52084050) disk_fresh = Some r1
    /\ V835.main (world_busy 52084090) (final_disk r1) = Some r2
    /\ certificates_written (trace r1)
       = [("/opt/aoxc/sentinel/snapshots/Supreme_Sealed_1700000001.json", c1)]
    /\ certificates_written (trace r2)
       = [("/opt/aoxc/sentinel/snapshots/Supreme_Sealed_1700000001.json", c2)]
    /\ attestation_field "range" c1 = Some (JStr (py "52084000-52084050"))
    /\ attestation_field "range" c2 = Some (JStr (py "52084051-52084090"))
    /\ snapshot_dir (final_disk r2)
       = [("/opt/aoxc/sentinel/snapshots/Supreme_Sealed_1700000001.json", c2)].
Proof.
  eexists. eexists. eexists. eexists.
  split; [vm_compute; reflexivity|].
  split; [vm_compute; reflexivity|].
  split; [vm_compute; reflexivity|].
  split; [vm_compute; reflexivity|].
  repeat split; vm_compute; reflexivity.
Qed.

Lemma v835_same_second_overwrites_witness :
  In ("/opt/aoxc/sentinel/snapshots/Supreme_Sealed_1700000001.json",
      only_certificate first_run)
     (snapshot_dir (final_disk first_run)).
Proof.
  destruct (v835_same_second_overwrites
              V835.RPC_NODES V835.BLOCK_STEP
              (world_busy 52084050) (world_busy 52084090) disk_fresh
              first_run second_run
              "/opt/aoxc/sentinel/snapshots/Supreme_Sealed_1700000001.json"
              "/opt/aoxc/sentinel/snapshots/Supreme_Sealed_1700000001.json"
              (only_certificate first_run) (only_certificate second_run)
              ltac:(unfold V835.BLOCK_STEP; lia)
              ltac:(vm_compute; reflexivity)
              ltac:(vm_compute; reflexivity)
              ltac:(vm_compute; reflexivity)
              ltac:(vm_compute; reflexivity)
              eq_refl eq_refl)
    as (_ & H & _).
  exact H.
Defined.

(** ** The cursor across runs *)

(** X10. A run always leaves a cursor file, and never one that holds
    less than the cursor it found: also when no endpoint answers (the
    file is created before the connection is attempted) and when a call
    raises. *)
Theorem cursor_file_kept_by_every_run
        (nodes : list string) (step : Z) (w : World) (d : Disk) :
  0 <= step ->
  (exists r c, V840.run_notary_cycle nodes step w d = Some r
               /\ cursor_file (final_disk r) = Some c
               /\ start_cursor V840.GENESIS_BLOCK d <= c)
  /\ (exists r c, V835.run_supreme_notary nodes step w d = Some r
                  /\ cursor_file (final_disk r) = Some c
                  /\ start_cursor V835.GENESIS_BLOCK d <= c).
Proof.
  intros Hs. split.
  - destruct (run_notary_cycle_final_disk nodes step w d Hs)
      as (r & Hr & _ & _ & _ & c & Hc & Hle).
    exists r, c. auto.
  - destruct (run_supreme_notary_final_disk nodes step w d Hs)
      as (r & Hr & _ & _ & _ & c & Hc & Hle).
    exists r, c. auto.
Qed.

Lemma cursor_file_kept_by_every_run_witness :
  exists r c, V840.main world_offline disk_fresh = Some r
              /\ cursor_file (final_disk r) = Some c
              /\ 52084000 <= c.
Proof.
  destruct (cursor_file_kept_by_every_run
              V840.RPC_NODES V840.BLOCK_STEP world_offline disk_fresh
              ltac:(unfold V840.BLOCK_STEP; lia))
    as [H _].
  exact H.
Defined.

Lemma contiguous_from_app (l1 l2 : list (Z * Z)) :
  forall p, contiguous_from p l1 ->
            contiguous_from (pointer_after p l1) l2 ->
            contiguous_from p (l1 ++ l2).
Proof.
  induction l1 as [|[a b] l1 IH]; intros p H1 H2.
  - exact H2.
  - simpl in *. destruct H1 as [-> H1]. split; [reflexivity|].
    apply IH; [exact H1|]. rewrite pointer_after_cons in H2. exact H2.
Qed.

Section ShapeResume.
Variables genesis step : Z.
Variable line : Z -> Z -> nat -> string.
Variable after : Z -> Z -> ScanEnd -> Disk -> list Event * Disk.
Variable w : World.
Variable d : Disk.
Variable url : string.
Variable r : Run.
Hypothesis step_nonneg : 0 <= step.
Hypothesis after_fine : after_ok after.
Hypothesis shape : run_shape genesis step line after w d url r.

(** The completed ranges of a run, the range that raised if any, and
    the cursor the next run will find. *)
Lemma shape_completed :
  exists done tail,
    requested_ranges (trace r) = (done ++ tail)%list
    /\ Forall (answered (get_logs w url)) done
    /\ (tail = [] \/ exists a b msg, tail = [(a, b)]
                                     /\ get_logs w url a b = RpcError msg
                                     /\ a = pointer_after (start_cursor genesis d) done)
    /\ contiguous_from (start_cursor genesis d) done
    /\ start_cursor genesis (final_disk r)
       = pointer_after (start_cursor genesis d) done.
Proof.
  destruct (shape_scan_summary _ _ _ _ _ _ _ _ step_nonneg after_fine shape)
    as (done & tail & p' & e & d2 & Hrs & Hdone & Htail & Hp' & Hcf & _).
  pose proof (shape_tiles _ _ _ _ _ _ _ _ after_fine shape) as Ht.
  rewrite Hrs in Ht.
  pose proof (tiles_app_l _ _ _ _ _ Ht) as Htd.
  destruct (tiles_facts _ _ _ step_nonneg _ Htd) as (Hcont & _).
  exists done, tail.
  split; [exact Hrs|]. split; [exact Hdone|].
  split.
  - destruct Htail as [(-> & _)|(a & b & msg & -> & Herr & _)]; [left; reflexivity|].
    right. exists a, b, msg. repeat split; auto.
    clear - Ht. revert Ht.
    generalize (start_cursor genesis d).
    induction done as [|[x y] done IH]; intros p Ht; simpl in Ht.
    + unfold pointer_after; simpl. destruct Ht as [Ht _]. exact Ht.
    + destruct Ht as (_ & _ & _ & Ht). rewrite pointer_after_cons.
      apply IH. exact Ht.
  - split; [exact Hcont|].
    unfold start_cursor at 1. rewrite Hcf. exact Hp'.
Qed.
End ShapeResume.

(** X11. A run resumes exactly where the previous one stopped: no block
    between the cursor the first run found and the end of the second
    run's last range is skipped or requested by both in a completed
    range, whatever the two heads are; after a raise the next run starts
    again at the range that failed. *)
Theorem next_run_resumes_where_previous_stopped
        (nodes : list string) (step : Z) (w1 w2 : World) (d : Disk)
        (t1 t2 : list Event) (url1 url2 : string) :
  0 <= step ->
  first_live_endpoint (is_connected w1) nodes = (t1, Some url1) ->
  first_live_endpoint (is_connected w2) nodes = (t2, Some url2) ->
  (exists r1 r2,
      V840.run_notary_cycle nodes step w1 d = Some r1
      /\ V840.run_notary_cycle nodes step w2 (final_disk r1) = Some r2
      /\ resumes_where_it_stopped (get_logs w1 url1)
           (start_cursor V840.GENESIS_BLOCK d) r1 r2)
  /\ (exists r1 r2,
      V835.run_supreme_notary nodes step w1 d = Some r1
      /\ V835.run_supreme_notary nodes step w2 (final_disk r1) = Some r2
      /\ resumes_where_it_stopped (get_logs w1 url1)
           (start_cursor V835.GENESIS_BLOCK d) r1 r2).
Proof.
  intros Hs Hc1 Hc2. split.
  - destruct (run_notary_cycle_cases nodes step w1 d Hs) as (r1 & Hr1 & Hsh1).
    destruct (run_notary_cycle_cases nodes step w2 (final_disk r1) Hs)
      as (r2 & Hr2 & Hsh2).
    rewrite Hc1 in Hsh1. rewrite Hc2 in Hsh2.
    exists r1, r2. split; [exact Hr1|]. split; [exact Hr2|].
    destruct (shape_completed _ _ _ _ _ _ _ _ Hs (after_loop_840_ok w1) Hsh1)
      as (done & tail & Hrs & Hdone & Htail & Hcont & Hnext).
    pose proof (shape_tiles _ _ _ _ _ _ _ _ (after_loop_840_ok w2) Hsh2) as Ht2.
    destruct (tiles_facts _ _ _ Hs _ Ht2) as (Hcont2 & _).
    rewrite Hnext in Hcont2.
    exists done, tail. split; [exact Hrs|]. split; [exact Hdone|].
    split; [destruct Htail as [H|(a & b & msg & H1 & H2 & _)]; eauto 6|].
    split; [apply contiguous_from_app; assumption|].
    intros a b a2 b2 rest Et E2.
    destruct Htail as [H|(a' & b' & msg & H1 & _ & H3)]; [congruence|].
    rewrite Et in H1. injection H1 as <- <-.
    rewrite E2 in Hcont2. simpl in Hcont2. destruct Hcont2 as [-> _].
    symmetry; exact H3.
  - destruct (run_supreme_notary_cases nodes step w1 d Hs) as (r1 & Hr1 & Hsh1).
    destruct (run_supreme_notary_cases nodes step w2 (final_disk r1) Hs)
      as (r2 & Hr2 & Hsh2).
    rewrite Hc1 in Hsh1. rewrite Hc2 in Hsh2.
    exists r1, r2. split; [exact Hr1|]. split; [exact Hr2|].
    destruct (shape_completed _ _ _ _ _ _ _ _ Hs (after_loop_835_ok w1) Hsh1)
      as (done & tail & Hrs & Hdone & Htail & Hcont & Hnext).
    pose proof (shape_tiles _ _ _ _ _ _ _ _ (after_loop_835_ok w2) Hsh2) as Ht2.
    destruct (tiles_facts _ _ _ Hs _ Ht2) as (Hcont2 & _).
    rewrite Hnext in Hcont2.
    exists done, tail. split; [exact Hrs|]. split; [exact Hdone|].
    split; [destruct Htail as [H|(a & b & msg & H1 & H2 & _)]; eauto 6|].
    split; [apply contiguous_from_app; assumption|].
    intros a b a2 b2 rest Et E2.
    destruct Htail as [H|(a' & b' & msg & H1 & _ & H3)]; [congruence|].
    rewrite Et in H1. injection H1 as <- <-.
    rewrite E2 in Hcont2. simpl in Hcont2. destruct Hcont2 as [-> _].
    symmetry; exact H3.
Qed.

Lemma next_run_resumes_where_previous_stopped_witness :
  exists r1 r2,
    V840.main (world_flaky 52084200) disk_fresh = Some r1
    /\ V840.main (world_busy 52084300) (final_disk r1) = Some r2
    /\ resumes_where_it_stopped
         (get_logs (world_flaky 52084200) "https://xlayer.drpc.org") 52084000 r1 r2.
Proof.
  destruct (next_run_resumes_where_previous_stopped
              V840.RPC_NODES V840.BLOCK_STEP
              (world_flaky 52084200) (world_busy 52084300) disk_fresh
              [EvProbe "https://xlayer.drpc.org"] [EvProbe "https://xlayer.drpc.org"]
              "https://xlayer.drpc.org" "https://xlayer.drpc.org"
              ltac:(unfold V840.BLOCK_STEP; lia) eq_refl eq_refl)
    as [H _].
  exact H.
Defined.

Example resume_after_failure :
  exists r1 r2,
    V840.main (world_flaky 52084200) disk_fresh = Some r1
    /\ V840.main (world_busy 52084300) (final_disk r1) = Some r2
    /\ requested_ranges (trace r1) = [(52084000, 52084070); (52084071, 52084141)]
    /\ requested_ranges (trace r2)
       = [(52084071, 52084141); (52084142, 52084212); (52084213, 52084283);
          (52084284, 52084300)].
Proof.
  eexists. eexists.
  split; [vm_compute; reflexivity|].
  split; [vm_compute; reflexivity|].
  split; vm_compute; reflexivity.
Qed.

(** ** The connector *)

(** What the pass over the endpoints returns, read from its result. *)
Lemma first_live_endpoint_sound (probe : string -> Probe) (urls : list string) :
  match first_live_endpoint probe urls with
  | (t, Some url) =>
      exists before rest,
        urls = (before ++ url :: rest)%list
        /\ Forall (fun u => probe u <> Connected) before
        /\ probe url = Connected
        /\ t = map EvProbe (before ++ [url])
  | (t, None) =>
      Forall (fun u => probe u <> Connected) urls /\ t = map EvProbe urls
  end.
Proof.
  induction urls as [|u urls IH]; simpl.
  - split; constructor.
  - destruct (probe u) eqn:E.
    + exists [], urls. repeat split; auto.
    + destruct (first_live_endpoint probe urls) as [t [url|]].
      * destruct IH as (before & rest & -> & Hf & Hc & ->).
        exists (u :: before), rest. repeat split; auto.
        constructor; [congruence|exact Hf].
      * destruct IH as (Hf & ->). split; [|reflexivity].
        constructor; [congruence|exact Hf].
    + destruct (first_live_endpoint probe urls) as [t [url|]].
      * destruct IH as (before & rest & -> & Hf & Hc & ->).
        exists (u :: before), rest. repeat split; auto.
        constructor; [congruence|exact Hf].
      * destruct IH as (Hf & ->). split; [|reflexivity].
        constructor; [congruence|exact Hf].
Qed.

(** X12. The connector only ever returns an endpoint of its list that
    passed the probe, with every endpoint before it in the list probed
    once and found dead and none after it probed; and it gives up only
    after every endpoint of the list was probed once and found dead. *)
Theorem connector_returns_first_live_endpoint (w : World) (nodes : list string) :
  connector_sound w nodes (V835.setup_ghost_rpc nodes w)
  /\ connector_sound w nodes (V840.get_supreme_provider nodes w).
Proof.
  pose proof (first_live_endpoint_sound (is_connected w) nodes) as H.
  unfold connector_sound, V835.setup_ghost_rpc, V840.get_supreme_provider.
  destruct (first_live_endpoint (is_connected w) nodes) as [t [url|]]; simpl;
    split; exact H.
Qed.

(** ** The whole trace of a run *)

(** The trace of the loop, event by event. *)
Lemma loop_trace_exact (step head : Z) (rpc : Z -> Z -> RpcResult)
      (line : Z -> Z -> nat -> string) :
  forall fuel p v d t d' e,
    scan_loop step head rpc line fuel p v d = Some (t, d', e) ->
    match e with
    | LoopExit _ _ =>
        t = iteration_trace line rpc (List.length v) (requested_ranges t)
    | Raised _ =>
        exists done a b,
          requested_ranges t = (done ++ [(a, b)])%list
          /\ t = (iteration_trace line rpc (List.length v) done ++ [EvGetLogs a b])%list
    end.
Proof.
  apply (loop_ind step head rpc line
           (fun _ v _ t _ e =>
              match e with
              | LoopExit _ _ =>
                  t = iteration_trace line rpc (List.length v) (requested_ranges t)
              | Raised _ =>
                  exists done a b,
                    requested_ranges t = (done ++ [(a, b)])%list
                    /\ t = (iteration_trace line rpc (List.length v) done
                              ++ [EvGetLogs a b])%list
              end)).
  - intros; reflexivity.
  - intros p v d msg _ _. exists [], p, (Z.min (p + step) head). split; reflexivity.
  - intros p v d logs t d' e _ E IH.
    assert (Hlen : (List.length v + List.length (answer rpc (p, Z.min (p + step) head)))%nat
                   = List.length (v ++ logs)).
    { unfold answer; simpl. rewrite E, length_app. reflexivity. }
    destruct e as [q vq|msg].
    + simpl. rewrite Hlen. do 4 f_equal. exact IH.
    + destruct IH as (done & a & b & Hr & Ht).
      exists ((p, Z.min (p + step) head) :: done), a, b. simpl.
      split; [rewrite Hr; reflexivity|].
      rewrite Hlen. do 4 f_equal. exact Ht.
Qed.

Lemma iteration_trace_ranges line rpc (rs : list (Z * Z)) :
  forall n, requested_ranges (iteration_trace line rpc n rs) = rs.
Proof.
  induction rs as [|[a b] rs IH]; intros n; simpl; [reflexivity|].
  rewrite IH; reflexivity.
Qed.

(** The trace of a run that got a connection, piece by piece. *)
Lemma run_notary_cycle_trace
      (nodes : list string) (step : Z) (w : World) (d : Disk)
      (t_conn : list Event) (url : string) :
  0 <= step ->
  first_live_endpoint (is_connected w) nodes = (t_conn, Some url) ->
  exists r t_scan d2 e,
    V840.run_notary_cycle nodes step w d = Some r
    /\ scan_loop step (block_number w url) (get_logs w url) V840.progress_line
                 (scan_fuel (start_cursor V840.GENESIS_BLOCK d) (block_number w url))
                 (start_cursor V840.GENESIS_BLOCK d) []
                 (snd (bootstrap V840.GENESIS_BLOCK d)) = Some (t_scan, d2, e)
    /\ trace r
       = (fst (bootstrap V840.GENESIS_BLOCK d) ++ t_conn
            ++ EvReadCursor (start_cursor V840.GENESIS_BLOCK d)
            :: V840.banner url (start_cursor V840.GENESIS_BLOCK d) (block_number w url)
            ++ t_scan
            ++ fst (V840.after_loop w (start_cursor V840.GENESIS_BLOCK d)
                      (block_number w url) e d2))%list.
Proof.
  intros Hs Hconn. unfold V840.run_notary_cycle, V840.get_supreme_provider.
  change (V840.initialize_industrial_structure d) with (bootstrap V840.GENESIS_BLOCK d).
  destruct (bootstrap_cursor V840.GENESIS_BLOCK d) as (Hc & _).
  destruct (bootstrap V840.GENESIS_BLOCK d) as [t_init d1] eqn:Hb.
  rewrite Hconn. simpl in Hc |- *. rewrite Hc.
  destruct (loop_terminates step (block_number w url) (get_logs w url)
              V840.progress_line Hs
              (scan_fuel (start_cursor V840.GENESIS_BLOCK d) (block_number w url))
              (start_cursor V840.GENESIS_BLOCK d) [] d1) as [[[t_scan d2] e] Hrun].
  { unfold scan_fuel; lia. }
  rewrite Hrun.
  destruct (V840.after_loop w _ _ e d2) as [t_end d3] eqn:Ha.
  eexists. exists t_scan, d2, e. split; [reflexivity|]. split; [reflexivity|].
  simpl. rewrite Ha. reflexivity.
Qed.

Lemma run_supreme_notary_trace
      (nodes : list string) (step : Z) (w : World) (d : Disk)
      (t_conn : list Event) (url : string) :
  0 <= step ->
  first_live_endpoint (is_connected w) nodes = (t_conn, Some url) ->
  exists r t_scan d2 e,
    V835.run_supreme_notary nodes step w d = Some r
    /\ scan_loop step (block_number w url) (get_logs w url) V835.progress_line
                 (scan_fuel (start_cursor V835.GENESIS_BLOCK d) (block_number w url))
                 (start_cursor V835.GENESIS_BLOCK d) []
                 (snd (bootstrap V835.GENESIS_BLOCK d)) = Some (t_scan, d2, e)
    /\ trace r
       = (fst (bootstrap V835.GENESIS_BLOCK d) ++ t_conn
            ++ EvReadCursor (start_cursor V835.GENESIS_BLOCK d)
            :: V835.banner (start_cursor V835.GENESIS_BLOCK d) (block_number w url)
            ++ t_scan
            ++ fst (V835.after_loop w (start_cursor V835.GENESIS_BLOCK d)
                      (block_number w url) e d2))%list.
Proof.
  intros Hs Hconn. unfold V835.run_supreme_notary, V835.setup_ghost_rpc.
  change (V835.initialize_system d) with (bootstrap V835.GENESIS_BLOCK d).
  destruct (bootstrap_cursor V835.GENESIS_BLOCK d) as (Hc & _).
  destruct (bootstrap V835.GENESIS_BLOCK d) as [t_init d1] eqn:Hb.
  rewrite Hconn. simpl in Hc |- *. rewrite Hc.
  destruct (loop_terminates step (block_number w url) (get_logs w url)
              V835.progress_line Hs
              (scan_fuel (start_cursor V835.GENESIS_BLOCK d) (block_number w url))
              (start_cursor V835.GENESIS_BLOCK d) [] d1) as [[[t_scan d2] e] Hrun].
  { unfold scan_fuel; lia. }
  rewrite Hrun.
  destruct (V835.after_loop w _ _ e d2) as [t_end d3] eqn:Ha.
  eexists. exists t_scan, d2, e. split; [reflexivity|]. split; [reflexivity|].
  simpl. rewrite Ha. reflexivity.
Qed.

Lemma after_loop_840_no_scan_event (w : World) c h e d :
  forallb no_scan_event (fst (V840.after_loop w c h e d)) = true.
Proof. destruct e as [p [|x v]|msg]; reflexivity. Qed.

Lemma after_loop_835_no_scan_event (w : World) c h e d :
  forallb no_scan_event (fst (V835.after_loop w c h e d)) = true.
Proof.
  destruct e as [p [|x v]|msg]; try reflexivity.
  change (V835.after_loop w c h (LoopExit p (x :: v)) d)
    with (V835.seal_and_publish w c h (x :: v) d).
  rewrite seal_and_publish_trace. cbn [fst forallb no_scan_event andb].
  unfold publish_report.
  destruct (ipfs_add w _) as [rc ? ?|?]; [destruct (rc =? 0)|]; reflexivity.
Qed.

(** X13. The trace of a run has one layout: bootstrap, one pass of
    probes, the cursor read, the iterations (call, progress line with the
    running count, cursor write, sleep), at most one call that raised,
    the ending.  Hence a sleep separates any two calls, the count a
    progress line shows is the number of events fetched so far, and no
    endpoint is probed again once the scan has started, not even after a
    call has raised. *)
Theorem run_trace_layout
        (nodes : list string) (step : Z) (w : World) (d : Disk)
        (t_conn : list Event) (url : string) :
  0 <= step ->
  first_live_endpoint (is_connected w) nodes = (t_conn, Some url) ->
  (exists r, V840.run_notary_cycle nodes step w d = Some r
             /\ run_trace_laid_out V840.progress_line w nodes url
                                   (start_cursor V840.GENESIS_BLOCK d) r)
  /\ (exists r, V835.run_supreme_notary nodes step w d = Some r
                /\ run_trace_laid_out V835.progress_line w nodes url
                                      (start_cursor V835.GENESIS_BLOCK d) r).
Proof.
  intros Hs Hconn.
  pose proof (first_live_endpoint_sound (is_connected w) nodes) as Hsound.
  rewrite Hconn in Hsound.
  destruct Hsound as (dead & rest & Hnodes & _ & _ & Hattempts).
  assert (Hboot : forall g, fst (bootstrap g d) = []
                            \/ fst (bootstrap g d) = [EvWriteCursor (start_cursor g d)]).
  { intros g. unfold bootstrap, start_cursor. destruct (cursor_file d); simpl; auto. }
  assert (Hscan : forall line t_scan d1 d2 e c0,
             scan_loop step (block_number w url) (get_logs w url) line
                       (scan_fuel c0 (block_number w url)) c0 [] d1
             = Some (t_scan, d2, e) ->
             exists done tail,
               t_scan = (iteration_trace line (get_logs w url) 0 done ++ tail)%list
               /\ (tail = [] \/ exists a b msg, tail = [EvGetLogs a b]
                                                /\ get_logs w url a b = RpcError msg)).
  { intros line t_scan d1 d2 e c0 Hrun.
    pose proof (loop_trace_exact _ _ _ _ _ _ _ _ _ _ _ Hrun) as Hex.
    pose proof (loop_end _ _ _ _ _ _ _ _ _ _ _ Hrun) as Hend.
    destruct e as [q vq|msg].
    - exists (requested_ranges t_scan), []. rewrite app_nil_r. split; [exact Hex|auto].
    - destruct Hex as (done & a & b & Hr & Ht).
      destruct Hend as (done' & a' & b' & Hr' & Herr & _).
      rewrite Hr in Hr'. apply app_inj_tail in Hr'. destruct Hr' as [_ Hab].
      injection Hab as <- <-.
      exists done, [EvGetLogs a b]. split; [exact Ht|]. right; eauto. }
  split.
  - destruct (run_notary_cycle_trace nodes step w d t_conn url Hs Hconn)
      as (r & t_scan & d2 & e & Hr & Hrun & Htr).
    exists r. split; [exact Hr|].
    destruct (Hscan _ _ _ _ _ _ Hrun) as (done & tail & Ht & Htail).
    exists (fst (bootstrap V840.GENESIS_BLOCK d)), (dead ++ [url])%list,
      (V840.banner url (start_cursor V840.GENESIS_BLOCK d) (block_number w url)),
      done, tail,
      (fst (V840.after_loop w (start_cursor V840.GENESIS_BLOCK d)
              (block_number w url) e d2)).
    split; [rewrite Htr, Ht, Hattempts, <- !app_assoc; reflexivity|].
    split; [apply Hboot|]. split; [eauto|]. split; [reflexivity|].
    split; [exact Htail|]. apply after_loop_840_no_scan_event.
  - destruct (run_supreme_notary_trace nodes step w d t_conn url Hs Hconn)
      as (r & t_scan & d2 & e & Hr & Hrun & Htr).
    exists r. split; [exact Hr|].
    destruct (Hscan _ _ _ _ _ _ Hrun) as (done & tail & Ht & Htail).
    exists (fst (bootstrap V835.GENESIS_BLOCK d)), (dead ++ [url])%list,
      (V835.banner (start_cursor V835.GENESIS_BLOCK d) (block_number w url)),
      done, tail,
      (fst (V835.after_loop w (start_cursor V835.GENESIS_BLOCK d)
              (block_number w url) e d2)).
    split; [rewrite Htr, Ht, Hattempts, <- !app_assoc; reflexivity|].
    split; [apply Hboot|]. split; [eauto|]. split; [reflexivity|].
    split; [exact Htail|]. apply after_loop_835_no_scan_event.
Qed.

Lemma run_trace_layout_witness :
  exists r,
    V835.main (world_flaky 52084200) disk_fresh = Some r
    /\ run_trace_laid_out V835.progress_line (world_flaky 52084200) V835.RPC_NODES
                          "https://xlayer.drpc.org" 52084000 r.
Proof.
  destruct (run_trace_layout
              V835.RPC_NODES V835.BLOCK_STEP (world_flaky 52084200) disk_fresh
              [EvProbe "https://xlayer.drpc.org"] "https://xlayer.drpc.org"
              ltac:(unfold V835.BLOCK_STEP; lia) eq_refl)
    as [_ H].
  exact H.
Defined.

(** ** The shape of a fingerprint *)

Lemma round_length (s : list Z) (kw : Z * Z) :
  List.length s = 8%nat -> List.length (SHA256.round s kw) = 8%nat.
Proof.
  intros H.
  do 8 (destruct s as [|? s]; [discriminate H|]).
  destruct s; [reflexivity|discriminate H].
Qed.

Lemma fold_round_length (kws : list (Z * Z)) :
  forall s, List.length s = 8%nat ->
            List.length (fold_left SHA256.round kws s) = 8%nat.
Proof.
  induction kws as [|kw kws IH]; intros s H; simpl; auto.
  apply IH, round_length, H.
Qed.

Lemma add_words_length (x : list Z) :
  forall y, List.length x = List.length y ->
            List.length (SHA256.add_words x y) = List.length x.
Proof.
  induction x as [|a x IH]; intros [|b y] H; simpl in *; try discriminate; auto.
Qed.

Lemma compress_length (h block : list Z) :
  List.length h = 8%nat -> List.length (SHA256.compress h block) = 8%nat.
Proof.
  intros H. unfold SHA256.compress.
  rewrite add_words_length; [exact H|].
  rewrite fold_round_length; auto.
Qed.

Lemma fold_compress_length (blocks : list (list Z)) :
  forall h, List.length h = 8%nat ->
            List.length (fold_left SHA256.compress blocks h) = 8%nat.
Proof.
  induction blocks as [|b blocks IH]; intros h H; simpl; auto.
  apply IH, compress_length, H.
Qed.

Lemma land_255_byte (x : Z) : 0 <= Z.land x 255 < 256.
Proof.
  change 255 with (Z.ones 8). rewrite Z.land_ones by lia.
  apply Z.mod_pos_bound. reflexivity.
Qed.

Lemma be_bytes_bytes (n : nat) (x : Z) :
  List.length (SHA256.be_bytes n x) = n
  /\ Forall (fun b => 0 <= b < 256) (SHA256.be_bytes n x).
Proof.
  induction n as [|n [IH1 IH2]]; simpl; [split; constructor|].
  split; [f_equal; exact IH1|].
  constructor; [apply land_255_byte | exact IH2].
Qed.

Lemma flat_map_be_bytes (ws : list Z) :
  List.length (flat_map (SHA256.be_bytes 4) ws) = (4 * List.length ws)%nat
  /\ Forall (fun b => 0 <= b < 256) (flat_map (SHA256.be_bytes 4) ws).
Proof.
  induction ws as [|x ws [IH1 IH2]]; [split; constructor|].
  destruct (be_bytes_bytes 4 x) as [H1 H2].
  change (flat_map (SHA256.be_bytes 4) (x :: ws))
    with (SHA256.be_bytes 4 x ++ flat_map (SHA256.be_bytes 4) ws)%list.
  split.
  - rewrite length_app, H1, IH1. simpl List.length. lia.
  - apply Forall_app. split; assumption.
Qed.

(** The digest is made of 32 bytes. *)
Lemma digest_bytes (msg : list Z) :
  List.length (SHA256.digest msg) = 32%nat
  /\ Forall (fun b => 0 <= b < 256) (SHA256.digest msg).
Proof.
  unfold SHA256.digest.
  destruct (flat_map_be_bytes
              (fold_left SHA256.compress
                 (SHA256.blocks (List.length (SHA256.pad msg)) (SHA256.pad msg))
                 SHA256.H0)) as [H1 H2].
  split; [|exact H2].
  rewrite H1, fold_compress_length; reflexivity.
Qed.

Lemma upper_hex_digit (d : Z) :
  0 <= d < 16 ->
  upper_hex_only (String (upper_ascii (hex_digit d)) EmptyString) = true.
Proof.
  intros H.
  assert (E : d = 0 \/ d = 1 \/ d = 2 \/ d = 3 \/ d = 4 \/ d = 5 \/ d = 6 \/ d = 7
              \/ d = 8 \/ d = 9 \/ d = 10 \/ d = 11 \/ d = 12 \/ d = 13 \/ d = 14
              \/ d = 15) by lia.
  repeat (destruct E as [->|E]; [reflexivity|]). subst d; reflexivity.
Qed.

Lemma upper_hex_of_bytes (bytes : list Z) :
  Forall (fun b => 0 <= b < 256) bytes ->
  String.length (upper (SHA256.hex_of_bytes bytes)) = (2 * List.length bytes)%nat
  /\ upper_hex_only (upper (SHA256.hex_of_bytes bytes)) = true.
Proof.
  induction 1 as [|b bytes Hb _ [IH1 IH2]]; [split; reflexivity|].
  split.
  - simpl. rewrite IH1. lia.
  - assert (H1 : 0 <= Z.shiftr b 4 < 16).
    { rewrite Z.shiftr_div_pow2 by lia. change (2 ^ 4) with 16.
      split; [apply Z.div_pos; lia | apply Z.div_lt_upper_bound; lia]. }
    assert (H2 : 0 <= Z.land b 15 < 16).
    { change 15 with (Z.ones 4). rewrite Z.land_ones by lia.
      apply Z.mod_pos_bound. reflexivity. }
    pose proof (upper_hex_digit _ H1) as U1.
    pose proof (upper_hex_digit _ H2) as U2.
    cbn [SHA256.hex_of_bytes upper upper_hex_only] in *.
    rewrite andb_true_r in U1, U2. rewrite U1, U2, IH2. reflexivity.
Qed.

Lemma prefix_of_length (n : nat) :
  forall s, (n <= String.length s)%nat -> String.length (prefix_of n s) = n.
Proof.
  unfold prefix_of. induction n as [|n IH]; intros s H.
  - destruct s; reflexivity.
  - destruct s as [|c s]; simpl in *; [lia|]. rewrite IH; [reflexivity|lia].
Qed.

Lemma prefix_of_upper_hex (n : nat) :
  forall s, upper_hex_only s = true -> upper_hex_only (prefix_of n s) = true.
Proof.
  unfold prefix_of. induction n as [|n IH]; intros s H.
  - destruct s; reflexivity.
  - destruct s as [|c s]; [reflexivity|].
    simpl in *. apply andb_true_iff in H. destruct H as [H1 H2].
    rewrite H1, IH; auto.
Qed.

(** X14. Whatever the batch, the fingerprint either script computes is
    64 characters long and made of the characters 0-9 and A-F only; the
    part of it that v8.4.0 puts in the file name is therefore always 8
    such characters. *)
Theorem fingerprint_is_64_upper_hex (batch : list json) (s e : Z) (now : string) :
  String.length (snd (V840.seal_artifact batch s e now)) = 64%nat
  /\ upper_hex_only (snd (V840.seal_artifact batch s e now)) = true
  /\ String.length (V835.atomic_hash batch) = 64%nat
  /\ upper_hex_only (V835.atomic_hash batch) = true
  /\ String.length (prefix_of 8 (snd (V840.seal_artifact batch s e now))) = 8%nat
  /\ upper_hex_only (prefix_of 8 (snd (V840.seal_artifact batch s e now))) = true.
Proof.
  set (fp := upper (SHA256.hex_of_bytes
                      (SHA256.digest (encode (dumps_sorted (JList batch)))))).
  change (snd (V840.seal_artifact batch s e now)) with fp.
  change (V835.atomic_hash batch) with fp.
  destruct (digest_bytes (encode (dumps_sorted (JList batch)))) as [Hlen Hbytes].
  destruct (upper_hex_of_bytes _ Hbytes) as [H1 H2].
  rewrite Hlen in H1. change (2 * 32)%nat with 64%nat in H1.
  fold fp in H1, H2.
  split; [exact H1|]. split; [exact H2|]. split; [exact H1|]. split; [exact H2|].
  split.
  - apply prefix_of_length. rewrite H1. lia.
  - apply prefix_of_upper_hex. exact H2.
Qed.

(** ** The manifest that is hashed *)

Lemma ascii_only_app (a b : string) :
  ascii_only (a ++ b) = ascii_only a && ascii_only b.
Proof.
  induction a as [|c a IH]; simpl; [reflexivity|].
  rewrite IH, andb_assoc. reflexivity.
Qed.

Lemma hex_digit_ascii (d : Z) :
  0 <= d < 16 -> (N_of_ascii (hex_digit d) <? 128)%N = true.
Proof.
  intros H.
  assert (E : d = 0 \/ d = 1 \/ d = 2 \/ d = 3 \/ d = 4 \/ d = 5 \/ d = 6 \/ d = 7
              \/ d = 8 \/ d = 9 \/ d = 10 \/ d = 11 \/ d = 12 \/ d = 13 \/ d = 14
              \/ d = 15) by lia.
  repeat (destruct E as [->|E]; [reflexivity|]). subst d; reflexivity.
Qed.

Lemma land_15_digit (x : Z) : 0 <= Z.land x 15 < 16.
Proof.
  change 15 with (Z.ones 4). rewrite Z.land_ones by lia.
  apply Z.mod_pos_bound. reflexivity.
Qed.

Lemma hex4_ascii (n : Z) : ascii_only (hex4 n) = true.
Proof.
  unfold hex4. cbn [ascii_only].
  rewrite !hex_digit_ascii by apply land_15_digit. reflexivity.
Qed.

Lemma string_of_uint_ascii (d : Decimal.uint) :
  ascii_only (NilEmpty.string_of_uint d) = true.
Proof. induction d; simpl; auto. Qed.

Lemma str_of_Z_ascii (n : Z) : ascii_only (str_of_Z n) = true.
Proof.
  unfold str_of_Z, NilZero.string_of_int, NilZero.string_of_uint.
  destruct (Z.to_int n) as [d|d]; destruct d; simpl; auto using string_of_uint_ascii.
Qed.

Lemma escape_char_ascii (c : N) : ascii_only (escape_char c) = true.
Proof.
  unfold escape_char.
  destruct (Z.of_N c =? 92); [reflexivity|].
  destruct (Z.of_N c =? 34); [reflexivity|].
  destruct (Z.of_N c =? 8); [reflexivity|].
  destruct (Z.of_N c =? 12); [reflexivity|].
  destruct (Z.of_N c =? 10); [reflexivity|].
  destruct (Z.of_N c =? 13); [reflexivity|].
  destruct (Z.of_N c =? 9); [reflexivity|].
  destruct ((32 <=? Z.of_N c) && (Z.of_N c <=? 126)) eqn:E.
  - apply andb_true_iff in E. destruct E as [E1 E2].
    apply Z.leb_le in E1. apply Z.leb_le in E2.
    cbn [ascii_only]. rewrite N_ascii_embedding by lia.
    rewrite andb_true_r. apply N.ltb_lt. lia.
  - destruct (Z.of_N c <? 65536).
    + rewrite ascii_only_app, hex4_ascii. reflexivity.
    + rewrite !ascii_only_app, !hex4_ascii. reflexivity.
Qed.

Lemma concat_ascii (parts : list string) :
  Forall (fun s => ascii_only s = true) parts ->
  ascii_only (concat EmptyString parts) = true.
Proof.
  induction 1 as [|s parts Hs Hparts IH]; [reflexivity|].
  simpl. destruct parts; [exact Hs|].
  rewrite !ascii_only_app, Hs. simpl. exact IH.
Qed.

Lemma encode_basestring_ascii_ascii (s : pystr) :
  ascii_only (encode_basestring_ascii s) = true.
Proof.
  unfold encode_basestring_ascii.
  rewrite !ascii_only_app, concat_ascii; [reflexivity|].
  induction s; constructor; auto using escape_char_ascii.
Qed.

Lemma join_ascii (sep : string) (parts : list string) :
  ascii_only sep = true ->
  Forall (fun s => ascii_only s = true) parts ->
  ascii_only (join sep parts) = true.
Proof.
  intros Hsep. induction 1 as [|s parts Hs Hparts IH]; [reflexivity|].
  simpl. destruct parts; [exact Hs|].
  rewrite !ascii_only_app, Hs, Hsep. simpl. exact IH.
Qed.

Lemma dumps_sorted_ascii (j : json) : ascii_only (dumps_sorted j) = true.
Proof.
  induction j as [|b|n|s|items IH|members IH] using json_nested_ind.
  - reflexivity.
  - destruct b; reflexivity.
  - apply str_of_Z_ascii.
  - apply encode_basestring_ascii_ascii.
  - cbn [dumps_sorted]. rewrite !ascii_only_app, join_ascii; [reflexivity|reflexivity|].
    induction IH; constructor; auto.
  - cbn [dumps_sorted]. rewrite !ascii_only_app, join_ascii; [reflexivity|reflexivity|].
    assert (Hall : Forall (fun kv : pystr * string => ascii_only (snd kv) = true)
                          (sort_items (map (fun kv => (fst kv, dumps_sorted (snd kv)))
                                           members))).
    { eapply Permutation_Forall; [apply sort_items_perm|].
      induction IH; constructor; auto. }
    induction Hall as [|kv l Hkv _ IHl]; constructor; auto.
    unfold render_member.
    rewrite !ascii_only_app, encode_basestring_ascii_ascii, Hkv. reflexivity.
Qed.

Lemma encode_ascii (s : string) :
  ascii_only s = true ->
  List.length (encode s) = String.length s
  /\ Forall (fun b => 0 <= b < 128) (encode s).
Proof.
  induction s as [|c s IH]; simpl; [split; constructor|].
  intros H. apply andb_true_iff in H. destruct H as [Hc Hs].
  destruct (IH Hs) as [IH1 IH2].
  split; [f_equal; exact IH1|].
  constructor; [|exact IH2]. apply N.ltb_lt in Hc. lia.
Qed.

(** X15. Whatever the events hold, the manifest that is hashed is made
    of ASCII characters only: [json.dumps] escapes everything else.  The
    bytes handed to SHA-256 are therefore one per character of the
    manifest, each below 128, whatever the encoding [str.encode] uses. *)
Theorem manifest_is_ascii (batch : list json) :
  ascii_only (dumps_sorted (JList batch)) = true
  /\ List.length (encode (dumps_sorted (JList batch)))
     = String.length (dumps_sorted (JList batch))
  /\ Forall (fun b => 0 <= b < 128) (encode (dumps_sorted (JList batch))).
Proof.
  pose proof (dumps_sorted_ascii (JList batch)) as H.
  split; [exact H|]. apply encode_ascii, H.
Qed.

(** ** The text of the cursor file *)

Lemma drop_underscores_digits (u : Decimal.uint) :
  drop_underscores true (NilEmpty.string_of_uint u)
  = Some (NilEmpty.string_of_uint u).
Proof.
  induction u; [reflexivity|..];
    cbn [NilEmpty.string_of_uint drop_underscores]; rewrite IHu; reflexivity.
Qed.

Lemma digit_part_digits (u : Decimal.uint) :
  u <> Decimal.Nil -> digit_part (NilEmpty.string_of_uint u) = Some u.
Proof.
  intros Hu. unfold digit_part.
  assert (E : drop_underscores false (NilEmpty.string_of_uint u)
              = Some (NilEmpty.string_of_uint u)).
  { destruct u; [congruence|..];
      cbn [NilEmpty.string_of_uint drop_underscores];
      rewrite drop_underscores_digits; reflexivity. }
  rewrite E. apply NilEmpty.usu.
Qed.

Lemma int_of_text_string_of_int (d : Decimal.int) :
  int_of_text (NilZero.string_of_int d) = Some (Z.of_int d).
Proof.
  destruct d as [u|u].
  - destruct u; [reflexivity|..];
      (cbn [NilZero.string_of_int NilZero.string_of_uint];
       match goal with
       | |- int_of_text (NilEmpty.string_of_uint ?v) = _ =>
           assert (E : digit_part (NilEmpty.string_of_uint v) = Some v)
             by (apply digit_part_digits; discriminate);
           cbn [NilEmpty.string_of_uint] in E |- *;
           unfold int_of_text; cbn [Ascii.eqb Bool.eqb]; rewrite E; reflexivity
       end).
  - cbn [NilZero.string_of_int]. unfold int_of_text.
    change (Ascii.eqb "-" "-") with true. cbv iota.
    destruct u; [reflexivity|..];
      (cbn [NilZero.string_of_uint];
       rewrite digit_part_digits by discriminate; reflexivity).
Qed.

Lemma int_of_text_str (n : Z) : int_of_text (str_of_Z n) = Some n.
Proof.
  unfold str_of_Z. rewrite int_of_text_string_of_int, DecimalZ.of_to. reflexivity.
Qed.

Lemma string_of_uint_no_space (d : Decimal.uint) :
  no_space (NilEmpty.string_of_uint d) = true.
Proof. induction d; simpl; auto. Qed.

Lemma str_of_Z_no_space (n : Z) : no_space (str_of_Z n) = true.
Proof.
  unfold str_of_Z, NilZero.string_of_int, NilZero.string_of_uint.
  destruct (Z.to_int n) as [d|d]; destruct d; simpl;
    auto using string_of_uint_no_space.
Qed.

Lemma rstrip_no_space (s : string) : no_space s = true -> rstrip s = s.
Proof.
  induction s as [|c s IH]; simpl; [reflexivity|].
  intros H. apply andb_true_iff in H. destruct H as [Hc Hs].
  rewrite (IH Hs). destruct s; [|reflexivity].
  apply negb_true_iff in Hc. rewrite Hc. reflexivity.
Qed.

Lemma rstrip_trailing (s tail : string) :
  no_space s = true -> rstrip tail = EmptyString -> rstrip (s ++ tail) = s.
Proof.
  intros Hs Htail. induction s as [|c s IH]; simpl; [exact Htail|].
  simpl in Hs. apply andb_true_iff in Hs. destruct Hs as [Hc Hs].
  rewrite (IH Hs). destruct s; [|reflexivity].
  apply negb_true_iff in Hc. rewrite Hc. reflexivity.
Qed.

Lemma lstrip_leading (lead s : string) :
  lstrip lead = EmptyString -> lstrip (lead ++ s) = lstrip s.
Proof.
  induction lead as [|c lead IH]; simpl; [reflexivity|].
  destruct (is_space c); [exact IH|discriminate].
Qed.

Lemma lstrip_no_space (s : string) : no_space s = true -> lstrip s = s.
Proof.
  destruct s as [|c s]; simpl; [reflexivity|].
  intros H. apply andb_true_iff in H. destruct H as [Hc _].
  apply negb_true_iff in Hc. rewrite Hc. reflexivity.
Qed.

Lemma lstrip_app_no_space (s tail : string) :
  s <> EmptyString -> no_space s = true -> lstrip (s ++ tail) = (s ++ tail)%string.
Proof.
  destruct s as [|c s]; [congruence|]. simpl.
  intros _ H. apply andb_true_iff in H. destruct H as [Hc _].
  apply negb_true_iff in Hc. rewrite Hc. reflexivity.
Qed.

Lemma str_of_Z_nonempty (n : Z) : str_of_Z n <> EmptyString.
Proof.
  intros H. pose proof (int_of_text_str n) as E. rewrite H in E. discriminate E.
Qed.

(** X16. The cursor file round-trips: the text a run writes for a
    pointer is read back as that pointer by the next run, and blank
    characters around it, as a shell or an editor leaves them, change
    nothing.  The pointer is taken below the 4300 digits at which recent
    Python versions refuse to convert an integer. *)
Theorem cursor_text_round_trip (pointer : Z) (lead tail : string) :
  Z.abs pointer < 10 ^ 4300 ->
  lstrip lead = EmptyString ->
  rstrip tail = EmptyString ->
  read_cursor_text (lead ++ cursor_text pointer ++ tail) = Some pointer.
Proof.
  intros _ Hlead Htail. unfold read_cursor_text, strip, cursor_text.
  rewrite (lstrip_leading _ _ Hlead).
  rewrite lstrip_app_no_space
    by (apply str_of_Z_nonempty || apply str_of_Z_no_space).
  rewrite (rstrip_trailing _ _ (str_of_Z_no_space pointer) Htail).
  apply int_of_text_str.
Qed.

Lemma cursor_text_round_trip_witness :
  read_cursor_text (" " ++ cursor_text 52084071 ++ nl) = Some 52084071
  /\ read_cursor_text (cursor_text (-3)) = Some (-3).
Proof.
  split.
  - apply (cursor_text_round_trip 52084071 " " nl); vm_compute; reflexivity.
  - apply (cursor_text_round_trip (-3) EmptyString EmptyString);
      vm_compute; reflexivity.
Defined.

(** ** Running again with no new block *)

Section ShapeRerun.
Variables genesis step : Z.
Variable line : Z -> Z -> nat -> string.
Variables after after' : Z -> Z -> ScanEnd -> Disk -> list Event * Disk.
Variables w w' : World.
Variable d : Disk.
Variables url url' : string.
Variables r1 r2 : Run.
Hypothesis step_nonneg : 0 <= step.
Hypothesis after_fine : after_ok after.
Hypothesis after_fine' : after_ok after'.
Hypothesis shape1 : run_shape genesis step line after w d url r1.
Hypothesis shape2 : run_shape genesis step line after' w' (final_disk r1) url' r2.

Lemma shape_rerun :
  start_cursor genesis d < block_number w url ->
  Forall (answered (get_logs w url)) (requested_ranges (trace r1)) ->
  block_number w' url' <= block_number w url ->
  quiet_rerun r1 r2.
Proof.
  intros Hlt Hans Hhead.
  destruct (shape_complete_scan_cursor _ _ _ _ _ _ _ _ step_nonneg after_fine
                                       shape1 Hlt Hans)
    as (front & a & b & _ & Hcur & Hb & _).
  assert (Hstart : start_cursor genesis (final_disk r1) = b + 1)
    by (unfold start_cursor; rewrite Hcur; reflexivity).
  assert (Hboot : bootstrap genesis (final_disk r1) = ([], final_disk r1))
    by (unfold bootstrap; rewrite Hcur; reflexivity).
  assert (Hge : block_number w' url' <= start_cursor genesis (final_disk r1))
    by (rewrite Hstart; lia).
  destruct (shape_idle _ _ _ _ _ _ _ _ after_fine' shape2 Hge)
    as (Hr & Hw & Hc & Hp & Hd & Ho & _).
  rewrite Hboot in Hw, Hd. simpl in Hw, Hd.
  repeat split; assumption.
Qed.
End ShapeRerun.

(** X17. After a run that scanned up to the head, a second run that
    finds the head no higher requests nothing, writes no cursor and no
    second certificate, publishes nothing and leaves the disk as the
    first run left it. *)
Theorem rerun_without_new_block_is_quiet
        (nodes : list string) (step : Z) (w w' : World) (d : Disk)
        (t_conn t_conn' : list Event) (url url' : string) :
  0 <= step ->
  first_live_endpoint (is_connected w) nodes = (t_conn, Some url) ->
  first_live_endpoint (is_connected w') nodes = (t_conn', Some url') ->
  block_number w' url' <= block_number w url ->
  (forall r1,
      V840.run_notary_cycle nodes step w d = Some r1 ->
      start_cursor V840.GENESIS_BLOCK d < block_number w url ->
      Forall (answered (get_logs w url)) (requested_ranges (trace r1)) ->
      exists r2, V840.run_notary_cycle nodes step w' (final_disk r1) = Some r2
                 /\ quiet_rerun r1 r2)
  /\ (forall r1,
      V835.run_supreme_notary nodes step w d = Some r1 ->
      start_cursor V835.GENESIS_BLOCK d < block_number w url ->
      Forall (answered (get_logs w url)) (requested_ranges (trace r1)) ->
      exists r2, V835.run_supreme_notary nodes step w' (final_disk r1) = Some r2
                 /\ quiet_rerun r1 r2).
Proof.
  intros Hs Hconn Hconn' Hhead. split; intros r1 Hr1 Hlt Hans.
  - destruct (run_notary_cycle_cases nodes step w d Hs) as (r & Hr & Hsh1).
    rewrite Hr1 in Hr. injection Hr as <-. rewrite Hconn in Hsh1.
    destruct (run_notary_cycle_cases nodes step w' (final_disk r1) Hs)
      as (r2 & Hr2 & Hsh2).
    rewrite Hconn' in Hsh2. exists r2. split; [exact Hr2|].
    exact (shape_rerun _ _ _ _ _ _ _ _ _ _ _ _ Hs (after_loop_840_ok w)
                       (after_loop_840_ok w') Hsh1 Hsh2 Hlt Hans Hhead).
  - destruct (run_supreme_notary_cases nodes step w d Hs) as (r & Hr & Hsh1).
    rewrite Hr1 in Hr. injection Hr as <-. rewrite Hconn in Hsh1.
    destruct (run_supreme_notary_cases nodes step w' (final_disk r1) Hs)
      as (r2 & Hr2 & Hsh2).
    rewrite Hconn' in Hsh2. exists r2. split; [exact Hr2|].
    exact (shape_rerun _ _ _ _ _ _ _ _ _ _ _ _ Hs (after_loop_835_ok w)
                       (after_loop_835_ok w') Hsh1 Hsh2 Hlt Hans Hhead).
Qed.

Lemma rerun_without_new_block_is_quiet_witness :
  exists r1 r2,
    V840.main (world_busy 52084142) disk_fresh = Some r1
    /\ V840.main (world_busy 52084142) (final_disk r1) = Some r2
    /\ quiet_rerun r1 r2.
Proof.
  assert (Hs : 0 <= V840.BLOCK_STEP) by (unfold V840.BLOCK_STEP; lia).
  destruct (run_notary_cycle_cases V840.RPC_NODES V840.BLOCK_STEP
                                   (world_busy 52084142) disk_fresh Hs)
    as (r1 & Hr1 & _).
  destruct (rerun_without_new_block_is_quiet
              V840.RPC_NODES V840.BLOCK_STEP
              (world_busy 52084142) (world_busy 52084142) disk_fresh
              [EvProbe "https://xlayer.drpc.org"] [EvProbe "https://xlayer.drpc.org"]
              "https://xlayer.drpc.org" "https://xlayer.drpc.org"
              Hs eq_refl eq_refl (Z.le_refl _))
    as [H _].
  destruct (H r1 Hr1 eq_refl (busy_answers _ _)) as (r2 & Hr2 & Hq).
  exists r1, r2. repeat split; try assumption; apply Hq.
Defined.
